(** * Soil-moisture monitoring scripts: a shallow embedding and its properties

    The development follows the three Python scripts of the repository:

    - [SoilSensor_Prediction_Email.py]: GPIO callback, CSV history, LSTM
      forecast and e-mail alert (module [Predict]);
    - [soilMail.py]: polling loop that mails a reading when the hour of day
      has moved by more than three (module [SoilMail]);
    - [soilMeas.py]: ADC sampling with clamped percentage (module [SoilMeas]).

    Numbers that are Python floats in the scripts are exact rationals ([Q])
    here; Python integers are [Z]; sizes and indices are [nat].  Calls into
    the outside world (GPIO, I2C, ADC, clock, SMTP, the Keras model) take
    their outcome from an explicit environment and leave their mark on an
    explicit trace. *)

From Stdlib Require Import Ascii String ZArith QArith Qminmax Qround List Bool Lia Lqa.
Import ListNotations.
Close Scope Q_scope.
Open Scope nat_scope.

(** ** Python run-time notions shared by the three scripts *)

Module Py.

(** The exception classes the scripts can meet.  [KeyboardInterrupt] and
    [SystemExit] derive from [BaseException] only, so [except Exception]
    lets them through. *)
Inductive exn : Type :=
| KeyboardInterrupt
| SystemExit
| IndexError
| ValueError
| OSError
| SMTPException.

Definition is_Exception (e : exn) : bool :=
  match e with
  | KeyboardInterrupt | SystemExit => false
  | IndexError | ValueError | OSError | SMTPException => true
  end.

Inductive result (A : Type) : Type :=
| Ok (a : A)
| Raise (e : exn).
Arguments Ok {A} a.
Arguments Raise {A} e.

Definition rbind {A B} (r : result A) (k : A -> result B) : result B :=
  match r with
  | Ok a => k a
  | Raise e => Raise e
  end.

Notation "'let?' x ':=' e 'in' k" := (rbind e (fun x => k))
  (at level 10, x pattern, e at level 100, k at level 200).

(** Computations over a world [W]: the world reached is returned also when
    the computation raises, as effects performed before the exception stay. *)
Definition M (W A : Type) : Type := W -> result A * W.

Definition ret {W A} (a : A) : M W A := fun w => (Ok a, w).

Definition bind {W A B} (m : M W A) (k : A -> M W B) : M W B :=
  fun w =>
    match m w with
    | (Ok a, w') => k a w'
    | (Raise e, w') => (Raise e, w')
    end.

Definition lift {W A} (r : result A) : M W A := fun w => (r, w).

(** [try: body  except Exception as e: handler e]. *)
Definition try_except {W A} (body : M W A) (handler : exn -> M W A) : M W A :=
  fun w =>
    match body w with
    | (Ok a, w') => (Ok a, w')
    | (Raise e, w') =>
        if is_Exception e then handler e w' else (Raise e, w')
    end.

Notation "x <- e ;; k" := (bind e (fun x => k))
  (at level 100, e at next level, right associativity).
Notation "e ;; k" := (bind e (fun _ => k))
  (at level 100, right associativity).

(** [range(n)] for a Python integer [n]: empty when [n <= 0]. *)
Definition range (n : Z) : list nat := seq 0 (Z.to_nat n).

(** [len(l)] as a Python integer. *)
Definition len {A} (l : list A) : Z := Z.of_nat (length l).

(** [l[i]] for a non-negative index: [IndexError] out of range. *)
Definition getitem {A} (l : list A) (i : nat) : result A :=
  match nth_error l i with
  | Some x => Ok x
  | None => Raise IndexError
  end.

(** [l[i:j]] for non-negative bounds: never raises, clips at the end. *)
Definition slice {A} (l : list A) (i j : nat) : list A :=
  firstn (j - i) (skipn i l).

(** [l[-n:]] for a positive [n]: the last [n] items, or all of [l]. *)
Definition last_n {A} (n : nat) (l : list A) : list A :=
  skipn (length l - n) l.

(** [x in l] for a list of integers. *)
Definition contains (x : Z) (l : list Z) : bool := existsb (Z.eqb x) l.

(** [for i in items: s = body i s], stopping at the first exception. *)
Fixpoint for_each {I S} (items : list I) (s : S) (body : I -> S -> result S)
  : result S :=
  match items with
  | [] => Ok s
  | i :: rest => let? s' := body i s in for_each rest s' body
  end.

(** [round(x, ndigits)]: to the nearest multiple of [10^-ndigits], ties to
    the even one. *)
Definition round_half_even (x : Q) : Z :=
  let f := Qfloor x in
  match (x - inject_Z f ?= 1 # 2)%Q with
  | Lt => f
  | Gt => (f + 1)%Z
  | Eq => if Z.even f then f else (f + 1)%Z
  end.

Definition round (x : Q) (ndigits : nat) : Q :=
  let p := (10 ^ Z.of_nat ndigits)%Z in
  (inject_Z (round_half_even (x * inject_Z p)) / inject_Z p)%Q.

(** [smtplib]: how each call of one SMTP session ends.  [send] stands for
    [send_message] or [sendmail], whichever the script uses. *)
Record smtp_server : Type := {
  connect : result unit;
  starttls : result unit;
  login : result unit;
  send : result unit;
  quit : result unit
}.

(** An outcome that [except Exception] contains: a normal return, or an
    exception of class [Exception]. *)
Definition catchable {A} (r : result A) : bool :=
  match r with
  | Ok _ => true
  | Raise e => is_Exception e
  end.

Definition smtp_catchable (srv : smtp_server) : bool :=
  catchable (connect srv) && catchable (starttls srv) &&
  catchable (login srv) && catchable (send srv) && catchable (quit srv).

(** Some call of the session raises. *)
Definition smtp_fails (srv : smtp_server) : bool :=
  match connect srv, starttls srv, login srv, send srv, quit srv with
  | Ok _, Ok _, Ok _, Ok _, Ok _ => false
  | _, _, _, _, _ => true
  end.

Definition rmap {A B} (f : A -> B) (r : result A) : result B :=
  match r with
  | Ok a => Ok (f a)
  | Raise e => Raise e
  end.

End Py.

(** ** SoilSensor_Prediction_Email.py *)

Module Predict.
Import Py.

Definition SEQ_LENGTH : nat := 3.

(** [create_sequences], the nested helper of [build_and_predict_model]:
    the inputs [X] and the targets [y], built by appending in index order. *)
Definition create_sequences {A} (data : list A) (seq_len : nat)
  : result (list (list A) * list A) :=
  for_each (range (len data - Z.of_nat seq_len)) ([], [])
    (fun i '(X, y) =>
       let? target := getitem data (i + seq_len) in
       Ok (X ++ [slice data i (i + seq_len)], y ++ [target])).

(** One row of the CSV history [nanjing_soil_data_7days.csv]. *)
Record Row : Type := {
  date : string;
  moisture : Q;
  temperature : Q;
  rainfall : Q;
  light : Q;
  irrigation : Q
}.

Definition DataFrame : Type := list Row.

(** [sklearn.preprocessing.MinMaxScaler(feature_range=(0, 1))] on a single
    column, with the attributes the library computes in [fit]:
    [scale_ = (1 - 0) / data_range_], a zero range counting as 1, and
    [min_ = 0 - data_min_ * scale_]. *)
Module MinMaxScaler.

Record t : Type := {
  data_min_ : Q;
  data_max_ : Q;
  data_range_ : Q;
  scale_ : Q;
  min_ : Q
}.

(** A zero range is replaced by 1 before the division. *)
Definition handle_zeros_in_scale (scale : Q) : Q :=
  if Qeq_bool scale 0 then 1%Q else scale.

Definition fit (column : list Q) : result t :=
  match column with
  | [] => Raise ValueError
  | x :: xs =>
      let data_min := fold_left Qmin xs x in
      let data_max := fold_left Qmax xs x in
      let data_range := (data_max - data_min)%Q in
      let scale := ((1 - 0) / handle_zeros_in_scale data_range)%Q in
      Ok {| data_min_ := data_min;
            data_max_ := data_max;
            data_range_ := data_range;
            scale_ := scale;
            min_ := (0 - data_min * scale)%Q |}
  end.

Definition transform (s : t) (x : Q) : Q := (x * scale_ s + min_ s)%Q.

Definition inverse_transform (s : t) (x : Q) : Q := ((x - min_ s) / scale_ s)%Q.

End MinMaxScaler.

(** The dictionary returned by [build_and_predict_model]. *)
Record prediction : Type := {
  day1 : Q;
  day2 : Q;
  day3 : Q
}.

Section Forecaster.

(** The Keras part, [Sequential([LSTM(32), Dense(1)])] compiled and fitted on
    [(X, y)]: whatever training yields, it is a function from an input
    sequence to one scaled value, the one [model.predict] applies. *)
Variable fit_model : list (list Q) -> list Q -> list Q -> Q.

Definition build_and_predict_model (df : DataFrame) : result prediction :=
  let? scaler := MinMaxScaler.fit (map moisture df) in
  let moisture_scaled := map (MinMaxScaler.transform scaler) (map moisture df) in
  let? (X, y) := create_sequences moisture_scaled SEQ_LENGTH in
  (* X.reshape(X.shape[0], X.shape[1], 1): an empty X is one-dimensional *)
  let? _ := match X with [] => Raise IndexError | _ :: _ => Ok tt end in
  let model := fit_model X y in
  let last_seq := last_n SEQ_LENGTH moisture_scaled in
  let? (predictions, _) :=
    for_each (range 3) ([], last_seq)
      (fun _ '(predictions, last_seq) =>
         (* last_seq.reshape(1, SEQ_LENGTH, 1) *)
         let? _ := if length last_seq =? SEQ_LENGTH
                   then Ok tt else Raise ValueError in
         let next_pred_scaled := model last_seq in
         Ok (predictions
               ++ [MinMaxScaler.inverse_transform scaler next_pred_scaled],
             tl last_seq ++ [next_pred_scaled])) in
  let? p0 := getitem predictions 0 in
  let? p1 := getitem predictions 1 in
  let? p2 := getitem predictions 2 in
  Ok {| day1 := p0; day2 := p1; day3 := p2 |}.

(** What the e-mail body shows. *)
Record EmailMessage : Type := {
  status_dry : bool;
  body_moisture : Q;
  body_prediction : prediction
}.

Inductive smtp_action : Type :=
| SmtpConnect
| SmtpStartTls
| SmtpLogin
| SmtpSendMessage (msg : EmailMessage)
| SmtpQuit.

Inductive printed : Type :=
| PrintDetected (real_time_moisture : Q)
| PrintPrediction (prediction_result : prediction)
| PrintEmailSent
| PrintEmailFailed (e : exn).

(** The world the callback acts on: the CSV file, the calls made on the SMTP
    connection and the console, oldest first. *)
Record world : Type := {
  csv_file : DataFrame;
  wire : list smtp_action;
  stdout : list printed
}.

(** What the outside world answers during one run of the callback. *)
Record callback_env : Type := {
  gpio_on_entry : bool;         (* GPIO.input(channel), first read *)
  uniform : Q -> Q -> Q;        (* np.random.uniform(low, high) *)
  dates_parse : list string -> bool;   (* pd.to_datetime accepts the column *)
  date_written : string -> string;     (* a converted date, as to_csv writes it *)
  now_stamp : string;           (* datetime.now().strftime(...) *)
  gpio_on_decision : bool;      (* GPIO.input(channel), before sending *)
  now_hour : Z;                 (* datetime.now().hour *)
  gpio_on_render : bool;        (* GPIO.input(channel), inside send_email *)
  smtp : smtp_server
}.

Definition print (line : printed) : M world unit :=
  fun w => (Ok tt, {| csv_file := csv_file w;
                      wire := wire w;
                      stdout := stdout w ++ [line] |}).

Definition smtp_call (a : smtp_action) (outcome : result unit) : M world unit :=
  fun w => (outcome, {| csv_file := csv_file w;
                        wire := wire w ++ [a];
                        stdout := stdout w |}).

(** [pd.read_csv(DATA_FILE)]; the file is taken to exist and to parse. *)
Definition read_csv : M world DataFrame := fun w => (Ok (csv_file w), w).

Definition to_csv (df : DataFrame) : M world unit :=
  fun w => (Ok tt, {| csv_file := df; wire := wire w; stdout := stdout w |}).

Definition send_email (env : callback_env) (real_time_moisture : Q)
    (prediction_result : prediction) : M world unit :=
  let msg := {| status_dry := gpio_on_render env;
                body_moisture := real_time_moisture;
                body_prediction := prediction_result |} in
  try_except
    (smtp_call SmtpConnect (connect (smtp env)) ;;
     smtp_call SmtpStartTls (starttls (smtp env)) ;;
     smtp_call SmtpLogin (login (smtp env)) ;;
     smtp_call (SmtpSendMessage msg) (send (smtp env)) ;;
     print PrintEmailSent ;;
     smtp_call SmtpQuit (quit (smtp env)))
    (fun e => print (PrintEmailFailed e)).

(** [df['date'] = pd.to_datetime(df['date'])].  pandas is outside the
    repository: whether it accepts a column of date texts, and the text
    under which [to_csv] later writes a date it has converted, are taken
    from the environment.  A column it does not accept raises [ValueError];
    a column without cells is always accepted.  A converted date is kept as
    the text it is written with. *)
Definition to_datetime (env : callback_env) (df : DataFrame) : result DataFrame :=
  match df with
  | [] => Ok []
  | _ :: _ =>
      if dates_parse env (map date df) then
        Ok (map (fun r => {| date := date_written env (date r);
                             moisture := moisture r;
                             temperature := temperature r;
                             rainfall := rainfall r;
                             light := light r;
                             irrigation := irrigation r |}) df)
      else Raise ValueError
  end.

Definition load_and_update_data (env : callback_env) (real_time_moisture : Q)
  : M world DataFrame :=
  df <- read_csv ;;
  df <- lift (to_datetime env df) ;;
  (* df.iloc[-1] *)
  last_row <- lift (match last_n 1 df with
                    | [] => Raise IndexError
                    | r :: _ => Ok r
                    end) ;;
  let new_data := {| date := now_stamp env;
                     moisture := real_time_moisture;
                     temperature := temperature last_row;
                     rainfall := rainfall last_row;
                     light := light last_row;
                     irrigation := 0 |} in
  let df := df ++ [new_data] in
  to_csv df ;;
  ret df.

(** The last block of [moisture_callback]: forced send when dry, otherwise
    a status report at 8 and at 20 o'clock. *)
Definition alert_block (env : callback_env) (real_time_moisture : Q)
    (prediction_result : prediction) : M world unit :=
  if gpio_on_decision env then
    send_email env real_time_moisture prediction_result
  else
    let current_hour := now_hour env in
    if contains current_hour [8; 20]%Z then
      send_email env real_time_moisture prediction_result
    else ret tt.

Definition moisture_callback (env : callback_env) : M world unit :=
  let real_time_moisture :=
    if gpio_on_entry env then uniform env 30 35 else uniform env 38 45 in
  print (PrintDetected real_time_moisture) ;;
  df_updated <- load_and_update_data env real_time_moisture ;;
  prediction_result <- lift (build_and_predict_model df_updated) ;;
  print (PrintPrediction prediction_result) ;;
  alert_block env real_time_moisture prediction_result.

End Forecaster.

(** Observations on a world: the number of SMTP sessions opened so far (one
    per call of [send_email]). *)
Definition is_connect (a : smtp_action) : bool :=
  match a with
  | SmtpConnect => true
  | _ => false
  end.

Definition sessions (w : world) : nat := length (filter is_connect (wire w)).

(** Whether running [m] from [w] opens a session. *)
Definition should_send {A} (m : M world A) (w : world) : bool :=
  sessions w <? sessions (snd (m w)).

Definition with_smtp (env : callback_env) (srv : smtp_server) : callback_env :=
  {| gpio_on_entry := gpio_on_entry env;
     uniform := uniform env;
     dates_parse := dates_parse env;
     date_written := date_written env;
     now_stamp := now_stamp env;
     gpio_on_decision := gpio_on_decision env;
     now_hour := now_hour env;
     gpio_on_render := gpio_on_render env;
     smtp := srv |}.

End Predict.

(** ** soilMail.py *)

Module SoilMail.
Import Py.

Definition PCF8591_ADDR : Z := 72.   (* 0x48 *)

(** What [read_soil_moisture] returns: the rounded percentage, or a text. *)
Definition reading : Type := (Q + string)%type.

(** Everything the script does to the outside, in the order it happens. *)
Inductive effect : Type :=
| I2cWriteByte (addr value : Z)
| I2cReadByte (addr : Z)
| Sleep (seconds : Q)
| SmtpConnect
| SmtpStartTls
| SmtpLogin
| SmtpSendmail (moisture : reading)
| SmtpQuit
| PrintStarted (startTime : Z)
| PrintStatus (Current_Value lastValue : Z)
| PrintSending (difference : Z)
| PrintNotSending (difference : Z)
| PrintReadFailed (e : exn)
| PrintEmailSent
| PrintEmailFailed (e : exn).

Definition world : Type := list effect.

(** What the outside world answers during one turn of the loop. *)
Record tick_env : Type := {
  tm_hour : Z;                   (* time.localtime(...).tm_hour *)
  i2c_write : result unit;       (* bus.write_byte *)
  i2c_read : result Z;           (* bus.read_byte *)
  smtp : smtp_server
}.

Definition act {A} (e : effect) (outcome : result A) : M world A :=
  fun w => (outcome, w ++ [e]).

Definition print (e : effect) : M world unit := act e (Ok tt).

Definition read_soil_moisture (env : tick_env) : M world reading :=
  try_except
    (act (I2cWriteByte PCF8591_ADDR 0) (i2c_write env) ;;
     act (Sleep (1 # 10)) (Ok tt) ;;
     raw_value <- act (I2cReadByte PCF8591_ADDR) (i2c_read env) ;;
     let moisture_percent :=
       (100 - (inject_Z raw_value / 255 * 100))%Q in
     ret (inl (round moisture_percent 2)))
    (fun e =>
       print (PrintReadFailed e) ;;
       ret (inr "Reading failed"%string)).

Definition send_email (env : tick_env) (moisture : reading) : M world unit :=
  try_except
    (act SmtpConnect (connect (smtp env)) ;;
     act SmtpStartTls (starttls (smtp env)) ;;
     act SmtpLogin (login (smtp env)) ;;
     act (SmtpSendmail moisture) (send (smtp env)) ;;
     act SmtpQuit (quit (smtp env)) ;;
     print PrintEmailSent)
    (fun e => print (PrintEmailFailed e)).

(** The core judgment of the loop body, from [if lastValue == Current_Value]
    to the end of its [else]; the value returned is [lastValue] afterwards. *)
Definition judge (env : tick_env) (lastValue Current_Value : Z) : M world Z :=
  if (lastValue =? Current_Value)%Z then
    ret lastValue
  else
    let difference := (Current_Value - lastValue)%Z in
    let difference :=
      if (difference <? 0)%Z then (difference + 24)%Z else difference in
    if (difference >? 3)%Z then
      print (PrintSending difference) ;;
      moisture <- read_soil_moisture env ;;
      send_email env moisture ;;
      ret Current_Value
    else
      print (PrintNotSending difference) ;;
      ret Current_Value.

Definition loop_body (env : tick_env) (lastValue : Z) : M world Z :=
  let Current_Value := (tm_hour env + 8)%Z in
  print (PrintStatus Current_Value lastValue) ;;
  lastValue <- judge env lastValue Current_Value ;;
  act (Sleep 60) (Ok tt) ;;
  ret lastValue.

(** [while True] over as many turns as there are environments. *)
Fixpoint while_true (envs : list tick_env) (lastValue : Z) : M world Z :=
  match envs with
  | [] => ret lastValue
  | env :: rest =>
      lastValue <- loop_body env lastValue ;;
      while_true rest lastValue
  end.

Definition main (start_tm_hour : Z) (envs : list tick_env) : M world Z :=
  let startTime := (start_tm_hour + 8)%Z in
  let lastValue := startTime in
  print (PrintStarted startTime) ;;
  while_true envs lastValue.

(** Observations on a trace: the number of SMTP sessions opened. *)
Definition is_connect (e : effect) : bool :=
  match e with
  | SmtpConnect => true
  | _ => false
  end.

Definition sends (w : world) : nat := length (filter is_connect w).

Definition with_smtp (env : tick_env) (srv : smtp_server) : tick_env :=
  {| tm_hour := tm_hour env;
     i2c_write := i2c_write env;
     i2c_read := i2c_read env;
     smtp := srv |}.

(** Every outside call of the turn returns or raises an [Exception]. *)
Definition quiet (env : tick_env) : bool :=
  catchable (i2c_write env) && catchable (i2c_read env) &&
  smtp_catchable (smtp env).

End SoilMail.

(** ** soilMeas.py *)

Module SoilMeas.
Import Py.

(** The calls on [logging]; that of [logging.debug] is below the level the
    handlers are set to, so it is made and nothing is written for it. *)
Inductive logged : Type :=
| LogDebug (adc_value : Z) (voltage moisture_percent : Q)
| LogError (e : exn).

Definition world : Type := list logged.

Definition log (l : logged) : M world unit := fun w => (Ok tt, w ++ [l]).

(** [read_soil_moisture]; [adc_read] is how [adc.read_adc(0, gain=GAIN)]
    ends.  The triple returned is [(None, None, None)] or three values. *)
Definition read_soil_moisture (adc_read : result Z)
  : M world (option Z * option Q * option Q) :=
  try_except
    (adc_value <- lift adc_read ;;
     let voltage := (inject_Z adc_value / 65535 * 5)%Q in
     let moisture_percent := round (100 - (voltage / 5 * 100))%Q 2 in
     let moisture_percent := Qmax 0 (Qmin 100 moisture_percent) in
     log (LogDebug adc_value voltage moisture_percent) ;;
     ret (Some adc_value, Some voltage, Some moisture_percent))
    (fun e =>
       log (LogError e) ;;
       ret (None, None, None)).

End SoilMeas.

(** ** Sample inputs used to run the definitions *)

Module Samples.
Import Py.

Definition row_of (m : Q) : Predict.Row :=
  {| Predict.date := "2025-01-01 08:00";
     Predict.moisture := m;
     Predict.temperature := 20;
     Predict.rainfall := 0;
     Predict.light := 300;
     Predict.irrigation := 0 |}.

(** Four rows inside the percentage range, the last one much wetter. *)
Definition history_spread : Predict.DataFrame :=
  map row_of [40; 42; 44; 100]%Q.

(** A model that always answers 2, twice the top of the scaled range. *)
Definition model_two : list (list Q) -> list Q -> list Q -> Q :=
  fun _ _ _ => 2%Q.

(** A model that always answers the middle of the scaled range. *)
Definition model_half : list (list Q) -> list Q -> list Q -> Q :=
  fun _ _ _ => (1 # 2)%Q.

Definition smtp_ok : smtp_server :=
  {| connect := Ok tt; starttls := Ok tt; login := Ok tt;
     send := Ok tt; quit := Ok tt |}.

(** The server refuses the login. *)
Definition smtp_login_refused : smtp_server :=
  {| connect := Ok tt; starttls := Ok tt; login := Raise SMTPException;
     send := Ok tt; quit := Ok tt |}.

(** No network: the connection cannot be opened. *)
Definition smtp_unreachable : smtp_server :=
  {| connect := Raise OSError; starttls := Ok tt; login := Ok tt;
     send := Ok tt; quit := Ok tt |}.

(** A strict reader of dates, for the samples: it knows the two layouts
    [YYYY-MM-DD HH:MM] and [YYYY-MM-DD HH:MM:SS], and every cell must have
    the layout of the first one. *)
Definition is_digit (c : ascii) : bool :=
  (48 <=? nat_of_ascii c) && (nat_of_ascii c <=? 57).

(** In a pattern, [d] stands for a digit and any other character for
    itself. *)
Fixpoint matches (pattern cell : string) : bool :=
  match pattern, cell with
  | EmptyString, EmptyString => true
  | String p pattern', String c cell' =>
      (if Ascii.eqb p "d" then is_digit c else Ascii.eqb p c)
      && matches pattern' cell'
  | _, _ => false
  end.

Inductive layout : Type := Minutes | Seconds.

Definition layout_of (cell : string) : option layout :=
  if matches "dddd-dd-dd dd:dd" cell then Some Minutes
  else if matches "dddd-dd-dd dd:dd:dd" cell then Some Seconds
  else None.

Definition same_layout (cells : list string) : bool :=
  match cells with
  | [] => true
  | first :: rest =>
      match layout_of first with
      | None => false
      | Some Minutes =>
          forallb (fun c => matches "dddd-dd-dd dd:dd" c) rest
      | Some Seconds =>
          forallb (fun c => matches "dddd-dd-dd dd:dd:dd" c) rest
      end
  end.

(** A date is written back with its seconds. *)
Definition with_seconds (cell : string) : string :=
  match layout_of cell with
  | Some Minutes => (cell ++ ":00")%string
  | _ => cell
  end.

Definition callback_at (dry : bool) (hour : Z) (srv : smtp_server)
  : Predict.callback_env :=
  {| Predict.gpio_on_entry := dry;
     Predict.uniform := fun low high => ((low + high) / 2)%Q;
     Predict.dates_parse := same_layout;
     Predict.date_written := with_seconds;
     Predict.now_stamp := "2025-01-08 08:00";
     Predict.gpio_on_decision := dry;
     Predict.now_hour := hour;
     Predict.gpio_on_render := dry;
     Predict.smtp := srv |}.

Definition forecast_flat : Predict.prediction :=
  {| Predict.day1 := 41; Predict.day2 := 41; Predict.day3 := 41 |}.

Definition world_spread : Predict.world :=
  {| Predict.csv_file := history_spread;
     Predict.wire := [];
     Predict.stdout := [] |}.

Definition tick_at (hour : Z) (srv : smtp_server) : SoilMail.tick_env :=
  {| SoilMail.tm_hour := hour;
     SoilMail.i2c_write := Ok tt;
     SoilMail.i2c_read := Ok 128%Z;
     SoilMail.smtp := srv |}.

End Samples.

(** ** soilMeas.py: saving and the main loop *)

Module SoilMeasLoop.
Import Py.

Definition SAMPLING_INTERVAL : Z := 1800.

(** One data row of [soil_moisture_data.csv], as [save_to_csv] writes it. *)
Record csv_row : Type := {
  timestamp : string;
  adc_value : Z;
  voltage : Q;
  moisture_percent : Q
}.

(** What reaches the log, in order: the lines of [read_soil_moisture]
    and those of [save_to_csv] and of the main program. *)
Inductive entry : Type :=
| Reader (l : SoilMeas.logged)
| InfoStarted
| InfoSaved (timestamp : string) (moisture_percent : Q)
| ErrorSave (e : exn)
| InfoWaiting (minutes : Q)
| InfoStopped
| CriticalAbnormal (e : exn)
| InfoExited.

Record world : Type := {
  csv_file : list csv_row;
  logbook : list entry
}.

(** What the outside world answers during one turn of the loop. *)
Record cycle_env : Type := {
  now : string;                  (* datetime.now().strftime(...) *)
  adc_read : result Z;           (* adc.read_adc(0, gain=GAIN) *)
  file_append : result unit;     (* open(..., "a") and writer.writerow *)
  sleep : result unit            (* time.sleep(SAMPLING_INTERVAL) *)
}.

Definition log (l : entry) : M world unit :=
  fun w => (Ok tt, {| csv_file := csv_file w; logbook := logbook w ++ [l] |}).

(** [read_soil_moisture] of the script, its log lines going to the one log. *)
Definition read_soil_moisture (env : cycle_env)
  : M world (option Z * option Q * option Q) :=
  fun w =>
    let (r, lines) := SoilMeas.read_soil_moisture (adc_read env) [] in
    (r, {| csv_file := csv_file w;
           logbook := logbook w ++ map Reader lines |}).

(** Opening the file in append mode and writing one row: the row is in the
    file when both went through. *)
Definition append_row (row : csv_row) (outcome : result unit) : M world unit :=
  fun w =>
    match outcome with
    | Ok _ => (Ok tt, {| csv_file := csv_file w ++ [row];
                         logbook := logbook w |})
    | Raise e => (Raise e, w)
    end.

Definition save_to_csv (env : cycle_env) (timestamp : string) (adc_value : Z)
    (voltage moisture_percent : Q) : M world unit :=
  try_except
    (append_row {| timestamp := timestamp;
                   adc_value := adc_value;
                   voltage := round voltage 2;
                   moisture_percent := moisture_percent |}
       (file_append env) ;;
     log (InfoSaved timestamp moisture_percent))
    (fun e => log (ErrorSave e)).

(** The body of [while True]. *)
Definition cycle (env : cycle_env) : M world unit :=
  let current_time := now env in
  triple <- read_soil_moisture env ;;
  (* all(v is not None for v in [adc_val, volt, moist]) *)
  match triple with
  | (Some adc_val, Some volt, Some moist) =>
      save_to_csv env current_time adc_val volt moist
  | _ => ret tt
  end ;;
  log (InfoWaiting (inject_Z SAMPLING_INTERVAL / 60)) ;;
  lift (sleep env).

Fixpoint while_true (envs : list cycle_env) : M world unit :=
  match envs with
  | [] => ret tt
  | env :: rest => cycle env ;; while_true rest
  end.

(** The main program over the turns given.  The loop only ends by an
    exception; when the turns given run out the program is still looping
    and nothing more is logged. *)
Definition main (envs : list cycle_env) : M world unit :=
  log InfoStarted ;;
  fun w =>
    match while_true envs w with
    | (Ok _, w1) => (Ok tt, w1)
    | (Raise e, w1) =>
        let (r, w2) :=
          match e with
          | KeyboardInterrupt => log InfoStopped w1
          | _ => if is_Exception e then log (CriticalAbnormal e) w1
                 else (Raise e, w1)
          end in
        (* finally *)
        (r, snd (log InfoExited w2))
    end.

(** A turn in which the read returns a value and the file can be written. *)
Definition will_save (env : cycle_env) : bool :=
  match adc_read env, file_append env with
  | Ok _, Ok _ => true
  | _, _ => false
  end.

(** Every row of the file has its percentage within 0 and 100. *)
Definition rows_in_range (w : world) : Prop :=
  Forall (fun row => 0 <= moisture_percent row <= 100)%Q (csv_file w).

End SoilMeasLoop.

(** ** Clock readings and further sample inputs *)

Module Clock.

(** An hour of the day. *)
Definition is_hour (h : Z) : bool := (0 <=? h)%Z && (h <=? 23)%Z.

(** Each turn reads an hour of the day at most three hours past the hour
    read before it, around the clock. *)
Fixpoint small_steps (previous : Z) (envs : list SoilMail.tick_env) : bool :=
  match envs with
  | [] => true
  | env :: rest =>
      is_hour (SoilMail.tm_hour env) &&
      ((SoilMail.tm_hour env - previous) mod 24 <=? 3)%Z &&
      small_steps (SoilMail.tm_hour env) rest
  end.

(** The hour read in the last turn, [previous] when there is no turn. *)
Definition last_hour (previous : Z) (envs : list SoilMail.tick_env) : Z :=
  fold_left (fun _ env => SoilMail.tm_hour env) envs previous.

End Clock.

Module MoreSamples.
Import Py.

(** The model that answers the newest value of its input sequence. *)
Definition model_persistence : list (list Q) -> list Q -> list Q -> Q :=
  fun _ _ s => last s 0%Q.

(** Four rows with one and the same moisture. *)
Definition history_flat : Predict.DataFrame :=
  map Samples.row_of [41; 41; 41; 41]%Q.

Definition history_two : Predict.DataFrame :=
  map Samples.row_of [40; 42]%Q.

Definition world_of (df : Predict.DataFrame) : Predict.world :=
  {| Predict.csv_file := df; Predict.wire := []; Predict.stdout := [] |}.

(** The world a first event leaves behind, from four rows and from one:
    the old dates are written with seconds, the new one without. *)
Definition world_after_event : Predict.world :=
  snd (Predict.moisture_callback Samples.model_half
         (Samples.callback_at true 9 Samples.smtp_ok) Samples.world_spread).

Definition world_after_short_event : Predict.world :=
  snd (Predict.moisture_callback Samples.model_half
         (Samples.callback_at true 9 Samples.smtp_ok)
         (world_of [Samples.row_of 40])).

(** The server accepts the message and then fails on [quit]. *)
Definition smtp_quit_fails : smtp_server :=
  {| connect := Ok tt; starttls := Ok tt; login := Ok tt;
     send := Ok tt; quit := Raise SMTPException |}.

(** The server offers no TLS. *)
Definition smtp_no_tls : smtp_server :=
  {| connect := Ok tt; starttls := Raise SMTPException; login := Ok tt;
     send := Ok tt; quit := Ok tt |}.

(** A turn in which the I2C bus does not answer. *)
Definition tick_bus_down (hour : Z) (srv : smtp_server) : SoilMail.tick_env :=
  {| SoilMail.tm_hour := hour;
     SoilMail.i2c_write := Raise OSError;
     SoilMail.i2c_read := Ok 0%Z;
     SoilMail.smtp := srv |}.

Definition cycle_at (stamp : string) (adc : result Z) (file : result unit)
    (slept : result unit) : SoilMeasLoop.cycle_env :=
  {| SoilMeasLoop.now := stamp;
     SoilMeasLoop.adc_read := adc;
     SoilMeasLoop.file_append := file;
     SoilMeasLoop.sleep := slept |}.

Definition station_empty : SoilMeasLoop.world :=
  {| SoilMeasLoop.csv_file := []; SoilMeasLoop.logbook := [] |}.

End MoreSamples.

(** * Properties *)

Section Windowing.
Import Py Predict.
Context {A : Type}.

Lemma range_len_minus (data : list A) (seq_len : nat) :
  range (len data - Z.of_nat seq_len) = seq 0 (length data - seq_len).
Proof. unfold range, len. f_equal. lia. Qed.

Lemma getitem_in_range (l : list A) (i : nat) (d : A) :
  i < length l -> getitem l i = Ok (nth i l d).
Proof.
  intro Hi. unfold getitem.
  rewrite (nth_error_nth' l d Hi). reflexivity.
Qed.

(** The loop of [create_sequences] over any run of in-range indices appends
    one slice and one target per index, in the order of the indices. *)
Lemma create_sequences_loop (data : list A) (seq_len : nat) (d : A) :
  forall (idx : list nat) (X0 : list (list A)) (y0 : list A),
    (forall i, In i idx -> i + seq_len < length data) ->
    for_each idx (X0, y0)
      (fun i '(X, y) =>
         let? target := getitem data (i + seq_len) in
         Ok (X ++ [slice data i (i + seq_len)], y ++ [target]))
    = Ok (X0 ++ map (fun i => slice data i (i + seq_len)) idx,
          y0 ++ map (fun i => nth (i + seq_len) data d) idx).
Proof.
  induction idx as [|i idx IH]; intros X0 y0 Hin; simpl.
  - now rewrite !app_nil_r.
  - rewrite (getitem_in_range data (i + seq_len) d) by (apply Hin; now left).
    simpl. rewrite IH by (intros j Hj; apply Hin; now right).
    now rewrite <- !app_assoc.
Qed.

(** The value of [create_sequences], for every series: it never raises. *)
Lemma create_sequences_value (data : list A) (seq_len : nat) (d : A) :
  create_sequences data seq_len
  = Ok (map (fun i => slice data i (i + seq_len))
          (seq 0 (length data - seq_len)),
        map (fun i => nth (i + seq_len) data d)
          (seq 0 (length data - seq_len))).
Proof.
  unfold create_sequences. rewrite range_len_minus.
  rewrite (create_sequences_loop data seq_len d).
  - reflexivity.
  - intros i Hi. apply in_seq in Hi. lia.
Qed.

Lemma create_sequences_no_window (data : list A) (seq_len : nat) :
  length data <= seq_len ->
  create_sequences data seq_len = Ok ([], []).
Proof.
  intro Hlen. unfold create_sequences. rewrite range_len_minus.
  replace (length data - seq_len) with 0 by lia. reflexivity.
Qed.

Lemma slice_length (data : list A) (i seq_len : nat) :
  i + seq_len <= length data ->
  length (slice data i (i + seq_len)) = seq_len.
Proof.
  intro H. unfold slice. rewrite length_firstn, length_skipn. lia.
Qed.

Lemma slice_nth_error (data : list A) (i seq_len k : nat) :
  k < seq_len ->
  nth_error (slice data i (i + seq_len)) k = nth_error data (i + k).
Proof.
  intro Hk. unfold slice.
  replace (i + seq_len - i) with seq_len by lia.
  rewrite nth_error_firstn.
  destruct (Nat.ltb_spec k seq_len) as [_|Hge]; [|lia].
  now rewrite nth_error_skipn.
Qed.

(** C2.  On a series with at least [seq_len + 1] items, [create_sequences]
    returns normally; [X] and [y] both hold [len(series) - seq_len] entries;
    entry [i] of [X] is [series[i : i+seq_len]] (its [seq_len] items are
    items [i], ..., [i+seq_len-1] of the series) and entry [i] of [y] is
    [series[i+seq_len]]: the windows come oldest first. *)
Theorem create_sequences_windows (data : list A) (seq_len : nat) :
  0 < seq_len ->
  seq_len + 1 <= length data ->
  exists (X : list (list A)) (y : list A),
    create_sequences data seq_len = Ok (X, y) /\
    length X = length data - seq_len /\
    length y = length data - seq_len /\
    forall i, i < length data - seq_len ->
      exists (w : list A) (t : A),
        nth_error X i = Some w /\
        nth_error y i = Some t /\
        w = slice data i (i + seq_len) /\
        length w = seq_len /\
        (forall k, k < seq_len -> nth_error w k = nth_error data (i + k)) /\
        nth_error data (i + seq_len) = Some t.
Proof.
  intros Hpos Hlen.
  destruct data as [|d data'] eqn:Hd; [simpl in Hlen; lia|].
  rewrite <- Hd in *. clear Hd data'.
  set (n := length data - seq_len).
  exists (map (fun i => slice data i (i + seq_len)) (seq 0 n)),
         (map (fun i => nth (i + seq_len) data d) (seq 0 n)).
  split; [|split; [|split]].
  - apply create_sequences_value.
  - now rewrite length_map, length_seq.
  - now rewrite length_map, length_seq.
  - intros i Hi.
    exists (slice data i (i + seq_len)), (nth (i + seq_len) data d).
    repeat split.
    + rewrite nth_error_map, nth_error_seq.
      destruct (Nat.ltb_spec i n) as [_|Hge]; [reflexivity|lia].
    + rewrite nth_error_map, nth_error_seq.
      destruct (Nat.ltb_spec i n) as [_|Hge]; [reflexivity|lia].
    + apply slice_length. subst n. lia.
    + intros k Hk. now apply slice_nth_error.
    + apply nth_error_nth'. subst n. lia.
Qed.

(** C3, as the code has it.  On a series with at most [seq_len] items the
    loop of [create_sequences] runs zero times and the function returns
    normally, with no window and no target. *)
Theorem create_sequences_short_is_empty (data : list A) (seq_len : nat) :
  length data <= seq_len ->
  create_sequences data seq_len = Ok ([], []).
Proof.
  apply create_sequences_no_window.
Qed.

End Windowing.

Lemma create_sequences_windows_witness :
  exists (X : list (list Z)) (y : list Z),
    Predict.create_sequences [40; 41; 42; 43; 44]%Z 3 = Py.Ok (X, y) /\
    length X = 2 /\ length y = 2 /\
    forall i, i < 2 ->
      exists (w : list Z) (t : Z),
        nth_error X i = Some w /\
        nth_error y i = Some t /\
        w = Py.slice [40; 41; 42; 43; 44]%Z i (i + 3) /\
        length w = 3 /\
        (forall k, k < 3 ->
           nth_error w k = nth_error [40; 41; 42; 43; 44]%Z (i + k)) /\
        nth_error [40; 41; 42; 43; 44]%Z (i + 3) = Some t.
Proof.
  apply (create_sequences_windows [40; 41; 42; 43; 44]%Z 3); simpl; lia.
Defined.

Lemma create_sequences_short_is_empty_witness :
  Predict.create_sequences [40; 41]%Z 3 = Py.Ok ([], []).
Proof.
  apply (create_sequences_short_is_empty [40; 41]%Z 3). simpl. lia.
Defined.

(** C3, as stated, at a two-item series and [seq_len = 3]: the call returns
    the empty result and raises nothing. *)
Lemma create_sequences_short_does_not_fail :
  (2 <= 3)%nat /\
  Predict.create_sequences [40; 41]%Z 3 = Py.Ok ([], []) /\
  ~ (exists e, Predict.create_sequences [40; 41]%Z 3 = Py.Raise e).
Proof.
  split; [lia|]. split; [reflexivity|].
  intros [e He]. vm_compute in He. discriminate He.
Qed.

(** ** The scaler and the forecast *)

Section Scaler.
Import Py Predict.
Local Open Scope Q_scope.

Lemma fold_left_Qmin_lower (lo : Q) (xs : list Q) :
  forall x, lo <= x -> (forall a, In a xs -> lo <= a) ->
            lo <= fold_left Qmin xs x.
Proof.
  induction xs as [|a xs IH]; intros x Hx Hxs; simpl; [exact Hx|].
  apply IH.
  - apply Q.min_glb; [exact Hx | apply Hxs; now left].
  - intros b Hb. apply Hxs. now right.
Qed.

Lemma fold_left_Qmin_le_all (xs : list Q) :
  forall x, fold_left Qmin xs x <= x /\
            (forall a, In a xs -> fold_left Qmin xs x <= a).
Proof.
  induction xs as [|a xs IH]; intro x; simpl.
  - split; [apply Qle_refl | intros a []].
  - destruct (IH (Qmin x a)) as [H1 H2]. split.
    + eapply Qle_trans; [exact H1 | apply Q.le_min_l].
    + intros b [<-|Hb].
      * eapply Qle_trans; [exact H1 | apply Q.le_min_r].
      * now apply H2.
Qed.

Lemma fold_left_Qmax_upper (hi : Q) (xs : list Q) :
  forall x, x <= hi -> (forall a, In a xs -> a <= hi) ->
            fold_left Qmax xs x <= hi.
Proof.
  induction xs as [|a xs IH]; intros x Hx Hxs; simpl; [exact Hx|].
  apply IH.
  - apply Q.max_lub; [exact Hx | apply Hxs; now left].
  - intros b Hb. apply Hxs. now right.
Qed.

Lemma fold_left_Qmax_ge_all (xs : list Q) :
  forall x, x <= fold_left Qmax xs x /\
            (forall a, In a xs -> a <= fold_left Qmax xs x).
Proof.
  induction xs as [|a xs IH]; intro x; simpl.
  - split; [apply Qle_refl | intros a []].
  - destruct (IH (Qmax x a)) as [H1 H2]. split.
    + eapply Qle_trans; [apply Q.le_max_l | exact H1].
    + intros b [<-|Hb].
      * eapply Qle_trans; [apply Q.le_max_r | exact H1].
      * now apply H2.
Qed.

(** [fit] succeeds on a non-empty column; the minimum and the maximum it
    stores bound every value of the column. *)
Lemma fit_bounds (column : list Q) (s : MinMaxScaler.t) :
  MinMaxScaler.fit column = Ok s ->
  (forall a, In a column ->
             MinMaxScaler.data_min_ s <= a <= MinMaxScaler.data_max_ s) /\
  MinMaxScaler.data_range_ s
    == MinMaxScaler.data_max_ s - MinMaxScaler.data_min_ s /\
  MinMaxScaler.scale_ s
    == 1 / MinMaxScaler.handle_zeros_in_scale (MinMaxScaler.data_range_ s) /\
  MinMaxScaler.min_ s
    == 0 - MinMaxScaler.data_min_ s * MinMaxScaler.scale_ s.
Proof.
  destruct column as [|x xs]; simpl; [discriminate|].
  intros [= <-]; simpl. split; [|split; [|split]].
  - destruct (fold_left_Qmin_le_all xs x) as [Hm1 Hm2].
    destruct (fold_left_Qmax_ge_all xs x) as [HM1 HM2].
    intros a [<-|Ha]; split; auto.
  - reflexivity.
  - field. unfold MinMaxScaler.handle_zeros_in_scale.
    destruct (Qeq_bool _ 0) eqn:E; [discriminate|].
    now apply Qeq_bool_neq.
  - reflexivity.
Qed.

Lemma fit_bounded_column (lo hi : Q) (column : list Q) (s : MinMaxScaler.t) :
  MinMaxScaler.fit column = Ok s ->
  (forall a, In a column -> lo <= a <= hi) ->
  lo <= MinMaxScaler.data_min_ s /\ MinMaxScaler.data_max_ s <= hi.
Proof.
  destruct column as [|x xs]; simpl; [discriminate|].
  intros [= <-] Hall; simpl. split.
  - apply fold_left_Qmin_lower.
    + apply Hall. now left.
    + intros a Ha. apply Hall. now right.
  - apply fold_left_Qmax_upper.
    + apply Hall. now left.
    + intros a Ha. apply Hall. now right.
Qed.

Lemma handle_zeros_nonzero (r : Q) :
  ~ MinMaxScaler.handle_zeros_in_scale r == 0.
Proof.
  unfold MinMaxScaler.handle_zeros_in_scale.
  destruct (Qeq_bool r 0) eqn:E.
  - discriminate.
  - now apply Qeq_bool_neq.
Qed.

(** De-normalisation is the affine map back from the unit interval: nothing
    in it clips its argument or its value. *)
Lemma inverse_transform_affine (column : list Q) (s : MinMaxScaler.t) (p : Q) :
  MinMaxScaler.fit column = Ok s ->
  MinMaxScaler.inverse_transform s p
  == MinMaxScaler.data_min_ s
     + p * MinMaxScaler.handle_zeros_in_scale (MinMaxScaler.data_range_ s).
Proof.
  intro Hfit. destruct (fit_bounds column s Hfit) as (_ & _ & Hs & Hm).
  unfold MinMaxScaler.inverse_transform. rewrite Hm, Hs.
  field. apply handle_zeros_nonzero.
Qed.

Lemma inverse_transform_within (column : list Q) (s : MinMaxScaler.t) (p : Q) :
  MinMaxScaler.fit column = Ok s ->
  ~ MinMaxScaler.data_range_ s == 0 ->
  0 <= p <= 1 ->
  MinMaxScaler.data_min_ s <= MinMaxScaler.inverse_transform s p
                           <= MinMaxScaler.data_max_ s.
Proof.
  intros Hfit Hr [Hp0 Hp1].
  rewrite (inverse_transform_affine column s p Hfit).
  destruct (fit_bounds column s Hfit) as (Hb & Hrange & _ & _).
  assert (Hmm : MinMaxScaler.data_min_ s <= MinMaxScaler.data_max_ s).
  { destruct column as [|x xs]; [discriminate|].
    destruct (Hb x (or_introl eq_refl)) as [H1 H2].
    eapply Qle_trans; eauto. }
  unfold MinMaxScaler.handle_zeros_in_scale.
  destruct (Qeq_bool _ 0) eqn:E.
  - apply Qeq_bool_iff in E. contradiction.
  - rewrite Hrange.
    set (lo := MinMaxScaler.data_min_ s) in *.
    set (hi := MinMaxScaler.data_max_ s) in *.
    split; nra.
Qed.

Lemma fold_left_Qmin_in (xs : list Q) :
  forall x, In (fold_left Qmin xs x) (x :: xs).
Proof.
  induction xs as [|a xs IH]; intro x; cbn [fold_left]; [now left|].
  destruct (IH (Qmin x a)) as [H|H].
  - rewrite <- H. unfold Qmin, GenericMinMax.gmin.
    destruct (x ?= a); [left | left | right; left]; reflexivity.
  - right. now right.
Qed.

Lemma fold_left_Qmax_in (xs : list Q) :
  forall x, In (fold_left Qmax xs x) (x :: xs).
Proof.
  induction xs as [|a xs IH]; intro x; cbn [fold_left]; [now left|].
  destruct (IH (Qmax x a)) as [H|H].
  - rewrite <- H. unfold Qmax, GenericMinMax.gmax.
    destruct (x ?= a); [left | right; left | left]; reflexivity.
  - right. now right.
Qed.

(** The minimum and the maximum stored by [fit] are values of the column. *)
Lemma fit_attained (column : list Q) (s : MinMaxScaler.t) :
  MinMaxScaler.fit column = Ok s ->
  In (MinMaxScaler.data_min_ s) column /\ In (MinMaxScaler.data_max_ s) column.
Proof.
  destruct column as [|x xs]; simpl; [discriminate|].
  intros [= <-]; simpl. split.
  - apply (fold_left_Qmin_in xs x).
  - apply (fold_left_Qmax_in xs x).
Qed.

(** Normalisation and de-normalisation written out on the minimum and the
    maximum of the column. *)
Lemma scaler_formulas (column : list Q) (s : MinMaxScaler.t) :
  MinMaxScaler.fit column = Ok s ->
  let lo := MinMaxScaler.data_min_ s in
  let hi := MinMaxScaler.data_max_ s in
  let span := if Qeq_bool (hi - lo) 0 then 1 else hi - lo in
  (forall v, MinMaxScaler.transform s v == (v - lo) / span) /\
  (forall p, MinMaxScaler.inverse_transform s p == lo + p * span).
Proof.
  intro Hfit. cbv zeta.
  destruct (fit_bounds column s Hfit) as (_ & Hrange & Hs & Hm).
  assert (Hspan : MinMaxScaler.handle_zeros_in_scale (MinMaxScaler.data_range_ s)
                  == if Qeq_bool (MinMaxScaler.data_max_ s
                                  - MinMaxScaler.data_min_ s) 0
                     then 1
                     else MinMaxScaler.data_max_ s - MinMaxScaler.data_min_ s).
  { unfold MinMaxScaler.handle_zeros_in_scale.
    destruct (Qeq_bool (MinMaxScaler.data_range_ s) 0) eqn:E1;
      destruct (Qeq_bool (MinMaxScaler.data_max_ s
                          - MinMaxScaler.data_min_ s) 0) eqn:E2.
    - reflexivity.
    - apply Qeq_bool_iff in E1. apply Qeq_bool_neq in E2.
      rewrite Hrange in E1. contradiction.
    - apply Qeq_bool_iff in E2. apply Qeq_bool_neq in E1.
      rewrite Hrange in E1. contradiction.
    - exact Hrange. }
  pose proof (handle_zeros_nonzero (MinMaxScaler.data_range_ s)) as Hnz.
  rewrite Hspan in Hnz. split.
  - intro v. unfold MinMaxScaler.transform. rewrite Hm, Hs, Hspan.
    field. exact Hnz.
  - intro p. rewrite (inverse_transform_affine column s p Hfit), Hspan.
    reflexivity.
Qed.

End Scaler.

Section Forecast.
Import Py Predict.
Variable fit_model : list (list Q) -> list Q -> list Q -> Q.

Lemma last_n_three {B} (l : list B) :
  3 <= length l -> exists a b c, last_n 3 l = [a; b; c].
Proof.
  intro H. unfold last_n.
  assert (Hl : length (skipn (length l - 3) l) = 3)
    by (rewrite length_skipn; lia).
  destruct (skipn (length l - 3) l) as [|a [|b [|c [|d r]]]];
    simpl in Hl; try lia.
  now exists a, b, c.
Qed.

(** On a history of at least [SEQ_LENGTH + 1] rows every step of
    [build_and_predict_model] goes through, and the three values returned
    are the de-normalised outputs of the fitted model on the rolling
    sequence: the last three scaled values first, then the same shifted by
    one with the previous output appended. *)
Lemma build_and_predict_model_runs (df : DataFrame) :
  SEQ_LENGTH + 1 <= length df ->
  exists (scaler : MinMaxScaler.t) (X : list (list Q)) (y : list Q)
         (a b c : Q),
    MinMaxScaler.fit (map moisture df) = Ok scaler /\
    create_sequences
      (map (MinMaxScaler.transform scaler) (map moisture df)) SEQ_LENGTH
      = Ok (X, y) /\
    last_n SEQ_LENGTH (map (MinMaxScaler.transform scaler) (map moisture df))
      = [a; b; c] /\
    build_and_predict_model fit_model df
    = let model := fit_model X y in
      let p1 := model [a; b; c] in
      let p2 := model [b; c; p1] in
      let p3 := model [c; p1; p2] in
      Ok {| day1 := MinMaxScaler.inverse_transform scaler p1;
            day2 := MinMaxScaler.inverse_transform scaler p2;
            day3 := MinMaxScaler.inverse_transform scaler p3 |}.
Proof.
  unfold SEQ_LENGTH. intro Hlen.
  assert (Hfit : exists s, MinMaxScaler.fit (map moisture df) = Ok s).
  { destruct df as [|r df']; [simpl in Hlen; lia|]. simpl. eauto. }
  destruct Hfit as [scaler Hfit].
  set (scaled := map (MinMaxScaler.transform scaler) (map moisture df)).
  assert (Hsl : length scaled = length df)
    by (unfold scaled; now rewrite !length_map).
  pose proof (create_sequences_value scaled 3 0%Q) as Hcs.
  set (X := map (fun i => slice scaled i (i + 3)) (seq 0 (length scaled - 3)))
    in Hcs.
  set (y := map (fun i => nth (i + 3) scaled 0%Q) (seq 0 (length scaled - 3)))
    in Hcs.
  assert (HX : length X = length scaled - 3)
    by (unfold X; now rewrite length_map, length_seq).
  destruct (last_n_three scaled) as (a & b & c & Hlast); [lia|].
  exists scaler, X, y, a, b, c.
  repeat split; try assumption.
  unfold build_and_predict_model, SEQ_LENGTH. rewrite Hfit. cbn [rbind].
  fold scaled. rewrite Hcs. cbn [rbind].
  destruct X as [|x0 X']; [simpl in HX; lia|]. cbn [rbind].
  rewrite Hlast. reflexivity.
Qed.

(** A history of one to [SEQ_LENGTH] rows gives no window, and the function
    stops at [X.shape[1]] with an [IndexError]. *)
Lemma build_and_predict_model_short (df : DataFrame) :
  df <> [] ->
  length df <= SEQ_LENGTH ->
  build_and_predict_model fit_model df = Raise IndexError.
Proof.
  intros Hne Hlen. unfold build_and_predict_model.
  destruct (MinMaxScaler.fit (map moisture df)) as [scaler|e] eqn:Hfit.
  - cbn [rbind].
    rewrite create_sequences_no_window
      by (now rewrite !length_map).
    reflexivity.
  - destruct df; [contradiction | discriminate].
Qed.

(** C1, as the code has it.  On a history of at least [SEQ_LENGTH + 1] rows
    [build_and_predict_model] returns its three values [day1], [day2],
    [day3], whatever the model is.  Each is the de-normalised output of the
    model on the rolling window: with [lo] and [hi] the smallest and the
    largest moisture value of the history and [span] their difference, 1
    when that is 0, the window starts as the last three values [v] scaled
    to [(v - lo) / span], takes each output at its end, and value [k] is
    [lo + p_k * span] for the output [p_k] of step [k].  Nothing is clamped:
    the values lie in [0, 100] when the three outputs lie in [0, 1] and the
    moisture values of the history lie in [0, 100] and are not all equal. *)
Theorem forecast_three_values (df : DataFrame) :
  SEQ_LENGTH + 1 <= length df ->
  exists (scaler : MinMaxScaler.t) (X : list (list Q)) (y : list Q)
         (m1 m2 m3 lo hi : Q),
    MinMaxScaler.fit (map moisture df) = Ok scaler /\
    create_sequences
      (map (MinMaxScaler.transform scaler) (map moisture df)) SEQ_LENGTH
    = Ok (X, y) /\
    last_n SEQ_LENGTH (map moisture df) = [m1; m2; m3] /\
    (In lo (map moisture df) /\ In hi (map moisture df) /\
     forall v, In v (map moisture df) -> lo <= v <= hi)%Q /\
    let span := (if Qeq_bool (hi - lo) 0 then 1 else hi - lo)%Q in
    (forall v, MinMaxScaler.transform scaler v == (v - lo) / span)%Q /\
    let model := fit_model X y in
    let a := MinMaxScaler.transform scaler m1 in
    let b := MinMaxScaler.transform scaler m2 in
    let c := MinMaxScaler.transform scaler m3 in
    let p1 := model [a; b; c] in
    let p2 := model [b; c; p1] in
    let p3 := model [c; p1; p2] in
    exists p : prediction,
      build_and_predict_model fit_model df = Ok p /\
      (day1 p == lo + p1 * span /\
       day2 p == lo + p2 * span /\
       day3 p == lo + p3 * span)%Q /\
      ((0 <= p1 <= 1 /\ 0 <= p2 <= 1 /\ 0 <= p3 <= 1)%Q ->
       (forall r, In r df -> 0 <= moisture r <= 100)%Q ->
       (exists r1 r2,
           In r1 df /\ In r2 df /\ ~ (moisture r1 == moisture r2)%Q) ->
       Forall (fun v => 0 <= v <= 100)%Q [day1 p; day2 p; day3 p]).
Proof.
  intro Hlen.
  destruct (build_and_predict_model_runs df Hlen)
    as (scaler & X & y & a & b & c & Hfit & Hcs & Hlast & Hrun).
  unfold SEQ_LENGTH in Hlast.
  assert (Hlast' : last_n 3 (map (MinMaxScaler.transform scaler)
                               (map moisture df))
                   = map (MinMaxScaler.transform scaler)
                       (last_n 3 (map moisture df)))
    by (unfold last_n; now rewrite length_map, skipn_map).
  rewrite Hlast' in Hlast.
  destruct (last_n 3 (map moisture df)) as [|m1 [|m2 [|m3 [|m4 r]]]] eqn:Hm;
    try discriminate Hlast.
  cbn [map] in Hlast. injection Hlast as <- <- <-.
  destruct (fit_bounds _ _ Hfit) as (Hb & Hrange & _ & _).
  destruct (fit_attained _ _ Hfit) as [Hinlo Hinhi].
  destruct (scaler_formulas _ _ Hfit) as [Htr Hinv]. cbv zeta in Htr, Hinv.
  exists scaler, X, y, m1, m2, m3,
    (MinMaxScaler.data_min_ scaler), (MinMaxScaler.data_max_ scaler).
  split; [exact Hfit|]. split; [exact Hcs|]. split; [exact Hm|].
  split; [repeat split; auto; now apply Hb|].
  cbv zeta. split; [exact Htr|].
  cbv zeta in Hrun. eexists. split; [exact Hrun|]. cbn [day1 day2 day3].
  split; [repeat split; apply Hinv|].
  intros (Hp1 & Hp2 & Hp3) Hhist (r1 & r2 & Hr1 & Hr2 & Hdiff).
  assert (Hnz : ~ (MinMaxScaler.data_range_ scaler == 0)%Q).
  { intro Hz. apply Hdiff.
    destruct (Hb (moisture r1) (in_map moisture df r1 Hr1)) as [H1 H2].
    destruct (Hb (moisture r2) (in_map moisture df r2 Hr2)) as [H3 H4].
    rewrite Hrange in Hz. lra. }
  destruct (fit_bounded_column 0 100 _ _ Hfit) as [Hlo Hhi].
  { intros v Hv. apply in_map_iff in Hv. destruct Hv as (r & <- & Hr).
    now apply Hhist. }
  assert (Hin : forall q, (0 <= q <= 1)%Q ->
      (0 <= MinMaxScaler.inverse_transform scaler q <= 100)%Q).
  { intros q Hq.
    destruct (inverse_transform_within _ _ q Hfit Hnz Hq) as [H1 H2].
    split; eapply Qle_trans; eauto. }
  repeat constructor; now apply Hin.
Qed.

End Forecast.

Lemma forecast_three_values_witness :
  exists p : Predict.prediction,
    Predict.build_and_predict_model Samples.model_half Samples.history_spread
      = Py.Ok p /\
    (Predict.day1 p == 40 + (1 # 2) * 60)%Q /\
    Forall (fun v => 0 <= v <= 100)%Q
      [Predict.day1 p; Predict.day2 p; Predict.day3 p].
Proof.
  destruct (forecast_three_values Samples.model_half Samples.history_spread)
    as (scaler & X & y & m1 & m2 & m3 & lo & hi
        & Hfit & _ & _ & _ & _ & p & Hp & (H1 & _ & _) & Hrange).
  - simpl. lia.
  - exists p. split; [exact Hp|]. split.
    + vm_compute in Hp. injection Hp as <-. reflexivity.
    + apply Hrange.
      * unfold Samples.model_half, Qle. simpl. repeat split; lia.
      * intros r Hr. simpl in Hr.
        destruct Hr as [<-|[<-|[<-|[<-|[]]]]]; unfold Qle; simpl; lia.
      * exists (Samples.row_of 40), (Samples.row_of 42).
        split; [simpl; auto|]. split; [simpl; auto|].
        unfold Qeq. simpl. lia.
Defined.

(** C1, as stated, with a model whose output 2 is out of the scaled range:
    the history has four rows, all within [0, 100], and the first value
    returned is 160. *)
Lemma forecast_not_clamped :
  Predict.SEQ_LENGTH + 1 <= length Samples.history_spread /\
  exists p : Predict.prediction,
    Predict.build_and_predict_model Samples.model_two Samples.history_spread
      = Py.Ok p /\
    (Predict.day1 p == 160)%Q /\
    ~ (0 <= Predict.day1 p <= 100)%Q.
Proof.
  split; [simpl; lia|].
  eexists. split; [vm_compute; reflexivity|]. cbn [Predict.day1]. split.
  - reflexivity.
  - intros [_ H]. unfold Qle in H. simpl in H. lia.
Qed.

(** ** Outside calls and their outcomes *)

(** Case analysis on the outcomes met along a run: each outside call either
    returns, or raises an [Exception], or raises something else. *)
Ltac outcome_cases :=
  repeat match goal with
    | |- context [match ?r with Py.Ok _ => _ | Py.Raise _ => _ end] =>
        let e := fresh "e" in
        let E := fresh "E" in
        match type of r with
        | Py.result unit => destruct r as [[]|e]
        | _ => destruct r as [?|e]
        end;
        [| destruct (Py.is_Exception e) eqn:E]; cbn
    end.

(** Membership in an explicit list of effects, and outcomes compared. *)
Ltac list_cases :=
  repeat match goal with
    | H : _ \/ _ |- _ => destruct H
    | H : False |- _ => destruct H
    | H : _ /\ _ |- _ => destruct H
    | H : Py.Raise _ = Py.Raise _ |- _ => injection H as H; subst
    | |- ~ _ => intro
    end;
  try discriminate; try congruence; auto 10.

(** ** The alert of the callback *)

Section Alert.
Import Py Predict.

(** One call of [send_email] opens exactly one session; it leaves the CSV
    file alone, and it returns normally unless something other than an
    [Exception] is raised. *)
Lemma predict_send_email_effect (env : callback_env) (m : Q) (p : prediction)
    (w : world) :
  csv_file (snd (send_email env m p w)) = csv_file w /\
  (exists rest,
      wire (snd (send_email env m p w)) = wire w ++ SmtpConnect :: rest /\
      filter is_connect rest = []) /\
  (smtp_catchable (smtp env) = true -> fst (send_email env m p w) = Ok tt).
Proof.
  destruct env as [g1 u dp dw st g2 h g3 [c s l sd q]].
  unfold send_email, try_except, bind, smtp_call, print, smtp_catchable,
    catchable.
  cbn. split; [|split].
  - outcome_cases; reflexivity.
  - outcome_cases;
      repeat rewrite <- app_assoc; cbn;
      (eexists; split; [reflexivity | reflexivity]).
  - outcome_cases; try reflexivity;
      rewrite ?andb_false_r, ?andb_false_l; cbn; try discriminate;
      intros; try reflexivity.
Qed.

Lemma sessions_after_send_email (env : callback_env) (m : Q) (p : prediction)
    (w : world) :
  sessions (snd (send_email env m p w)) = S (sessions w).
Proof.
  destruct (predict_send_email_effect env m p w) as (_ & (rest & Hw & Hf) & _).
  unfold sessions. rewrite Hw, filter_app. cbn. rewrite Hf, length_app.
  cbn. lia.
Qed.

Lemma should_send_send_email (env : callback_env) (m : Q) (p : prediction)
    (w : world) :
  should_send (send_email env m p) w = true.
Proof.
  unfold should_send. rewrite sessions_after_send_email.
  apply Nat.ltb_lt. lia.
Qed.

Lemma should_send_ret (w : world) : should_send (ret tt) w = false.
Proof. unfold should_send, ret. cbn. apply Nat.ltb_irrefl. Qed.

Lemma contains_8_20 (h : Z) :
  contains h [8; 20]%Z = true <-> (h = 8 \/ h = 20)%Z.
Proof.
  unfold contains. cbn. rewrite !orb_true_iff, !Z.eqb_eq.
  intuition discriminate.
Qed.

(** C4.  In the last block of [moisture_callback] a session is opened
    whenever the pin reads dry; when it reads wet, a session is opened
    exactly when the hour is 8 or 20, and otherwise the block does nothing
    at all. *)
Theorem alert_block_decision (env : callback_env) (m : Q) (p : prediction)
    (w : world) :
  (gpio_on_decision env = true ->
   should_send (alert_block env m p) w = true) /\
  (gpio_on_decision env = false ->
   (should_send (alert_block env m p) w = true
    <-> (now_hour env = 8 \/ now_hour env = 20)%Z)) /\
  (gpio_on_decision env = false ->
   ~ (now_hour env = 8 \/ now_hour env = 20)%Z ->
   should_send (alert_block env m p) w = false /\
   alert_block env m p w = (Ok tt, w)).
Proof.
  unfold alert_block. split; [|split].
  - intros ->. apply should_send_send_email.
  - intros ->. rewrite <- contains_8_20.
    destruct (contains (now_hour env) [8; 20]%Z).
    + split; [reflexivity | intros _; apply should_send_send_email].
    + rewrite should_send_ret. split; discriminate.
  - intros -> Hh. rewrite <- contains_8_20 in Hh.
    destruct (contains (now_hour env) [8; 20]%Z); [now elim Hh|].
    split; [apply should_send_ret | reflexivity].
Qed.

End Alert.

Lemma alert_block_decision_witness :
  Predict.should_send
    (Predict.alert_block (Samples.callback_at true 9 Samples.smtp_ok) 33
       Samples.forecast_flat) Samples.world_spread = true /\
  (Predict.should_send
     (Predict.alert_block (Samples.callback_at false 20 Samples.smtp_ok) 41
        Samples.forecast_flat) Samples.world_spread = true
   <-> (20 = 8 \/ 20 = 20)%Z) /\
  Predict.should_send
    (Predict.alert_block (Samples.callback_at false 9 Samples.smtp_ok) 41
       Samples.forecast_flat) Samples.world_spread = false.
Proof.
  split; [|split].
  - apply (proj1 (alert_block_decision
                    (Samples.callback_at true 9 Samples.smtp_ok) 33
                    Samples.forecast_flat Samples.world_spread)).
    reflexivity.
  - apply (proj1 (proj2 (alert_block_decision
                    (Samples.callback_at false 20 Samples.smtp_ok) 41
                    Samples.forecast_flat Samples.world_spread))).
    reflexivity.
  - apply (proj2 (proj2 (alert_block_decision
                    (Samples.callback_at false 9 Samples.smtp_ok) 41
                    Samples.forecast_flat Samples.world_spread))).
    + reflexivity.
    + simpl. lia.
Defined.

(** ** The polling loop of soilMail.py *)

Section Polling.
Import Py SoilMail.
Local Open Scope Z_scope.

Lemma sends_app (w1 w2 : world) : sends (w1 ++ w2) = (sends w1 + sends w2)%nat.
Proof. unfold sends. now rewrite filter_app, length_app. Qed.

(** [send_email] opens one session and, the outcomes being catchable,
    returns normally. *)
Lemma mail_send_email_effect (env : tick_env) (moisture : reading) (w : world) :
  (exists rest,
      snd (send_email env moisture w) = w ++ SmtpConnect :: rest /\
      sends rest = 0%nat) /\
  (smtp_catchable (smtp env) = true ->
   fst (send_email env moisture w) = Ok tt).
Proof.
  destruct env as [h iw ir [c s l sd q]].
  unfold send_email, try_except, bind, print, act, smtp_catchable, catchable.
  cbn. split.
  - outcome_cases; repeat rewrite <- app_assoc; cbn;
      (eexists; split; [reflexivity | reflexivity]).
  - outcome_cases; try reflexivity;
      rewrite ?andb_false_r, ?andb_false_l; cbn; try discriminate;
      intros; try reflexivity.
Qed.

(** [read_soil_moisture] opens no session and, the outcomes being
    catchable, returns a reading. *)
Lemma mail_read_soil_moisture_effect (env : tick_env) (w : world) :
  (exists rest,
      snd (read_soil_moisture env w) = w ++ rest /\ sends rest = 0%nat) /\
  (catchable (i2c_write env) && catchable (i2c_read env) = true ->
   exists m, fst (read_soil_moisture env w) = Ok m).
Proof.
  destruct env as [h iw ir srv].
  unfold read_soil_moisture, try_except, bind, print, act, ret, catchable.
  cbn. split.
  - outcome_cases; repeat rewrite <- app_assoc; cbn;
      (eexists; split; [reflexivity | reflexivity]).
  - outcome_cases; eauto;
      rewrite ?andb_false_r, ?andb_false_l; cbn; try discriminate;
      intros; eauto.
Qed.

(** The sending branch of [judge]: its trace starts with the difference
    printed, and, the outcomes being catchable, it opens one session and
    returns the current hour value. *)
Lemma send_branch_effect (env : tick_env) (d c : Z) (w : world) :
  let branch :=
    (print (PrintSending d) ;;
     moisture <- read_soil_moisture env ;;
     send_email env moisture ;;
     ret c) in
  (exists rest, snd (branch w) = w ++ PrintSending d :: rest) /\
  (quiet env = true ->
   fst (branch w) = Ok c /\ sends (snd (branch w)) = S (sends w)).
Proof.
  cbv zeta. unfold bind, print, act. cbn [fst snd].
  destruct (mail_read_soil_moisture_effect env (w ++ [PrintSending d]))
    as [(r1 & Hr1 & Hs1) Hok1].
  destruct (read_soil_moisture env (w ++ [PrintSending d])) as [[m|e] w1].
  - cbn [fst snd] in *.
    destruct (mail_send_email_effect env m w1) as [(r2 & Hr2 & Hs2) Hok2].
    destruct (send_email env m w1) as [[[]|e] w2]; cbn [fst snd ret] in *.
    + split.
      * exists (r1 ++ SmtpConnect :: r2). subst w1 w2.
        now rewrite <- !app_assoc.
      * intros _. split; [reflexivity|]. subst w1 w2.
        rewrite !sends_app, Hs1.
        change (SmtpConnect :: r2) with ([SmtpConnect] ++ r2).
        rewrite sends_app, Hs2. cbn. lia.
    + split.
      * exists (r1 ++ SmtpConnect :: r2). subst w1 w2.
        now rewrite <- !app_assoc.
      * intro Hq. unfold quiet in Hq. apply andb_true_iff in Hq.
        destruct Hq as [_ Hq]. specialize (Hok2 Hq). discriminate.
  - cbn [fst snd] in *. split.
    + exists r1. subst w1. now rewrite <- app_assoc.
    + intro Hq. unfold quiet in Hq. apply andb_true_iff in Hq.
      destruct Hq as [Hq _]. destruct (Hok1 Hq) as [m Hm]. discriminate.
Qed.

(** The sending branch started with a shifted hour value does the same and
    returns the same value shifted. *)
Lemma send_branch_shift (env : tick_env) (d c k : Z) (w : world) :
  (print (PrintSending d) ;;
   moisture <- read_soil_moisture env ;;
   send_email env moisture ;;
   ret (c + k)) w
  = (rmap (fun v => v + k)
       (fst ((print (PrintSending d) ;;
              moisture <- read_soil_moisture env ;;
              send_email env moisture ;;
              ret c) w)),
     snd ((print (PrintSending d) ;;
           moisture <- read_soil_moisture env ;;
           send_email env moisture ;;
           ret c) w)).
Proof.
  unfold bind, print, act. cbn [fst snd].
  destruct (read_soil_moisture env (w ++ [PrintSending d])) as [[m|e] w1];
    [|reflexivity].
  destruct (send_email env m w1) as [[[]|e] w2]; reflexivity.
Qed.

Lemma judge_unfold (env : tick_env) (lastValue Current_Value : Z) (w : world) :
  judge env lastValue Current_Value w
  = if lastValue =? Current_Value then (Ok lastValue, w)
    else
      let d := if Current_Value - lastValue <? 0
               then Current_Value - lastValue + 24
               else Current_Value - lastValue in
      if d >? 3 then
        (print (PrintSending d) ;;
         moisture <- read_soil_moisture env ;;
         send_email env moisture ;;
         ret Current_Value) w
      else (Ok Current_Value, w ++ [PrintNotSending d]).
Proof.
  unfold judge. destruct (lastValue =? Current_Value); [reflexivity|].
  cbv zeta. destruct (_ >? 3); reflexivity.
Qed.

Lemma judge_changed_hour (env : tick_env) (lastValue Current_Value : Z)
    (w : world) :
  quiet env = true ->
  lastValue <> Current_Value ->
  let d := if Current_Value - lastValue <? 0
           then Current_Value - lastValue + 24
           else Current_Value - lastValue in
  fst (judge env lastValue Current_Value w) = Ok Current_Value /\
  if d >? 3 then
    (exists rest,
        snd (judge env lastValue Current_Value w)
        = w ++ PrintSending d :: rest) /\
    sends (snd (judge env lastValue Current_Value w)) = S (sends w)
  else
    snd (judge env lastValue Current_Value w) = w ++ [PrintNotSending d].
Proof.
  intros Hq Hne. rewrite judge_unfold.
  destruct (Z.eqb_spec lastValue Current_Value) as [|_]; [contradiction|].
  cbv zeta.
  set (d := if Current_Value - lastValue <? 0
            then Current_Value - lastValue + 24
            else Current_Value - lastValue).
  destruct (d >? 3).
  - destruct (send_branch_effect env d Current_Value w) as [Htr Hok].
    cbv zeta in Htr, Hok. destruct (Hok Hq) as [Hv Hs]. auto.
  - split; reflexivity.
Qed.

(** The result and the sessions of a whole turn follow those of [judge]:
    after it the turn only sleeps. *)
Lemma loop_body_judge (env : tick_env) (lastValue : Z) (w : world) :
  let j := judge env lastValue (tm_hour env + 8)
             (w ++ [PrintStatus (tm_hour env + 8) lastValue]) in
  loop_body env lastValue w
  = match fst j with
    | Ok v => (Ok v, snd j ++ [Sleep 60])
    | Raise e => (Raise e, snd j)
    end.
Proof.
  cbv zeta. unfold loop_body, bind, print, act, ret. cbn [fst snd].
  destruct (judge env lastValue (tm_hour env + 8)
              (w ++ [PrintStatus (tm_hour env + 8) lastValue]))
    as [[v|e] w1]; reflexivity.
Qed.

(** Whatever the outside calls do, [judge] on two different hour values
    first prints the difference it has computed. *)
Lemma judge_prints_difference (env : tick_env) (lastValue Current_Value : Z)
    (w : world) :
  lastValue <> Current_Value ->
  let d := if Current_Value - lastValue <? 0
           then Current_Value - lastValue + 24
           else Current_Value - lastValue in
  exists rest,
    snd (judge env lastValue Current_Value w)
    = w ++ (if d >? 3 then PrintSending d else PrintNotSending d) :: rest.
Proof.
  intros Hne. rewrite judge_unfold.
  destruct (Z.eqb_spec lastValue Current_Value) as [|_]; [contradiction|].
  cbv zeta.
  set (d := if Current_Value - lastValue <? 0
            then Current_Value - lastValue + 24
            else Current_Value - lastValue).
  destruct (d >? 3).
  - destruct (send_branch_effect env d Current_Value w) as [Htr _].
    exact Htr.
  - now exists [].
Qed.

(** C5.  In [judge] the difference is [Current_Value - lastValue], plus 24
    when that is negative, and it is the number printed.  From 23 to 1 the
    difference is 2: nothing is sent and the value kept is 1.  From 6 to 10
    it is 4: a session is opened and the value kept is 10.  The same holds
    on the values the script stores, which carry the offset 8. *)
Theorem hour_difference_wraparound (env : tick_env) (w : world) :
  (forall lastValue Current_Value, lastValue <> Current_Value ->
     let difference := if Current_Value - lastValue <? 0
                       then Current_Value - lastValue + 24
                       else Current_Value - lastValue in
     exists rest,
       snd (judge env lastValue Current_Value w)
       = w ++ (if difference >? 3 then PrintSending difference
               else PrintNotSending difference) :: rest) /\
  judge env 23 1 w = (Ok 1, w ++ [PrintNotSending 2]) /\
  (exists rest, snd (judge env 6 10 w) = w ++ PrintSending 4 :: rest) /\
  (quiet env = true ->
   sends (snd (judge env 6 10 w)) = S (sends w) /\
   fst (judge env 6 10 w) = Ok 10) /\
  (tm_hour env = 1 ->
   loop_body env (23 + 8) w
   = (Ok (1 + 8),
      w ++ [PrintStatus (1 + 8) (23 + 8); PrintNotSending 2; Sleep 60])) /\
  (tm_hour env = 10 ->
   quiet env = true ->
   fst (loop_body env (6 + 8) w) = Ok (10 + 8) /\
   sends (snd (loop_body env (6 + 8) w)) = S (sends w)).
Proof.
  split; [|split; [|split; [|split; [|split]]]].
  - intros l c Hne. now apply judge_prints_difference.
  - reflexivity.
  - apply (judge_prints_difference env 6 10 w). lia.
  - intro Hq.
    destruct (judge_changed_hour env 6 10 w Hq) as [Hv H]; [lia|].
    change (if 10 - 6 <? 0 then 10 - 6 + 24 else 10 - 6) with 4 in H.
    change (4 >? 3) with true in H. destruct H as [Htr Hs]. auto.
  - intros Hh. rewrite loop_body_judge. rewrite Hh. cbn.
    now rewrite <- !app_assoc.
  - intros Hh Hq. rewrite loop_body_judge. rewrite Hh. cbv zeta.
    destruct (judge_changed_hour env (6 + 8) (10 + 8)
                (w ++ [PrintStatus (10 + 8) (6 + 8)]) Hq) as [Hv H]; [lia|].
    change (if 10 + 8 - (6 + 8) <? 0 then 10 + 8 - (6 + 8) + 24
            else 10 + 8 - (6 + 8)) with 4 in H.
    change (4 >? 3) with true in H. destruct H as [_ Hs].
    rewrite Hv. cbn [fst snd].
    split; [reflexivity|].
    rewrite sends_app, Hs, sends_app. cbn. lia.
Qed.

(** C6.  Whenever the current hour value differs from the stored one, the
    stored one becomes the current one: in [judge] and in a whole turn,
    whether the difference is above 3 or not, and however the SMTP session
    ends. *)
Theorem watermark_advances (env : tick_env) (lastValue : Z) (w : world) :
  quiet env = true ->
  (forall Current_Value, Current_Value <> lastValue ->
     fst (judge env lastValue Current_Value w) = Ok Current_Value) /\
  (tm_hour env + 8 <> lastValue ->
   fst (loop_body env lastValue w) = Ok (tm_hour env + 8)).
Proof.
  intro Hq. split.
  - intros c Hne.
    now destruct (judge_changed_hour env lastValue c w Hq) as [Hv _]; [lia|].
  - intro Hne. rewrite loop_body_judge. cbv zeta.
    destruct (judge_changed_hour env lastValue (tm_hour env + 8)
                (w ++ [PrintStatus (tm_hour env + 8) lastValue]) Hq)
      as [Hv _]; [lia|].
    now rewrite Hv.
Qed.

(** C7.  When the current hour value equals the stored one, [judge] does
    nothing: no effect at all and the stored value returned as it is.  A
    whole turn then only prints the status line and sleeps, and any number
    of such turns in a row leaves the stored value and the sessions as they
    were. *)
Theorem same_hour_is_noop (env : tick_env) (w : world) :
  let Current_Value := tm_hour env + 8 in
  (forall lastValue, judge env lastValue lastValue w = (Ok lastValue, w)) /\
  loop_body env Current_Value w
  = (Ok Current_Value,
     w ++ [PrintStatus Current_Value Current_Value; Sleep 60]) /\
  sends (snd (loop_body env Current_Value w)) = sends w /\
  forall n,
    fst (while_true (repeat env n) Current_Value w) = Ok Current_Value /\
    sends (snd (while_true (repeat env n) Current_Value w)) = sends w.
Proof.
  cbv zeta.
  assert (Hj : forall w0,
             judge env (tm_hour env + 8) (tm_hour env + 8) w0
             = (Ok (tm_hour env + 8), w0)).
  { intro w0. rewrite judge_unfold. now rewrite Z.eqb_refl. }
  assert (Hl : forall w0,
             loop_body env (tm_hour env + 8) w0
             = (Ok (tm_hour env + 8),
                w0 ++ [PrintStatus (tm_hour env + 8) (tm_hour env + 8);
                       Sleep 60])).
  { intro w0. rewrite loop_body_judge. cbv zeta. rewrite Hj. cbn.
    now rewrite <- app_assoc. }
  split; [intro v; rewrite judge_unfold; now rewrite Z.eqb_refl|].
  split; [apply Hl|]. split.
  - rewrite Hl. cbn [snd]. rewrite sends_app. cbn. lia.
  - intro n. revert w. induction n as [|n IH]; intro w; cbn.
    + auto.
    + unfold bind. rewrite Hl.
      destruct (IH (w ++ [PrintStatus (tm_hour env + 8) (tm_hour env + 8);
                          Sleep 60])) as [H1 H2].
      split; [exact H1|]. rewrite H2, sends_app. cbn. lia.
Qed.

(** C10.  The script adds 8 to the hour it starts with and to the hour of
    every turn.  Adding one and the same offset to both arguments of
    [judge] changes neither the difference nor anything it does: the trace
    is the same and the value kept is the same plus the offset.  So a turn
    on stored values judges as [judge] does on the plain hours, although a
    stored value can be above 23. *)
Theorem timezone_offset_invariance (env : tick_env) (w : world) :
  (forall lastValue Current_Value offset,
     judge env (lastValue + offset) (Current_Value + offset) w
     = (rmap (fun v => v + offset) (fst (judge env lastValue Current_Value w)),
        snd (judge env lastValue Current_Value w))) /\
  (forall start_tm_hour envs,
     main start_tm_hour envs w
     = while_true envs (start_tm_hour + 8)
         (w ++ [PrintStarted (start_tm_hour + 8)])) /\
  (forall last_tm_hour,
     let w1 := w ++ [PrintStatus (tm_hour env + 8) (last_tm_hour + 8)] in
     fst (loop_body env (last_tm_hour + 8) w)
     = rmap (fun v => v + 8) (fst (judge env last_tm_hour (tm_hour env) w1)) /\
     sends (snd (loop_body env (last_tm_hour + 8) w))
     = sends (snd (judge env last_tm_hour (tm_hour env) w1))) /\
  fst (main 23 [] w) = Ok 31.
Proof.
  assert (Hshift : forall w0 l c k,
     judge env (l + k) (c + k) w0
     = (rmap (fun v => v + k) (fst (judge env l c w0)),
        snd (judge env l c w0))).
  { intros w0 l c k. rewrite !judge_unfold.
    replace (l + k =? c + k) with (l =? c)
      by (destruct (Z.eqb_spec l c), (Z.eqb_spec (l + k) (c + k));
          try reflexivity; lia).
    replace (c + k - (l + k)) with (c - l) by lia.
    destruct (l =? c); [reflexivity|]. cbv zeta.
    destruct (_ >? 3); [|reflexivity].
    apply send_branch_shift. }
  split; [intros; apply Hshift|]. split; [reflexivity|]. split; [|reflexivity].
  intro h0. cbv zeta. rewrite loop_body_judge. cbv zeta. rewrite Hshift.
  cbn [fst snd].
  destruct (fst (judge env h0 (tm_hour env) _)) as [v|e]; cbn [rmap fst snd].
  - split; [reflexivity|]. rewrite sends_app. cbn. lia.
  - split; reflexivity.
Qed.

End Polling.

Lemma hour_difference_wraparound_witness :
  (exists rest,
      snd (SoilMail.judge (Samples.tick_at 1 Samples.smtp_ok) 23 1 [])
      = [] ++ SoilMail.PrintNotSending 2 :: rest) /\
  SoilMail.loop_body (Samples.tick_at 1 Samples.smtp_ok) 31 []
  = (Py.Ok 9%Z,
     [SoilMail.PrintStatus 9 31; SoilMail.PrintNotSending 2;
      SoilMail.Sleep 60]) /\
  (SoilMail.sends
     (snd (SoilMail.judge (Samples.tick_at 10 Samples.smtp_ok) 6 10 [])) = 1 /\
   fst (SoilMail.judge (Samples.tick_at 10 Samples.smtp_ok) 6 10 [])
   = Py.Ok 10%Z) /\
  fst (SoilMail.loop_body (Samples.tick_at 10 Samples.smtp_ok) 14 [])
  = Py.Ok 18%Z /\
  SoilMail.sends
    (snd (SoilMail.loop_body (Samples.tick_at 10 Samples.smtp_ok) 14 []))
  = 1.
Proof.
  destruct (hour_difference_wraparound (Samples.tick_at 1 Samples.smtp_ok) [])
    as (Hdiff & _ & _ & _ & Hwrap & _).
  destruct (hour_difference_wraparound (Samples.tick_at 10 Samples.smtp_ok) [])
    as (_ & _ & _ & Hjudge & _ & Hsend).
  split; [|split; [|split]].
  - apply (Hdiff 23%Z 1%Z). lia.
  - apply Hwrap. reflexivity.
  - apply Hjudge. reflexivity.
  - apply Hsend; reflexivity.
Defined.

Lemma watermark_advances_witness :
  SoilMail.quiet (Samples.tick_at 6 Samples.smtp_unreachable) = true /\
  fst (SoilMail.judge (Samples.tick_at 6 Samples.smtp_unreachable) 9 14 [])
  = Py.Ok 14%Z /\
  fst (SoilMail.judge (Samples.tick_at 6 Samples.smtp_unreachable) 9 11 [])
  = Py.Ok 11%Z /\
  fst (SoilMail.loop_body (Samples.tick_at 6 Samples.smtp_unreachable) 9 [])
  = Py.Ok 14%Z.
Proof.
  destruct (watermark_advances
              (Samples.tick_at 6 Samples.smtp_unreachable) 9%Z [] eq_refl)
    as [Hjudge Hturn].
  split; [reflexivity|]. split; [|split].
  - apply Hjudge. lia.
  - apply Hjudge. lia.
  - apply Hturn. simpl. lia.
Defined.

(** ** Delivery failures *)

Section DeliveryMail.
Import Py SoilMail.
Local Open Scope Z_scope.

(** What [read_soil_moisture] returns does not depend on the trace so far. *)
Lemma mail_read_soil_moisture_result (env : tick_env) (w w' : world) :
  fst (read_soil_moisture env w) = fst (read_soil_moisture env w').
Proof.
  destruct env as [h iw ir srv].
  unfold read_soil_moisture, try_except, bind, print, act, ret. cbn.
  outcome_cases; reflexivity.
Qed.

(** Under any two servers whose failures are [Exception]s, [judge] returns
    the same: the outcome of the session never reaches its result. *)
Lemma judge_result_any_server (env : tick_env) (srv1 srv2 : smtp_server)
    (lastValue Current_Value : Z) (w w' : world) :
  smtp_catchable srv1 = true ->
  smtp_catchable srv2 = true ->
  fst (judge (with_smtp env srv1) lastValue Current_Value w)
  = fst (judge (with_smtp env srv2) lastValue Current_Value w').
Proof.
  intros H1 H2. rewrite !judge_unfold.
  destruct (lastValue =? Current_Value); [reflexivity|]. cbv zeta.
  destruct (_ >? 3); [|reflexivity].
  unfold bind, print, act. cbn [fst snd].
  change (read_soil_moisture (with_smtp env srv1))
    with (read_soil_moisture env).
  change (read_soil_moisture (with_smtp env srv2))
    with (read_soil_moisture env).
  set (d := if Current_Value - lastValue <? 0
            then Current_Value - lastValue + 24
            else Current_Value - lastValue).
  pose proof (mail_read_soil_moisture_result env
                (w ++ [PrintSending d]) (w' ++ [PrintSending d])) as Hread.
  destruct (read_soil_moisture env (w ++ [PrintSending d])) as [[m|e] w1];
    destruct (read_soil_moisture env (w' ++ [PrintSending d]))
      as [[m'|e'] w1'];
    cbn [fst] in Hread; try discriminate;
    [|cbn [fst]; now injection Hread as <-].
  injection Hread as <-.
  destruct (mail_send_email_effect (with_smtp env srv1) m w1) as [_ Hok1].
  destruct (mail_send_email_effect (with_smtp env srv2) m w1') as [_ Hok2].
  specialize (Hok1 H1). specialize (Hok2 H2).
  destruct (send_email (with_smtp env srv1) m w1) as [r1 w2].
  destruct (send_email (with_smtp env srv2) m w1') as [r2 w2'].
  cbn [fst] in Hok1, Hok2. subst r1 r2. reflexivity.
Qed.

Lemma loop_body_result_any_server (env : tick_env) (srv1 srv2 : smtp_server)
    (lastValue : Z) (w w' : world) :
  smtp_catchable srv1 = true ->
  smtp_catchable srv2 = true ->
  fst (loop_body (with_smtp env srv1) lastValue w)
  = fst (loop_body (with_smtp env srv2) lastValue w').
Proof.
  intros H1 H2. rewrite !loop_body_judge. cbv zeta.
  change (tm_hour (with_smtp env srv1)) with (tm_hour env).
  change (tm_hour (with_smtp env srv2)) with (tm_hour env).
  rewrite (judge_result_any_server env srv1 srv2 lastValue (tm_hour env + 8)
             (w ++ [PrintStatus (tm_hour env + 8) lastValue])
             (w' ++ [PrintStatus (tm_hour env + 8) lastValue]) H1 H2).
  destruct (fst (judge (with_smtp env srv2) _ _ _)); reflexivity.
Qed.

Lemma while_true_result_any_server (srv1 srv2 : smtp_server)
    (envs : list tick_env) :
  smtp_catchable srv1 = true ->
  smtp_catchable srv2 = true ->
  forall (lastValue : Z) (w w' : world),
    fst (while_true (map (fun env => with_smtp env srv1) envs) lastValue w)
    = fst (while_true (map (fun env => with_smtp env srv2) envs) lastValue w').
Proof.
  intros H1 H2. induction envs as [|env envs IH]; intros l w w'; cbn.
  - reflexivity.
  - unfold bind.
    pose proof (loop_body_result_any_server env srv1 srv2 l w w' H1 H2) as Hl.
    destruct (loop_body (with_smtp env srv1) l w) as [[v|e] w1];
      destruct (loop_body (with_smtp env srv2) l w') as [[v'|e'] w1'];
      cbn [fst] in Hl; try discriminate.
    + injection Hl as <-. apply IH.
    + exact Hl.
Qed.

End DeliveryMail.

Section DeliveryCallback.
Import Py Predict.
Variable fit_model : list (list Q) -> list Q -> list Q -> Q.

(** Whatever the session does within what [except Exception] contains, the
    last block of the callback returns normally and the CSV file is as it
    was before the block. *)
Lemma alert_block_any_server (env : callback_env) (srv : smtp_server)
    (m : Q) (p : prediction) (w : world) :
  smtp_catchable srv = true ->
  fst (alert_block (with_smtp env srv) m p w) = Ok tt /\
  csv_file (snd (alert_block (with_smtp env srv) m p w)) = csv_file w.
Proof.
  intro Hc. unfold alert_block.
  change (gpio_on_decision (with_smtp env srv)) with (gpio_on_decision env).
  change (now_hour (with_smtp env srv)) with (now_hour env).
  destruct (predict_send_email_effect (with_smtp env srv) m p w)
    as (Hcsv & _ & Hok).
  specialize (Hok Hc).
  destruct (gpio_on_decision env); [auto|].
  destruct (contains (now_hour env) [8; 20]%Z); auto.
Qed.

(** The callback up to its last block does not look at the server. *)
Lemma moisture_callback_unfold (env : callback_env) (srv : smtp_server)
    (w : world) :
  let m := if gpio_on_entry env then uniform env 30 35
           else uniform env 38 45 in
  moisture_callback fit_model (with_smtp env srv) w
  = (print (PrintDetected m) ;;
     df_updated <- load_and_update_data env m ;;
     prediction_result <- lift (build_and_predict_model fit_model df_updated) ;;
     print (PrintPrediction prediction_result) ;;
     alert_block (with_smtp env srv) m prediction_result) w.
Proof. reflexivity. Qed.

Lemma moisture_callback_any_server (env : callback_env)
    (srv1 srv2 : smtp_server) (w : world) :
  smtp_catchable srv1 = true ->
  smtp_catchable srv2 = true ->
  fst (moisture_callback fit_model (with_smtp env srv1) w)
  = fst (moisture_callback fit_model (with_smtp env srv2) w) /\
  csv_file (snd (moisture_callback fit_model (with_smtp env srv1) w))
  = csv_file (snd (moisture_callback fit_model (with_smtp env srv2) w)).
Proof.
  intros H1 H2. rewrite !moisture_callback_unfold. cbv zeta.
  set (m := if gpio_on_entry env then uniform env 30 35
            else uniform env 38 45).
  unfold bind, print, lift. cbn [fst snd].
  destruct (load_and_update_data env m _) as [[df|e] w1]; [|auto].
  destruct (build_and_predict_model fit_model df) as [p|e]; [|auto].
  set (w2 := {| csv_file := csv_file w1; wire := wire w1;
                stdout := stdout w1 ++ [PrintPrediction p] |}).
  destruct (alert_block_any_server env srv1 m p w2 H1) as [Ha1 Hb1].
  destruct (alert_block_any_server env srv2 m p w2 H2) as [Ha2 Hb2].
  now rewrite Ha1, Ha2, Hb1, Hb2.
Qed.

End DeliveryCallback.

(** C8.  Let the SMTP session end in any way that [except Exception]
    contains, failure included.  In soilMail.py [send_email] then returns
    normally, and a turn of the loop, or any number of turns, returns what
    it returns with a server that never fails: the same stored hour value,
    no exception out of the loop.  In SoilSensor_Prediction_Email.py
    [send_email] returns normally and leaves the CSV history untouched, and
    the whole callback returns the same and leaves the same history as with
    a server that never fails. *)
Theorem delivery_failure_contained (srv : Py.smtp_server) :
  Py.smtp_catchable srv = true ->
  (forall env moisture w,
     fst (SoilMail.send_email (SoilMail.with_smtp env srv) moisture w)
     = Py.Ok tt) /\
  (forall env lastValue w,
     fst (SoilMail.loop_body (SoilMail.with_smtp env srv) lastValue w)
     = fst (SoilMail.loop_body (SoilMail.with_smtp env Samples.smtp_ok)
              lastValue w)) /\
  (forall envs lastValue w,
     fst (SoilMail.while_true
            (map (fun env => SoilMail.with_smtp env srv) envs) lastValue w)
     = fst (SoilMail.while_true
              (map (fun env => SoilMail.with_smtp env Samples.smtp_ok) envs)
              lastValue w)) /\
  (forall env m p w,
     fst (Predict.send_email (Predict.with_smtp env srv) m p w) = Py.Ok tt /\
     Predict.csv_file
       (snd (Predict.send_email (Predict.with_smtp env srv) m p w))
     = Predict.csv_file w) /\
  (forall fit_model env w,
     fst (Predict.moisture_callback fit_model (Predict.with_smtp env srv) w)
     = fst (Predict.moisture_callback fit_model
              (Predict.with_smtp env Samples.smtp_ok) w) /\
     Predict.csv_file
       (snd (Predict.moisture_callback fit_model
               (Predict.with_smtp env srv) w))
     = Predict.csv_file
         (snd (Predict.moisture_callback fit_model
                 (Predict.with_smtp env Samples.smtp_ok) w))).
Proof.
  intro Hc.
  assert (Hok : Py.smtp_catchable Samples.smtp_ok = true) by reflexivity.
  split; [|split; [|split; [|split]]].
  - intros env moisture w.
    now apply (mail_send_email_effect (SoilMail.with_smtp env srv)).
  - intros env l w. now apply loop_body_result_any_server.
  - intros envs l w. now apply while_true_result_any_server.
  - intros env m p w.
    destruct (predict_send_email_effect (Predict.with_smtp env srv) m p w)
      as (Hcsv & _ & Hret).
    split; [now apply Hret | exact Hcsv].
  - intros fit_model env w. now apply moisture_callback_any_server.
Qed.

Lemma delivery_failure_contained_witness :
  Py.smtp_fails Samples.smtp_login_refused = true /\
  fst (SoilMail.loop_body (Samples.tick_at 14 Samples.smtp_login_refused) 9 [])
  = Py.Ok 22%Z /\
  Predict.csv_file
    (snd (Predict.moisture_callback Samples.model_half
            (Samples.callback_at true 9 Samples.smtp_login_refused)
            Samples.world_spread))
  = Predict.csv_file
      (snd (Predict.moisture_callback Samples.model_half
              (Samples.callback_at true 9 Samples.smtp_ok)
              Samples.world_spread)).
Proof.
  destruct (delivery_failure_contained Samples.smtp_login_refused eq_refl)
    as (_ & Hturn & _ & _ & Hcallback).
  split; [reflexivity|]. split.
  - exact (Hturn (Samples.tick_at 14 Samples.smtp_ok) 9%Z []).
  - exact (proj2 (Hcallback Samples.model_half
                    (Samples.callback_at true 9 Samples.smtp_ok)
                    Samples.world_spread)).
Defined.

(** ** The ADC reader of soilMeas.py *)

Section Measure.
Import Py SoilMeas.
Local Open Scope Q_scope.

Lemma clamp_bounds (x : Q) : 0 <= Qmax 0 (Qmin 100 x) <= 100.
Proof.
  split.
  - apply Q.le_max_l.
  - apply Q.max_lub.
    + unfold Qle. simpl. lia.
    + apply Q.le_min_l.
Qed.

(** C9.  When the ADC read raises an [Exception], [read_soil_moisture]
    logs it and returns [(None, None, None)].  When the read returns a raw
    value, whatever it is, the triple holds that value, the voltage and a
    percentage that is the rounded conversion passed through
    [max(0.0, min(100.0, _))], hence within [0, 100]. *)
Theorem read_soil_moisture_clamped (w : world) :
  (forall e,
     read_soil_moisture (Raise e) w
     = if is_Exception e
       then (Ok (None, None, None), w ++ [LogError e])
       else (Raise e, w)) /\
  (forall adc_value : Z,
     exists voltage moisture_percent : Q,
       fst (read_soil_moisture (Ok adc_value) w)
       = Ok (Some adc_value, Some voltage, Some moisture_percent) /\
       voltage = inject_Z adc_value / 65535 * 5 /\
       moisture_percent
       = Qmax 0 (Qmin 100 (round (100 - voltage / 5 * 100) 2)) /\
       0 <= moisture_percent <= 100).
Proof.
  split.
  - intro e. unfold read_soil_moisture, try_except, bind, lift, log, ret.
    cbn. destruct (is_Exception e); reflexivity.
  - intro adc_value. do 2 eexists. split; [reflexivity|].
    split; [reflexivity|]. split; [reflexivity|]. apply clamp_bounds.
Qed.

End Measure.

(** ** Rounding *)

Section Rounding.
Import Py.
Local Open Scope Q_scope.

Lemma round_half_even_near (x : Q) :
  (Qfloor x <= round_half_even x <= Qfloor x + 1)%Z.
Proof.
  unfold round_half_even.
  destruct (x - inject_Z (Qfloor x) ?= 1 # 2); [|lia|lia].
  destruct (Z.even (Qfloor x)); lia.
Qed.

Lemma round_half_even_lower (k : Z) (x : Q) :
  inject_Z k <= x -> (k <= round_half_even x)%Z.
Proof.
  intro H. apply Qfloor_resp_le in H. rewrite Qfloor_Z in H.
  pose proof (round_half_even_near x). lia.
Qed.

Lemma round_half_even_upper (k : Z) (x : Q) :
  x <= inject_Z k -> (round_half_even x <= k)%Z.
Proof.
  intro H. pose proof (Qfloor_resp_le _ _ H) as Hf. rewrite Qfloor_Z in Hf.
  destruct (Z.eq_dec (Qfloor x) k) as [Heq|Hne].
  - unfold round_half_even. rewrite Heq.
    destruct (Qcompare_spec (x - inject_Z k) (1 # 2)) as [He|Hl|Hg];
      [lra | lia | lra].
  - pose proof (round_half_even_near x). lia.
Qed.

Lemma round_half_even_mono (x y : Q) :
  x <= y -> (round_half_even x <= round_half_even y)%Z.
Proof.
  intro H. pose proof (Qfloor_resp_le _ _ H) as Hf.
  destruct (Z.eq_dec (Qfloor x) (Qfloor y)) as [Heq|Hne].
  - unfold round_half_even. rewrite Heq.
    destruct (Qcompare_spec (x - inject_Z (Qfloor y)) (1 # 2)) as [He|Hl|Hg];
      destruct (Qcompare_spec (y - inject_Z (Qfloor y)) (1 # 2))
        as [He'|Hl'|Hg'];
      try lra; try lia; destruct (Z.even (Qfloor y)); lia.
  - pose proof (round_half_even_near x). pose proof (round_half_even_near y).
    lia.
Qed.

Lemma pow10_pos (n : nat) : 0 < inject_Z (10 ^ Z.of_nat n).
Proof.
  change 0 with (inject_Z 0). rewrite <- Zlt_Qlt.
  apply Z.pow_pos_nonneg; lia.
Qed.

Lemma round_mono (x y : Q) (n : nat) : x <= y -> round x n <= round y n.
Proof.
  intro H. unfold round. pose proof (pow10_pos n) as Hp.
  apply Qmult_le_compat_r.
  - rewrite <- Zle_Qle. apply round_half_even_mono.
    apply Qmult_le_compat_r; [exact H | now apply Qlt_le_weak].
  - apply Qinv_le_0_compat. now apply Qlt_le_weak.
Qed.

(** A bound that is a multiple of the rounding step passes through
    [round]. *)
Lemma round_lower (k : Z) (x : Q) (n : nat) :
  inject_Z k <= x * inject_Z (10 ^ Z.of_nat n) ->
  inject_Z k / inject_Z (10 ^ Z.of_nat n) <= round x n.
Proof.
  intro H. unfold round. pose proof (pow10_pos n) as Hp.
  apply Qmult_le_compat_r.
  - rewrite <- Zle_Qle. now apply round_half_even_lower.
  - apply Qinv_le_0_compat. now apply Qlt_le_weak.
Qed.

Lemma round_upper (k : Z) (x : Q) (n : nat) :
  x * inject_Z (10 ^ Z.of_nat n) <= inject_Z k ->
  round x n <= inject_Z k / inject_Z (10 ^ Z.of_nat n).
Proof.
  intro H. unfold round. pose proof (pow10_pos n) as Hp.
  apply Qmult_le_compat_r.
  - rewrite <- Zle_Qle. now apply round_half_even_upper.
  - apply Qinv_le_0_compat. now apply Qlt_le_weak.
Qed.

(** Two decimals: bounds that are whole percents. *)
Lemma round2_lower (k : Z) (x : Q) : inject_Z k <= x -> inject_Z k <= round x 2.
Proof.
  intro H.
  assert (Hk : inject_Z k == inject_Z (k * 100) / inject_Z (10 ^ Z.of_nat 2)).
  { rewrite inject_Z_mult. change (inject_Z (10 ^ Z.of_nat 2)) with 100.
    change (inject_Z 100) with 100. field. }
  rewrite Hk. apply round_lower.
  rewrite inject_Z_mult. change (inject_Z (10 ^ Z.of_nat 2)) with 100.
  change (inject_Z 100) with 100. lra.
Qed.

Lemma round2_upper (k : Z) (x : Q) : x <= inject_Z k -> round x 2 <= inject_Z k.
Proof.
  intro H.
  assert (Hk : inject_Z k == inject_Z (k * 100) / inject_Z (10 ^ Z.of_nat 2)).
  { rewrite inject_Z_mult. change (inject_Z (10 ^ Z.of_nat 2)) with 100.
    change (inject_Z 100) with 100. field. }
  rewrite Hk. apply round_upper.
  rewrite inject_Z_mult. change (inject_Z (10 ^ Z.of_nat 2)) with 100.
  change (inject_Z 100) with 100. lra.
Qed.

End Rounding.

(** ** soilMeas.py: the percentage as a function of the raw value *)

Section Percentage.
Import Py SoilMeas.
Local Open Scope Q_scope.

(** The triple returned on a raw value. *)
Lemma read_soil_moisture_value (adc_value : Z) (w : world) :
  fst (read_soil_moisture (Ok adc_value) w)
  = Ok (Some adc_value,
        Some (inject_Z adc_value / 65535 * 5),
        Some (Qmax 0 (Qmin 100
                (round (100 - inject_Z adc_value / 65535 * 5 / 5 * 100) 2)))).
Proof. reflexivity. Qed.

Lemma inject_Z_le (a b : Z) : (a <= b)%Z -> inject_Z a <= inject_Z b.
Proof. intro H. now rewrite <- Zle_Qle. Qed.

Lemma percent_linear (a : Q) :
  100 - a / 65535 * 5 / 5 * 100 == 100 - a * (100 # 65535).
Proof. field. Qed.

Lemma voltage_linear (a : Q) : a / 65535 * 5 == a * (5 # 65535).
Proof. field. Qed.

(** X18.  Saturation.  A raw value of 0 or below reads as 100 percent, one of
    65535 or above as 0 percent: outside the scale the clamp decides. *)
Theorem adc_saturation (adc_value : Z) (w : world) :
  exists voltage moisture_percent : Q,
    fst (read_soil_moisture (Ok adc_value) w)
    = Ok (Some adc_value, Some voltage, Some moisture_percent) /\
    ((adc_value <= 0)%Z -> moisture_percent == 100) /\
    ((65535 <= adc_value)%Z -> moisture_percent == 0).
Proof.
  do 2 eexists. split; [apply read_soil_moisture_value|].
  set (x := 100 - inject_Z adc_value / 65535 * 5 / 5 * 100).
  split; intro H; apply inject_Z_le in H.
  - apply Qle_antisym; [apply clamp_bounds|].
    eapply Qle_trans; [|apply Q.le_max_r].
    apply Q.min_glb; [apply Qle_refl|].
    apply (round2_lower 100 x). change (inject_Z 100) with 100.
    change (inject_Z 0) with 0 in H. unfold x.
    rewrite percent_linear. lra.
  - apply Qle_antisym; [|apply clamp_bounds].
    apply Q.max_lub; [apply Qle_refl|].
    eapply Qle_trans; [apply Q.le_min_r|].
    apply (round2_upper 0 x). change (inject_Z 0) with 0.
    change (inject_Z 65535) with 65535 in H. unfold x.
    rewrite percent_linear. lra.
Qed.

(** X19.  A signed 16-bit raw value, which is at most 32767, never reads below
    50 percent, since the conversion divides by 65535. *)
Theorem adc_int16_at_least_half (adc_value : Z) (w : world) :
  (adc_value <= 32767)%Z ->
  exists voltage moisture_percent : Q,
    fst (read_soil_moisture (Ok adc_value) w)
    = Ok (Some adc_value, Some voltage, Some moisture_percent) /\
    50 <= moisture_percent <= 100.
Proof.
  intro H. apply inject_Z_le in H. change (inject_Z 32767) with 32767 in H.
  do 2 eexists. split; [apply read_soil_moisture_value|].
  set (x := 100 - inject_Z adc_value / 65535 * 5 / 5 * 100).
  split; [|apply clamp_bounds].
  eapply Qle_trans; [|apply Q.le_max_r].
  apply Q.min_glb; [unfold Qle; simpl; lia|].
  apply (round2_lower 50 x). change (inject_Z 50) with 50. unfold x.
  rewrite percent_linear. lra.
Qed.

(** X20.  The larger the raw value, the larger the voltage and the smaller, or
    equal, the percentage. *)
Theorem adc_percentage_antitone (adc1 adc2 : Z) (w1 w2 : world) :
  (adc1 <= adc2)%Z ->
  exists v1 m1 v2 m2 : Q,
    fst (read_soil_moisture (Ok adc1) w1) = Ok (Some adc1, Some v1, Some m1) /\
    fst (read_soil_moisture (Ok adc2) w2) = Ok (Some adc2, Some v2, Some m2) /\
    v1 <= v2 /\ m2 <= m1.
Proof.
  intro H. apply inject_Z_le in H.
  do 4 eexists. split; [apply read_soil_moisture_value|].
  split; [apply read_soil_moisture_value|].
  split; [rewrite !voltage_linear; lra|].
  apply Q.max_le_compat_l, Q.min_le_compat_l, round_mono.
  rewrite !percent_linear. lra.
Qed.

End Percentage.

Lemma adc_saturation_witness :
  (exists voltage moisture_percent : Q,
      fst (SoilMeas.read_soil_moisture (Py.Ok (-5)%Z) [])
      = Py.Ok (Some (-5)%Z, Some voltage, Some moisture_percent) /\
      (moisture_percent == 100)%Q) /\
  (exists voltage moisture_percent : Q,
      fst (SoilMeas.read_soil_moisture (Py.Ok 70000%Z) [])
      = Py.Ok (Some 70000%Z, Some voltage, Some moisture_percent) /\
      (moisture_percent == 0)%Q).
Proof.
  split.
  - destruct (adc_saturation (-5) []) as (v & m & Hr & Hlow & _).
    exists v, m. split; [exact Hr|]. apply Hlow. lia.
  - destruct (adc_saturation 70000 []) as (v & m & Hr & _ & Hhigh).
    exists v, m. split; [exact Hr|]. apply Hhigh. lia.
Defined.

Lemma adc_int16_at_least_half_witness :
  exists voltage moisture_percent : Q,
    fst (SoilMeas.read_soil_moisture (Py.Ok 32767%Z) [])
    = Py.Ok (Some 32767%Z, Some voltage, Some moisture_percent) /\
    (50 <= moisture_percent <= 100)%Q.
Proof. apply (adc_int16_at_least_half 32767 []). lia. Defined.

Lemma adc_percentage_antitone_witness :
  exists v1 m1 v2 m2 : Q,
    fst (SoilMeas.read_soil_moisture (Py.Ok 20000%Z) [])
    = Py.Ok (Some 20000%Z, Some v1, Some m1) /\
    fst (SoilMeas.read_soil_moisture (Py.Ok 20001%Z) [])
    = Py.Ok (Some 20001%Z, Some v2, Some m2) /\
    (v1 <= v2)%Q /\ (m2 <= m1)%Q.
Proof. apply (adc_percentage_antitone 20000 20001 [] []). lia. Defined.

(** ** soilMeas.py: one turn of the loop and the program *)

Section Station.
Import Py SoilMeasLoop.
Local Open Scope Q_scope.

Let volts (a : Z) : Q := inject_Z a / 65535 * 5.
Let percent (a : Z) : Q :=
  Qmax 0 (Qmin 100 (round (100 - inject_Z a / 65535 * 5 / 5 * 100) 2)).

Lemma station_read_value (env : cycle_env) (w : world) (a : Z) :
  adc_read env = Ok a ->
  read_soil_moisture env w
  = (Ok (Some a, Some (volts a), Some (percent a)),
     {| csv_file := csv_file w;
        logbook := logbook w
                   ++ [Reader (SoilMeas.LogDebug a (volts a) (percent a))] |}).
Proof. intro H. unfold read_soil_moisture. rewrite H. reflexivity. Qed.

Lemma station_read_failed (env : cycle_env) (w : world) (e : exn) :
  adc_read env = Raise e ->
  read_soil_moisture env w
  = if is_Exception e
    then (Ok (None, None, None),
          {| csv_file := csv_file w;
             logbook := logbook w ++ [Reader (SoilMeas.LogError e)] |})
    else (Raise e, w).
Proof.
  intro H. unfold read_soil_moisture. rewrite H.
  unfold SoilMeas.read_soil_moisture, try_except, bind, lift. cbn.
  destruct (is_Exception e); cbn; [reflexivity|].
  rewrite app_nil_r. now destruct w.
Qed.

(** What a turn does to the file: nothing, or one row in range at its end;
    and, the outcomes being catchable, what it returns is what the sleep
    returns. *)
Lemma cycle_effect (env : cycle_env) (w : world) :
  (exists rows,
      csv_file (snd (cycle env w)) = csv_file w ++ rows /\
      (length rows <= 1)%nat /\
      Forall (fun row => 0 <= moisture_percent row <= 100) rows) /\
  (catchable (adc_read env) = true ->
   catchable (file_append env) = true ->
   fst (cycle env w) = sleep env).
Proof.
  unfold cycle, bind.
  destruct (adc_read env) as [a|e] eqn:Ha.
  - rewrite (station_read_value env w a Ha).
    unfold save_to_csv, try_except, bind, append_row, log, lift, ret.
    cbn [fst snd csv_file logbook].
    destruct (file_append env) as [[]|e'] eqn:Hf; cbn [fst snd csv_file logbook].
    + split.
      * eexists. split; [reflexivity|]. split; [simpl; lia|].
        constructor; [|constructor]. cbn [moisture_percent].
        apply clamp_bounds.
      * intros _ _. now destruct (sleep env).
    + destruct (is_Exception e') eqn:He'; cbn [fst snd csv_file logbook].
      * split; [exists []; rewrite app_nil_r; repeat split; auto|].
        intros _ _. now destruct (sleep env).
      * split; [exists []; rewrite app_nil_r; repeat split; auto|].
        cbn. rewrite He'. discriminate.
  - rewrite (station_read_failed env w e Ha).
    destruct (is_Exception e) eqn:He.
    + unfold log, lift, ret. cbn [fst snd csv_file logbook].
      split; [exists []; rewrite app_nil_r; repeat split; auto|].
      intros _ _. now destruct (sleep env).
    + cbn [fst snd]. split; [exists []; rewrite app_nil_r; repeat split; auto|].
      cbn. rewrite He. discriminate.
Qed.

(** X21.  What one turn saves.  A raw value read and a file that can be
    written give one more row, at the end of the file, stamped with the
    time of the turn, holding the raw value, the voltage rounded to two
    decimals and a percentage within 0 and 100.  A failed read, or a failed
    write, leaves the file as it was. *)
Theorem cycle_saves_valid_reading (env : cycle_env) (w : world) :
  (forall a, adc_read env = Ok a -> file_append env = Ok tt ->
     exists row,
       csv_file (snd (cycle env w)) = csv_file w ++ [row] /\
       timestamp row = now env /\
       adc_value row = a /\
       voltage row = round (inject_Z a / 65535 * 5) 2 /\
       0 <= moisture_percent row <= 100 /\
       In (InfoSaved (now env) (moisture_percent row))
          (logbook (snd (cycle env w)))) /\
  (forall e, adc_read env = Raise e ->
     csv_file (snd (cycle env w)) = csv_file w) /\
  (forall e, file_append env = Raise e ->
     csv_file (snd (cycle env w)) = csv_file w).
Proof.
  split; [|split].
  - intros a Ha Hf. unfold cycle, bind.
    rewrite (station_read_value env w a Ha).
    unfold save_to_csv, try_except, bind, append_row, log, lift, ret.
    cbn [fst snd csv_file logbook]. rewrite Hf.
    cbn [fst snd csv_file logbook].
    eexists. split; [destruct (sleep env); reflexivity|].
    cbn [timestamp adc_value voltage moisture_percent].
    repeat split; try apply clamp_bounds.
    destruct (sleep env); cbn [snd logbook];
      rewrite !in_app_iff; cbn; auto.
  - intros e Ha. unfold cycle, bind.
    rewrite (station_read_failed env w e Ha).
    destruct (is_Exception e); [|reflexivity].
    unfold log, lift, ret. cbn [fst snd csv_file logbook].
    now destruct (sleep env).
  - intros e Hf. unfold cycle, bind.
    destruct (adc_read env) as [a|e'] eqn:Ha.
    + rewrite (station_read_value env w a Ha).
      unfold save_to_csv, try_except, bind, append_row, log, lift, ret.
      cbn [fst snd csv_file logbook]. rewrite Hf.
      destruct (is_Exception e); cbn [fst snd csv_file logbook];
        [|reflexivity].
      now destruct (sleep env).
    + rewrite (station_read_failed env w e' Ha).
      destruct (is_Exception e'); [|reflexivity].
      unfold log, lift, ret. cbn [fst snd csv_file logbook].
      now destruct (sleep env).
Qed.

(** The three cases of a turn, on the file alone. *)
Lemma cycle_saves_valid_reading_cases (env : cycle_env) (w : world) :
  (forall a, adc_read env = Ok a -> file_append env = Ok tt ->
     exists row, csv_file (snd (cycle env w)) = csv_file w ++ [row]) /\
  (forall e, adc_read env = Raise e ->
     csv_file (snd (cycle env w)) = csv_file w) /\
  (forall e, file_append env = Raise e ->
     csv_file (snd (cycle env w)) = csv_file w).
Proof.
  split; [|split].
  - intros a Ha Hf. unfold cycle, bind.
    rewrite (station_read_value env w a Ha).
    unfold save_to_csv, try_except, bind, append_row, log, lift, ret.
    cbn [fst snd csv_file logbook]. rewrite Hf.
    cbn [fst snd csv_file logbook].
    eexists. destruct (sleep env); reflexivity.
  - intros e Ha. unfold cycle, bind.
    rewrite (station_read_failed env w e Ha).
    destruct (is_Exception e); [|reflexivity].
    unfold log, lift, ret. cbn [fst snd csv_file logbook].
    now destruct (sleep env).
  - intros e Hf. unfold cycle, bind.
    destruct (adc_read env) as [a|e'] eqn:Ha.
    + rewrite (station_read_value env w a Ha).
      unfold save_to_csv, try_except, bind, append_row, log, lift, ret.
      cbn [fst snd csv_file logbook]. rewrite Hf.
      destruct (is_Exception e); cbn [fst snd csv_file logbook];
        [|reflexivity].
      now destruct (sleep env).
    + rewrite (station_read_failed env w e' Ha).
      destruct (is_Exception e'); [|reflexivity].
      unfold log, lift, ret. cbn [fst snd csv_file logbook].
      now destruct (sleep env).
Qed.

Lemma station_while_true_app (a b : list cycle_env) (w : world) :
  while_true (a ++ b) w
  = match while_true a w with
    | (Ok _, w1) => while_true b w1
    | (Raise e, w1) => (Raise e, w1)
    end.
Proof.
  revert w. induction a as [|x a IH]; intro w; [reflexivity|].
  cbn [app while_true]. unfold bind.
  destruct (cycle x w) as [[[]|e] w1]; [apply IH | reflexivity].
Qed.

Lemma station_while_true_rows (envs : list cycle_env) :
  forall w,
    exists rows,
      csv_file (snd (while_true envs w)) = csv_file w ++ rows /\
      (length rows <= length envs)%nat /\
      Forall (fun row => 0 <= moisture_percent row <= 100) rows.
Proof.
  induction envs as [|env envs IH]; intro w.
  - exists []. cbn. rewrite app_nil_r. repeat split; auto.
  - cbn [while_true]. unfold bind.
    destruct (cycle_effect env w) as [(r1 & Hr1 & Hl1 & Hf1) _].
    destruct (cycle env w) as [[[]|e] w1]; cbn [snd] in Hr1.
    + destruct (IH w1) as (r2 & Hr2 & Hl2 & Hf2).
      exists (r1 ++ r2). rewrite Hr2, Hr1, <- app_assoc.
      split; [reflexivity|]. split.
      * rewrite length_app. simpl. lia.
      * apply Forall_app. now split.
    + exists r1. cbn [snd]. split; [exact Hr1|]. split; [simpl; lia|].
      exact Hf1.
Qed.

Lemma station_main_csv (envs : list cycle_env) (w : world) :
  csv_file (snd (main envs w))
  = csv_file (snd (while_true envs
                     {| csv_file := csv_file w;
                        logbook := logbook w ++ [InfoStarted] |})).
Proof.
  unfold main, bind, log. cbn [fst snd].
  destruct (while_true envs _) as [[[]|e] w1]; [reflexivity|].
  destruct e; reflexivity.
Qed.

(** X22.  The file over a whole run.  The program only appends: the rows
    there at the start stay, in place; at most one row comes per turn; and
    every row the program writes has its percentage within 0 and 100. *)
Theorem station_rows_stay_in_range (envs : list cycle_env) (w : world) :
  (exists rows,
      csv_file (snd (main envs w)) = csv_file w ++ rows /\
      (length rows <= length envs)%nat /\
      Forall (fun row => 0 <= moisture_percent row <= 100) rows) /\
  (rows_in_range w -> rows_in_range (snd (main envs w))).
Proof.
  rewrite station_main_csv.
  destruct (station_while_true_rows envs
              {| csv_file := csv_file w;
                 logbook := logbook w ++ [InfoStarted] |})
    as (rows & Hrows & Hlen & Hall).
  cbn [csv_file] in Hrows. split.
  - now exists rows.
  - unfold rows_in_range. rewrite station_main_csv, Hrows.
    intro Hw. apply Forall_app. now split.
Qed.

Lemma station_while_true_fine (envs : list cycle_env) :
  Forall (fun env => catchable (adc_read env) = true /\
                     catchable (file_append env) = true /\
                     sleep env = Ok tt) envs ->
  forall w, fst (while_true envs w) = Ok tt.
Proof.
  induction 1 as [|env envs (Ha & Hf & Hs) _ IH]; intro w; [reflexivity|].
  cbn [while_true]. unfold bind.
  destruct (cycle_effect env w) as [_ Hret]. specialize (Hret Ha Hf).
  rewrite Hs in Hret.
  destruct (cycle env w) as [r w1]. cbn [fst] in Hret. subst r. apply IH.
Qed.

Lemma cycle_row_count (env : cycle_env) (w : world) :
  length (csv_file (snd (cycle env w)))
  = (length (csv_file w) + if will_save env then 1 else 0)%nat.
Proof.
  unfold will_save.
  destruct (cycle_saves_valid_reading_cases env w) as (Hok & Hread & Hwrite).
  destruct (adc_read env) as [a|e] eqn:Ha.
  - destruct (file_append env) as [[]|e'] eqn:Hf.
    + destruct (Hok a eq_refl eq_refl) as (row & ->).
      rewrite length_app. reflexivity.
    + rewrite (Hwrite e' eq_refl). lia.
  - rewrite (Hread e eq_refl). lia.
Qed.

(** X23.  Failures that do not stop the program.  As long as every failed
    read and every failed write is an [Exception] and the sleeps return,
    the loop goes through all its turns and the program is still running:
    nothing is raised, and the file has grown by one row for every turn
    with a value read and a file that could be written. *)
Theorem station_loop_survives_failures (envs : list cycle_env) (w : world) :
  Forall (fun env => catchable (adc_read env) = true /\
                     catchable (file_append env) = true /\
                     sleep env = Ok tt) envs ->
  fst (main envs w) = Ok tt /\
  length (csv_file (snd (main envs w)))
  = (length (csv_file w) + length (filter will_save envs))%nat.
Proof.
  intro Hfine.
  assert (Hloop : forall w0,
             fst (while_true envs w0) = Ok tt /\
             length (csv_file (snd (while_true envs w0)))
             = (length (csv_file w0) + length (filter will_save envs))%nat).
  { induction Hfine as [|env envs (Ha & Hf & Hs) _ IH]; intro w0.
    - cbn. split; [reflexivity | lia].
    - cbn [while_true filter]. unfold bind.
      destruct (cycle_effect env w0) as [_ Hret]. specialize (Hret Ha Hf).
      rewrite Hs in Hret. pose proof (cycle_row_count env w0) as Hcount.
      destruct (cycle env w0) as [r w1]. cbn [fst snd] in *. subst r.
      destruct (IH w1) as [H1 H2]. split; [exact H1|].
      rewrite H2, Hcount. destruct (will_save env); cbn [length]; lia. }
  split.
  - unfold main, bind, log. cbn [fst snd].
    destruct (Hloop {| csv_file := csv_file w;
                       logbook := logbook w ++ [InfoStarted] |}) as [H1 _].
    destruct (while_true envs _) as [r w1]. cbn [fst] in H1. now subst r.
  - rewrite station_main_csv.
    now destruct (Hloop {| csv_file := csv_file w;
                           logbook := logbook w ++ [InfoStarted] |}).
Qed.

(** X24.  Stopping by hand.  When, after any number of turns gone through, a
    [KeyboardInterrupt] arrives during the sleep, the program logs that it
    was stopped and that it exits, and returns normally; the turns that
    would have followed never run.  Nothing but [SystemExit] ever comes out
    of the program. *)
Theorem station_interrupt_stops (good rest : list cycle_env)
    (env : cycle_env) (w : world) :
  Forall (fun env => catchable (adc_read env) = true /\
                     catchable (file_append env) = true /\
                     sleep env = Ok tt) good ->
  catchable (adc_read env) = true ->
  catchable (file_append env) = true ->
  sleep env = Raise KeyboardInterrupt ->
  fst (main (good ++ env :: rest) w) = Ok tt /\
  main (good ++ env :: rest) w = main (good ++ [env]) w /\
  (exists before,
      logbook (snd (main (good ++ env :: rest) w))
      = before ++ [InfoStopped; InfoExited]) /\
  (forall envs e, fst (main envs w) = Raise e -> e = SystemExit).
Proof.
  intros Hgood Ha Hf Hs.
  assert (Hstop : forall tail w0,
             exists w1, while_true (good ++ env :: tail) w0
                        = (Raise KeyboardInterrupt, w1) /\
                        while_true (good ++ [env]) w0
                        = (Raise KeyboardInterrupt, w1)).
  { intros tail w0. rewrite !station_while_true_app.
    pose proof (station_while_true_fine good Hgood w0) as Hg.
    destruct (while_true good w0) as [r w1]. cbn [fst] in Hg. subst r.
    cbn [while_true]. unfold bind.
    destruct (cycle_effect env w1) as [_ Hret]. specialize (Hret Ha Hf).
    rewrite Hs in Hret.
    destruct (cycle env w1) as [r w2]. cbn [fst] in Hret. subst r.
    now exists w2. }
  assert (Hmain : forall tail,
             exists w1, main (good ++ env :: tail) w
                        = (Ok tt, {| csv_file := csv_file w1;
                                     logbook := (logbook w1 ++ [InfoStopped])
                                                ++ [InfoExited] |}) /\
                        main (good ++ [env]) w
                        = (Ok tt, {| csv_file := csv_file w1;
                                     logbook := (logbook w1 ++ [InfoStopped])
                                                ++ [InfoExited] |})).
  { intro tail. unfold main, bind, log. cbn [fst snd].
    destruct (Hstop tail {| csv_file := csv_file w;
                            logbook := logbook w ++ [InfoStarted] |})
      as (w1 & H1 & H2).
    rewrite H1, H2. exists w1. split; reflexivity. }
  destruct (Hmain rest) as (w1 & H1 & H2).
  split; [now rewrite H1|]. split; [now rewrite H1, H2|]. split.
  - exists (logbook w1). rewrite H1. cbn [snd logbook].
    now rewrite <- app_assoc.
  - intros envs e. unfold main, bind, log. cbn [fst snd].
    destruct (while_true envs _) as [[[]|e0] w2]; [discriminate|].
    destruct e0; cbn; intro H; try discriminate H.
    injection H as <-. reflexivity.
Qed.

End Station.

Lemma cycle_saves_valid_reading_witness :
  (exists row,
      SoilMeasLoop.csv_file
        (snd (SoilMeasLoop.cycle
                (MoreSamples.cycle_at "2025-01-08 08:00:00" (Py.Ok 20000%Z)
                   (Py.Ok tt) (Py.Ok tt))
                MoreSamples.station_empty))
      = [row] /\
      SoilMeasLoop.adc_value row = 20000%Z /\
      (0 <= SoilMeasLoop.moisture_percent row <= 100)%Q) /\
  SoilMeasLoop.csv_file
    (snd (SoilMeasLoop.cycle
            (MoreSamples.cycle_at "2025-01-08 08:30:00" (Py.Raise Py.OSError)
               (Py.Ok tt) (Py.Ok tt))
            MoreSamples.station_empty))
  = [] /\
  SoilMeasLoop.csv_file
    (snd (SoilMeasLoop.cycle
            (MoreSamples.cycle_at "2025-01-08 09:00:00" (Py.Ok 20000%Z)
               (Py.Raise Py.OSError) (Py.Ok tt))
            MoreSamples.station_empty))
  = [].
Proof.
  split; [|split].
  - destruct (cycle_saves_valid_reading
                (MoreSamples.cycle_at "2025-01-08 08:00:00" (Py.Ok 20000%Z)
                   (Py.Ok tt) (Py.Ok tt))
                MoreSamples.station_empty) as (Hok & _ & _).
    destruct (Hok 20000%Z eq_refl eq_refl)
      as (row & Hrow & _ & Hadc & _ & Hrange & _).
    exists row. auto.
  - destruct (cycle_saves_valid_reading
                (MoreSamples.cycle_at "2025-01-08 08:30:00"
                   (Py.Raise Py.OSError) (Py.Ok tt) (Py.Ok tt))
                MoreSamples.station_empty) as (_ & Hread & _).
    exact (Hread Py.OSError eq_refl).
  - destruct (cycle_saves_valid_reading
                (MoreSamples.cycle_at "2025-01-08 09:00:00" (Py.Ok 20000%Z)
                   (Py.Raise Py.OSError) (Py.Ok tt))
                MoreSamples.station_empty) as (_ & _ & Hwrite).
    exact (Hwrite Py.OSError eq_refl).
Defined.

Lemma station_rows_stay_in_range_witness :
  SoilMeasLoop.rows_in_range
    (snd (SoilMeasLoop.main
            [MoreSamples.cycle_at "2025-01-08 08:00:00" (Py.Ok 20000%Z)
               (Py.Ok tt) (Py.Ok tt);
             MoreSamples.cycle_at "2025-01-08 08:30:00" (Py.Ok 70000%Z)
               (Py.Ok tt) (Py.Ok tt)]
            MoreSamples.station_empty)).
Proof.
  apply (station_rows_stay_in_range
           [MoreSamples.cycle_at "2025-01-08 08:00:00" (Py.Ok 20000%Z)
              (Py.Ok tt) (Py.Ok tt);
            MoreSamples.cycle_at "2025-01-08 08:30:00" (Py.Ok 70000%Z)
              (Py.Ok tt) (Py.Ok tt)]
           MoreSamples.station_empty).
  constructor.
Defined.

Lemma station_loop_survives_failures_witness :
  fst (SoilMeasLoop.main
         [MoreSamples.cycle_at "2025-01-08 08:00:00" (Py.Raise Py.OSError)
            (Py.Ok tt) (Py.Ok tt);
          MoreSamples.cycle_at "2025-01-08 08:30:00" (Py.Ok 20000%Z)
            (Py.Raise Py.OSError) (Py.Ok tt);
          MoreSamples.cycle_at "2025-01-08 09:00:00" (Py.Ok 20000%Z)
            (Py.Ok tt) (Py.Ok tt)]
         MoreSamples.station_empty)
  = Py.Ok tt /\
  length (SoilMeasLoop.csv_file
            (snd (SoilMeasLoop.main
                    [MoreSamples.cycle_at "2025-01-08 08:00:00"
                       (Py.Raise Py.OSError) (Py.Ok tt) (Py.Ok tt);
                     MoreSamples.cycle_at "2025-01-08 08:30:00"
                       (Py.Ok 20000%Z) (Py.Raise Py.OSError) (Py.Ok tt);
                     MoreSamples.cycle_at "2025-01-08 09:00:00"
                       (Py.Ok 20000%Z) (Py.Ok tt) (Py.Ok tt)]
                    MoreSamples.station_empty)))
  = 1.
Proof.
  apply (station_loop_survives_failures
           [MoreSamples.cycle_at "2025-01-08 08:00:00" (Py.Raise Py.OSError)
              (Py.Ok tt) (Py.Ok tt);
            MoreSamples.cycle_at "2025-01-08 08:30:00" (Py.Ok 20000%Z)
              (Py.Raise Py.OSError) (Py.Ok tt);
            MoreSamples.cycle_at "2025-01-08 09:00:00" (Py.Ok 20000%Z)
              (Py.Ok tt) (Py.Ok tt)]
           MoreSamples.station_empty).
  repeat constructor.
Defined.

Lemma station_interrupt_stops_witness :
  fst (SoilMeasLoop.main
         ([MoreSamples.cycle_at "2025-01-08 08:00:00" (Py.Ok 20000%Z)
             (Py.Ok tt) (Py.Ok tt)]
          ++ MoreSamples.cycle_at "2025-01-08 08:30:00" (Py.Ok 20000%Z)
               (Py.Ok tt) (Py.Raise Py.KeyboardInterrupt)
          :: [MoreSamples.cycle_at "2025-01-08 09:00:00" (Py.Ok 20000%Z)
                (Py.Ok tt) (Py.Ok tt)])
         MoreSamples.station_empty)
  = Py.Ok tt /\
  fst (SoilMeasLoop.main
         [MoreSamples.cycle_at "2025-01-08 08:00:00" (Py.Ok 20000%Z)
            (Py.Ok tt) (Py.Raise Py.SystemExit)]
         MoreSamples.station_empty)
  = Py.Raise Py.SystemExit.
Proof.
  destruct (station_interrupt_stops
              [MoreSamples.cycle_at "2025-01-08 08:00:00" (Py.Ok 20000%Z)
                 (Py.Ok tt) (Py.Ok tt)]
              [MoreSamples.cycle_at "2025-01-08 09:00:00" (Py.Ok 20000%Z)
                 (Py.Ok tt) (Py.Ok tt)]
              (MoreSamples.cycle_at "2025-01-08 08:30:00" (Py.Ok 20000%Z)
                 (Py.Ok tt) (Py.Raise Py.KeyboardInterrupt))
              MoreSamples.station_empty)
    as (Hret & _ & _ & Honly); try reflexivity.
  - repeat constructor.
  - split; [exact Hret|].
    destruct (fst (SoilMeasLoop.main
                     [MoreSamples.cycle_at "2025-01-08 08:00:00"
                        (Py.Ok 20000%Z) (Py.Ok tt)
                        (Py.Raise Py.SystemExit)]
                     MoreSamples.station_empty)) as [[]|e] eqn:Hrun.
    + vm_compute in Hrun. discriminate Hrun.
    + f_equal.
      exact (Honly [MoreSamples.cycle_at "2025-01-08 08:00:00"
                      (Py.Ok 20000%Z) (Py.Ok tt) (Py.Raise Py.SystemExit)]
               e Hrun).
Defined.

(** ** soilMail.py: the reading and the session *)

Section MailReading.
Import Py SoilMail.
Local Open Scope Q_scope.

Lemma byte_percent_linear (a : Q) : 100 - a / 255 * 100 == 100 - a * (100 # 255).
Proof. field. Qed.

Lemma mail_read_value (env : tick_env) (w : world) (raw_value : Z) :
  i2c_write env = Ok tt ->
  i2c_read env = Ok raw_value ->
  read_soil_moisture env w
  = (Ok (inl (round (100 - inject_Z raw_value / 255 * 100) 2)),
     w ++ [I2cWriteByte PCF8591_ADDR 0; Sleep (1 # 10);
           I2cReadByte PCF8591_ADDR]).
Proof.
  intros Hw Hr.
  unfold read_soil_moisture, try_except, bind, act, print, ret.
  rewrite Hw. cbn [fst snd]. rewrite Hr. cbn [fst snd].
  now rewrite <- !app_assoc.
Qed.

(** X11.  The percentage of soilMail.py.  For a byte read from the converter
    the reading is a percentage within 0 and 100, 100 for the byte 0 and 0
    for the byte 255, and a larger byte never gives a larger percentage. *)
Theorem mail_reading_in_range (env : tick_env) (w : world) (raw_value : Z) :
  i2c_write env = Ok tt ->
  i2c_read env = Ok raw_value ->
  (0 <= raw_value <= 255)%Z ->
  exists q : Q,
    fst (read_soil_moisture env w) = Ok (inl q) /\
    0 <= q <= 100 /\
    (raw_value = 0%Z -> q == 100) /\
    (raw_value = 255%Z -> q == 0) /\
    (forall env' w' raw' q',
        i2c_write env' = Ok tt ->
        i2c_read env' = Ok raw' ->
        (raw_value <= raw')%Z ->
        fst (read_soil_moisture env' w') = Ok (inl q') ->
        q' <= q).
Proof.
  intros Hw Hr [H0 H255]. eexists.
  rewrite (mail_read_value env w raw_value Hw Hr). cbn [fst].
  split; [reflexivity|].
  apply inject_Z_le in H0, H255.
  change (inject_Z 0) with 0 in H0. change (inject_Z 255) with 255 in H255.
  assert (Hlo : 0 <= round (100 - inject_Z raw_value / 255 * 100) 2).
  { apply (round2_lower 0). change (inject_Z 0) with 0.
    rewrite byte_percent_linear. lra. }
  assert (Hhi : round (100 - inject_Z raw_value / 255 * 100) 2 <= 100).
  { apply (round2_upper 100). change (inject_Z 100) with 100.
    rewrite byte_percent_linear. lra. }
  split; [now split|]. split; [|split].
  - intros ->. apply Qle_antisym; [exact Hhi|].
    apply (round2_lower 100). change (inject_Z 100) with 100.
    rewrite byte_percent_linear. change (inject_Z 0) with 0. lra.
  - intros ->. apply Qle_antisym; [|exact Hlo].
    apply (round2_upper 0). change (inject_Z 0) with 0.
    rewrite byte_percent_linear. change (inject_Z 255) with 255. lra.
  - intros env' w' raw' q' Hw' Hr' Hle Hq'.
    rewrite (mail_read_value env' w' raw' Hw' Hr') in Hq'. cbn [fst] in Hq'.
    injection Hq' as <-. apply round_mono. apply inject_Z_le in Hle.
    rewrite !byte_percent_linear. lra.
Qed.

(** A bus that fails with an [Exception], at the write or at the read,
    gives the text in place of the percentage. *)
Lemma mail_read_failure (env : tick_env) (w : world) (e : exn) :
  is_Exception e = true ->
  i2c_write env = Raise e \/
  (i2c_write env = Ok tt /\ i2c_read env = Raise e) ->
  exists tried,
    read_soil_moisture env w
    = (Ok (inr "Reading failed"%string),
       w ++ tried ++ [PrintReadFailed e]) /\
    sends tried = 0%nat.
Proof.
  intros He [Hw|[Hw Hr]];
    unfold read_soil_moisture, try_except, bind, print, act, ret;
    rewrite Hw; cbn [fst snd]; [|rewrite Hr; cbn [fst snd]]; rewrite He.
  - exists [I2cWriteByte PCF8591_ADDR 0]. split; [|reflexivity].
    cbn [fst snd]. now rewrite <- ?app_assoc.
  - exists [I2cWriteByte PCF8591_ADDR 0; Sleep (1 # 10);
            I2cReadByte PCF8591_ADDR].
    split; [|reflexivity]. cbn [fst snd]. now rewrite <- ?app_assoc.
Qed.

(** With a server that never fails, [send_email] goes through the whole
    session in order. *)
Lemma mail_send_email_delivers (env : tick_env) (moisture : reading)
    (w : world) :
  smtp_fails (smtp env) = false ->
  send_email env moisture w
  = (Ok tt,
     w ++ [SmtpConnect; SmtpStartTls; SmtpLogin; SmtpSendmail moisture;
           SmtpQuit; PrintEmailSent]).
Proof.
  destruct env as [h iw ir [c s l sd q]]. unfold smtp_fails. cbn.
  destruct c as [[]|?]; [|discriminate].
  destruct s as [[]|?]; [|discriminate].
  destruct l as [[]|?]; [|discriminate].
  destruct sd as [[]|?]; [|discriminate].
  destruct q as [[]|?]; [|discriminate].
  intros _. unfold send_email, try_except, bind, act, print. cbn.
  now rewrite <- !app_assoc.
Qed.

End MailReading.

Section MailSession.
Import Py SoilMail.
Local Open Scope Z_scope.

(** X12.  A failed reading is mailed all the same.  When the hour has moved by
    more than three and the I2C bus fails with an [Exception], the loop
    does not skip the mail: with a server that works, the message goes out
    with the text "Reading failed" in place of the percentage, and the
    stored hour value advances. *)
Theorem mail_read_failure_is_mailed (env : tick_env)
    (lastValue Current_Value : Z) (w : world) (e : exn) :
  is_Exception e = true ->
  i2c_write env = Raise e \/
  (i2c_write env = Ok tt /\ i2c_read env = Raise e) ->
  smtp_fails (smtp env) = false ->
  lastValue <> Current_Value ->
  ((if Current_Value - lastValue <? 0
    then Current_Value - lastValue + 24
    else Current_Value - lastValue) >? 3) = true ->
  fst (judge env lastValue Current_Value w) = Ok Current_Value /\
  exists before,
    snd (judge env lastValue Current_Value w)
    = before ++ [PrintReadFailed e; SmtpConnect; SmtpStartTls; SmtpLogin;
                 SmtpSendmail (inr "Reading failed"%string); SmtpQuit;
                 PrintEmailSent].
Proof.
  intros He Hbus Hsrv Hne Hd. rewrite judge_unfold.
  destruct (Z.eqb_spec lastValue Current_Value) as [|_]; [contradiction|].
  cbv zeta. rewrite Hd.
  set (d := if Current_Value - lastValue <? 0
            then Current_Value - lastValue + 24
            else Current_Value - lastValue).
  unfold bind, print, act. cbn [fst snd].
  destruct (mail_read_failure env (w ++ [PrintSending d]) e He Hbus)
    as (tried & Hr & _).
  rewrite Hr. rewrite (mail_send_email_delivers env _ _ Hsrv).
  cbn [fst snd ret]. split; [reflexivity|].
  exists ((w ++ [PrintSending d]) ++ tried).
  now rewrite <- !app_assoc.
Qed.

(** X13.  What the session of soilMail.py reports.  "Email sent successfully"
    is printed exactly when no call of the session fails, [quit] included;
    the login is tried only after the connection and STARTTLS went through,
    and the message is handed over only after the login did.  A [quit]
    that fails after the message was accepted is reported as a failure to
    send, although the message is out. *)
Theorem mail_session_report (env : tick_env) (moisture : reading) (w : world) :
  exists rest,
    snd (send_email env moisture w) = w ++ rest /\
    (In PrintEmailSent rest <-> smtp_fails (smtp env) = false) /\
    (In SmtpLogin rest ->
     connect (smtp env) = Ok tt /\ starttls (smtp env) = Ok tt) /\
    (In (SmtpSendmail moisture) rest ->
     connect (smtp env) = Ok tt /\ starttls (smtp env) = Ok tt /\
     login (smtp env) = Ok tt) /\
    (forall e,
        connect (smtp env) = Ok tt -> starttls (smtp env) = Ok tt ->
        login (smtp env) = Ok tt -> send (smtp env) = Ok tt ->
        quit (smtp env) = Raise e -> is_Exception e = true ->
        In (SmtpSendmail moisture) rest /\
        In (PrintEmailFailed e) rest /\
        ~ In PrintEmailSent rest).
Proof.
  destruct env as [h iw ir [c s l sd q]].
  unfold send_email, try_except, bind, print, act, smtp_fails. cbn.
  outcome_cases; repeat rewrite <- app_assoc; cbn;
    (eexists; split; [reflexivity|]); cbn;
    repeat split; intros; list_cases.
Qed.

End MailSession.

(** ** soilMail.py: runs of the loop *)

Section MailRuns.
Import Py SoilMail.
Local Open Scope Z_scope.

Lemma is_hour_bounds (h : Z) : Clock.is_hour h = true <-> 0 <= h <= 23.
Proof.
  unfold Clock.is_hour. rewrite andb_true_iff, !Z.leb_le. tauto.
Qed.

(** On stored values of two hours of the day, the corrected difference is
    the distance around the clock. *)
Lemma clock_distance (hp h : Z) :
  0 <= hp <= 23 -> 0 <= h <= 23 ->
  (if h + 8 - (hp + 8) <? 0 then h + 8 - (hp + 8) + 24 else h + 8 - (hp + 8))
  = (h - hp) mod 24.
Proof.
  intros Hp Hh. destruct (Z.ltb_spec (h + 8 - (hp + 8)) 0).
  - apply (Z.mod_unique _ _ (-1)); lia.
  - apply (Z.mod_unique _ _ 0); lia.
Qed.

Lemma judge_trace (env : tick_env) (lastValue Current_Value : Z) (w : world) :
  exists rest,
    snd (judge env lastValue Current_Value w) = w ++ rest /\
    (sends rest <= 1)%nat.
Proof.
  rewrite judge_unfold.
  destruct (lastValue =? Current_Value).
  - exists []. cbn. split; [now rewrite app_nil_r | lia].
  - cbv zeta.
    set (d := if Current_Value - lastValue <? 0
              then Current_Value - lastValue + 24
              else Current_Value - lastValue).
    destruct (d >? 3).
    + unfold bind, print, act. cbn [fst snd].
      destruct (mail_read_soil_moisture_effect env (w ++ [PrintSending d]))
        as [(r1 & Hr1 & Hs1) _].
      destruct (read_soil_moisture env (w ++ [PrintSending d]))
        as [[m|e] w1]; cbn [fst snd] in *.
      * destruct (mail_send_email_effect env m w1) as [(r2 & Hr2 & Hs2) _].
        destruct (send_email env m w1) as [[[]|e] w2]; cbn [fst snd ret] in *;
          exists ([PrintSending d] ++ r1 ++ [SmtpConnect] ++ r2);
          (split; [subst w1 w2; now rewrite <- !app_assoc|]);
          rewrite !sends_app, Hs1, Hs2; cbn; lia.
      * exists ([PrintSending d] ++ r1).
        split; [subst w1; now rewrite <- !app_assoc|].
        rewrite sends_app, Hs1. cbn. lia.
    + exists [PrintNotSending d]. cbn. split; [reflexivity | lia].
Qed.

Lemma loop_body_trace (env : tick_env) (lastValue : Z) (w : world) :
  exists rest,
    snd (loop_body env lastValue w) = w ++ rest /\
    (sends rest <= 1)%nat.
Proof.
  rewrite loop_body_judge. cbv zeta.
  destruct (judge_trace env lastValue (tm_hour env + 8)
              (w ++ [PrintStatus (tm_hour env + 8) lastValue]))
    as (r & Hr & Hs).
  destruct (fst (judge env lastValue (tm_hour env + 8) _)); cbn [snd];
    rewrite Hr.
  - exists ([PrintStatus (tm_hour env + 8) lastValue] ++ r ++ [Sleep 60]).
    split; [now rewrite <- !app_assoc|].
    rewrite !sends_app. cbn. lia.
  - exists ([PrintStatus (tm_hour env + 8) lastValue] ++ r).
    split; [now rewrite <- !app_assoc|].
    rewrite !sends_app. cbn. lia.
Qed.

(** X14.  At most one mail per turn.  The loop only adds to what it has done,
    and over any run it opens at most as many sessions as it has turns. *)
Theorem loop_opens_at_most_one_session_per_turn (envs : list tick_env)
    (lastValue : Z) (w : world) :
  exists rest,
    snd (while_true envs lastValue w) = w ++ rest /\
    (sends rest <= length envs)%nat.
Proof.
  revert lastValue w. induction envs as [|env envs IH]; intros l w.
  - exists []. cbn. split; [now rewrite app_nil_r | lia].
  - cbn [while_true]. unfold bind.
    destruct (loop_body_trace env l w) as (r1 & Hr1 & Hs1).
    destruct (loop_body env l w) as [[v|e] w1]; cbn [snd] in Hr1.
    + destruct (IH v w1) as (r2 & Hr2 & Hs2).
      exists (r1 ++ r2). rewrite Hr2, Hr1, <- app_assoc.
      split; [reflexivity|]. rewrite sends_app. cbn [length]. lia.
    + exists r1. cbn [snd length]. split; [exact Hr1 | lia].
Qed.

Lemma loop_body_quiet (env : tick_env) (lastValue : Z) (w : world) :
  quiet env = true ->
  fst (loop_body env lastValue w) = Ok (tm_hour env + 8).
Proof.
  intro Hq. rewrite loop_body_judge. cbv zeta.
  destruct (Z.eq_dec lastValue (tm_hour env + 8)) as [->|Hne].
  - rewrite judge_unfold, Z.eqb_refl. reflexivity.
  - destruct (judge_changed_hour env lastValue (tm_hour env + 8)
                (w ++ [PrintStatus (tm_hour env + 8) lastValue]) Hq Hne)
      as [Hv _].
    now rewrite Hv.
Qed.

(** X15.  The stored hour follows the clock.  As long as nothing but
    [Exception]s is raised by the outside calls, after every turn the
    stored value is the hour just read plus 8, whatever it was before and
    whether a mail went out or not; after a run it is that of the last
    turn. *)
Theorem stored_hour_follows_clock (start_tm_hour : Z) (envs : list tick_env)
    (w : world) :
  Forall (fun env => quiet env = true) envs ->
  fst (main start_tm_hour envs w)
  = Ok (Clock.last_hour start_tm_hour envs + 8).
Proof.
  intro Hq. unfold main, bind, print, act. cbn [fst snd].
  generalize (w ++ [PrintStarted (start_tm_hour + 8)]). clear w.
  revert start_tm_hour.
  induction Hq as [|env envs Henv _ IH]; intros h w; [reflexivity|].
  cbn [while_true]. unfold bind.
  pose proof (loop_body_quiet env (h + 8) w Henv) as Hl.
  destruct (loop_body env (h + 8) w) as [r w1]. cbn [fst] in Hl. subst r.
  unfold Clock.last_hour. cbn [fold_left]. apply IH.
Qed.

(** A turn whose hour is at most three hours past the hour stored does
    nothing but print and sleep. *)
Lemma loop_body_small_step (env : tick_env) (hp : Z) (w : world) :
  0 <= hp <= 23 -> 0 <= tm_hour env <= 23 ->
  (tm_hour env - hp) mod 24 <= 3 ->
  fst (loop_body env (hp + 8) w) = Ok (tm_hour env + 8) /\
  sends (snd (loop_body env (hp + 8) w)) = sends w.
Proof.
  intros Hp Hh Hd. rewrite loop_body_judge. cbv zeta. rewrite judge_unfold.
  destruct (Z.eqb_spec (hp + 8) (tm_hour env + 8)) as [Heq|Hne].
  - cbn [fst snd]. rewrite Heq. split; [reflexivity|].
    rewrite !sends_app. cbn. lia.
  - cbv zeta. rewrite (clock_distance hp (tm_hour env) Hp Hh).
    destruct (Z.gtb_spec ((tm_hour env - hp) mod 24) 3) as [Hgt|_]; [lia|].
    cbn [fst snd]. split; [reflexivity|].
    rewrite !sends_app. cbn. lia.
Qed.

(** X16.  A clock that runs never triggers the mail.  The loop moves the
    stored hour at every change of hour, so when every turn reads an hour
    of the day at most three hours past the one read before, none of the
    differences it computes exceeds 3: however long the run, no session is
    opened. *)
Theorem steady_clock_never_mails (start_tm_hour : Z) (envs : list tick_env)
    (w : world) :
  Clock.is_hour start_tm_hour = true ->
  Clock.small_steps start_tm_hour envs = true ->
  fst (main start_tm_hour envs w)
  = Ok (Clock.last_hour start_tm_hour envs + 8) /\
  sends (snd (main start_tm_hour envs w)) = sends w.
Proof.
  intros Hstart Hsteps. unfold main, bind, print, act. cbn [fst snd].
  assert (Hw : sends (w ++ [PrintStarted (start_tm_hour + 8)]) = sends w)
    by (rewrite sends_app; cbn; lia).
  rewrite <- Hw.
  generalize (w ++ [PrintStarted (start_tm_hour + 8)]). clear w Hw.
  revert start_tm_hour Hstart Hsteps.
  induction envs as [|env envs IH]; intros h Hh Hsteps w.
  - split; reflexivity.
  - cbn [Clock.small_steps] in Hsteps.
    apply andb_true_iff in Hsteps. destruct Hsteps as [Hsteps Hrest].
    apply andb_true_iff in Hsteps. destruct Hsteps as [Hhour Hstep].
    apply Z.leb_le in Hstep.
    destruct (loop_body_small_step env h w) as [Hv Hs];
      [now apply is_hour_bounds | now apply is_hour_bounds | exact Hstep |].
    cbn [while_true]. unfold bind.
    destruct (loop_body env (h + 8) w) as [r w1]. cbn [fst snd] in Hv, Hs.
    subst r. destruct (IH (tm_hour env) Hhour Hrest w1) as [H1 H2].
    unfold Clock.last_hour in *. cbn [fold_left].
    split; [exact H1 | now rewrite H2].
Qed.

(** X17.  The difference is the distance around the clock.  On the stored
    values of two different hours of the day the difference printed is
    [(hour - previous hour) mod 24], between 1 and 23; up to 3 no session
    is opened, and above 3, the outside calls raising nothing but
    [Exception]s, exactly one is. *)
Theorem difference_is_clock_distance (env : tick_env) (previous : Z)
    (w : world) :
  Clock.is_hour previous = true ->
  Clock.is_hour (tm_hour env) = true ->
  previous <> tm_hour env ->
  let d := (tm_hour env - previous) mod 24 in
  1 <= d <= 23 /\
  (exists rest,
      snd (loop_body env (previous + 8) w)
      = w ++ PrintStatus (tm_hour env + 8) (previous + 8)
          :: (if d >? 3 then PrintSending d else PrintNotSending d) :: rest) /\
  (d <= 3 -> sends (snd (loop_body env (previous + 8) w)) = sends w) /\
  (3 < d -> quiet env = true ->
   sends (snd (loop_body env (previous + 8) w)) = S (sends w)).
Proof.
  intros Hp Hh Hne d. apply is_hour_bounds in Hp, Hh.
  assert (Hd : d = if tm_hour env + 8 - (previous + 8) <? 0
                   then tm_hour env + 8 - (previous + 8) + 24
                   else tm_hour env + 8 - (previous + 8))
    by (symmetry; now apply clock_distance).
  split; [|split; [|split]].
  - rewrite Hd. destruct (Z.ltb_spec (tm_hour env + 8 - (previous + 8)) 0); lia.
  - rewrite loop_body_judge. cbv zeta.
    destruct (judge_prints_difference env (previous + 8) (tm_hour env + 8)
                (w ++ [PrintStatus (tm_hour env + 8) (previous + 8)]))
      as [rest Hrest]; [lia|].
    cbv zeta in Hrest. rewrite <- Hd in Hrest.
    destruct (fst (judge env (previous + 8) (tm_hour env + 8) _));
      cbn [snd]; rewrite Hrest.
    + exists (rest ++ [Sleep 60]). now rewrite <- !app_assoc.
    + exists rest. now rewrite <- !app_assoc.
  - intro Hle. now apply loop_body_small_step.
  - intros Hgt Hq. rewrite loop_body_judge. cbv zeta.
    destruct (judge_changed_hour env (previous + 8) (tm_hour env + 8)
                (w ++ [PrintStatus (tm_hour env + 8) (previous + 8)]) Hq)
      as [Hv H]; [lia|].
    cbv zeta in H. rewrite <- Hd in H.
    destruct (Z.gtb_spec d 3) as [_|Hle]; [|lia].
    destruct H as [_ Hs]. rewrite Hv. cbn [snd].
    rewrite sends_app, Hs, sends_app. cbn. lia.
Qed.

End MailRuns.

Lemma mail_reading_in_range_witness :
  exists q : Q,
    fst (SoilMail.read_soil_moisture
           (Samples.tick_at 9 Samples.smtp_ok) [])
    = Py.Ok (inl q) /\
    (0 <= q <= 100)%Q /\
    (Py.round (100 - inject_Z 255 / 255 * 100) 2 <= q)%Q.
Proof.
  destruct (mail_reading_in_range (Samples.tick_at 9 Samples.smtp_ok) []
              128%Z eq_refl eq_refl) as (q & Hq & Hrange & _ & _ & Hmono).
  - lia.
  - exists q. split; [exact Hq|]. split; [exact Hrange|].
    apply (Hmono
             {| SoilMail.tm_hour := 9;
                SoilMail.i2c_write := Py.Ok tt;
                SoilMail.i2c_read := Py.Ok 255%Z;
                SoilMail.smtp := Samples.smtp_ok |} [] 255%Z).
    + reflexivity.
    + reflexivity.
    + lia.
    + reflexivity.
Defined.

Lemma mail_read_failure_is_mailed_witness :
  fst (SoilMail.judge (MoreSamples.tick_bus_down 14 Samples.smtp_ok) 9 22 [])
  = Py.Ok 22%Z /\
  exists before,
    snd (SoilMail.judge (MoreSamples.tick_bus_down 14 Samples.smtp_ok) 9 22 [])
    = before ++ [SoilMail.PrintReadFailed Py.OSError; SoilMail.SmtpConnect;
                 SoilMail.SmtpStartTls; SoilMail.SmtpLogin;
                 SoilMail.SmtpSendmail (inr "Reading failed"%string);
                 SoilMail.SmtpQuit; SoilMail.PrintEmailSent].
Proof.
  apply (mail_read_failure_is_mailed
           (MoreSamples.tick_bus_down 14 Samples.smtp_ok) 9 22 [] Py.OSError).
  - reflexivity.
  - left. reflexivity.
  - reflexivity.
  - lia.
  - reflexivity.
Defined.

Lemma mail_session_report_witness :
  exists rest,
    snd (SoilMail.send_email
           (Samples.tick_at 9 MoreSamples.smtp_quit_fails) (inl 50%Q) [])
    = [] ++ rest /\
    In (SoilMail.SmtpSendmail (inl 50%Q)) rest /\
    In (SoilMail.PrintEmailFailed Py.SMTPException) rest /\
    ~ In SoilMail.PrintEmailSent rest.
Proof.
  destruct (mail_session_report
              (Samples.tick_at 9 MoreSamples.smtp_quit_fails) (inl 50%Q) [])
    as (rest & Hrest & _ & _ & _ & Hquit).
  exists rest. split; [exact Hrest|].
  apply (Hquit Py.SMTPException); reflexivity.
Defined.

Lemma stored_hour_follows_clock_witness :
  fst (SoilMail.main 9
         [Samples.tick_at 9 Samples.smtp_ok;
          Samples.tick_at 14 Samples.smtp_unreachable;
          MoreSamples.tick_bus_down 15 Samples.smtp_ok] [])
  = Py.Ok 23%Z.
Proof.
  apply (stored_hour_follows_clock 9
           [Samples.tick_at 9 Samples.smtp_ok;
            Samples.tick_at 14 Samples.smtp_unreachable;
            MoreSamples.tick_bus_down 15 Samples.smtp_ok] []).
  repeat constructor.
Defined.

Lemma steady_clock_never_mails_witness :
  fst (SoilMail.main 22
         [Samples.tick_at 22 Samples.smtp_ok;
          Samples.tick_at 23 Samples.smtp_ok;
          Samples.tick_at 0 Samples.smtp_ok;
          Samples.tick_at 1 Samples.smtp_ok;
          Samples.tick_at 4 Samples.smtp_ok] [])
  = Py.Ok 12%Z /\
  SoilMail.sends
    (snd (SoilMail.main 22
            [Samples.tick_at 22 Samples.smtp_ok;
             Samples.tick_at 23 Samples.smtp_ok;
             Samples.tick_at 0 Samples.smtp_ok;
             Samples.tick_at 1 Samples.smtp_ok;
             Samples.tick_at 4 Samples.smtp_ok] []))
  = 0.
Proof.
  apply (steady_clock_never_mails 22
           [Samples.tick_at 22 Samples.smtp_ok;
            Samples.tick_at 23 Samples.smtp_ok;
            Samples.tick_at 0 Samples.smtp_ok;
            Samples.tick_at 1 Samples.smtp_ok;
            Samples.tick_at 4 Samples.smtp_ok] []); reflexivity.
Defined.

Lemma difference_is_clock_distance_witness :
  SoilMail.sends
    (snd (SoilMail.loop_body (Samples.tick_at 1 Samples.smtp_ok) (23 + 8) []))
  = 0 /\
  SoilMail.sends
    (snd (SoilMail.loop_body (Samples.tick_at 3 Samples.smtp_ok) (23 + 8) []))
  = 1.
Proof.
  split.
  - destruct (difference_is_clock_distance
                (Samples.tick_at 1 Samples.smtp_ok) 23 [] eq_refl eq_refl)
      as (_ & _ & Hlow & _); [simpl; lia|].
    apply Hlow. apply Z.leb_le. reflexivity.
  - destruct (difference_is_clock_distance
                (Samples.tick_at 3 Samples.smtp_ok) 23 [] eq_refl eq_refl)
      as (_ & _ & _ & Hhigh); [simpl; lia|].
    apply Hhigh; [apply Z.ltb_lt; reflexivity | reflexivity].
Defined.

(** ** SoilSensor_Prediction_Email.py: the data of the forecast *)

Section ForecastData.
Import Py Predict.
Local Open Scope Q_scope.

Lemma Forall_slice {B} (P : B -> Prop) (l : list B) (i j : nat) :
  Forall P l -> Forall P (slice l i j).
Proof.
  intro H. unfold slice.
  rewrite <- (firstn_skipn i l) in H. apply Forall_app in H.
  destruct H as [_ H].
  rewrite <- (firstn_skipn (j - i) (skipn i l)) in H.
  apply Forall_app in H. now destruct H.
Qed.

Lemma last_skipn {B} (l : list B) (k : nat) (d : B) :
  (k < length l)%nat -> last (skipn k l) d = last l d.
Proof.
  revert k. induction l as [|x l IH]; intros k Hk; [simpl in Hk; lia|].
  destruct k as [|k]; [reflexivity|]. cbn [skipn].
  rewrite IH by (simpl in Hk; lia).
  destruct l; [simpl in Hk; lia | reflexivity].
Qed.

Lemma last_map_nonempty {B C} (f : B -> C) (l : list B) (d : B) (d' : C) :
  l <> [] -> last (map f l) d' = f (last l d).
Proof.
  induction l as [|x l IH]; intro Hne; [contradiction|].
  destruct l as [|x' l]; [reflexivity|].
  change (last (map f (x' :: l)) d' = f (last (x' :: l) d)).
  apply IH. discriminate.
Qed.

(** Every value of the column is scaled into the unit interval. *)
Lemma transform_in_unit (column : list Q) (s : MinMaxScaler.t) (x : Q) :
  MinMaxScaler.fit column = Ok s ->
  In x column ->
  0 <= MinMaxScaler.transform s x <= 1.
Proof.
  intros Hfit Hx.
  destruct (fit_bounds column s Hfit) as (Hb & Hrange & Hs & Hm).
  destruct (Hb x Hx) as [Hlo Hhi].
  unfold MinMaxScaler.transform. rewrite Hm, Hs.
  unfold MinMaxScaler.handle_zeros_in_scale.
  destruct (Qeq_bool (MinMaxScaler.data_range_ s) 0) eqn:E.
  - apply Qeq_bool_iff in E. rewrite Hrange in E.
    assert (Hz : x * (1 / 1) + (0 - MinMaxScaler.data_min_ s * (1 / 1))
                 == x - MinMaxScaler.data_min_ s) by field.
    rewrite Hz. split; lra.
  - apply Qeq_bool_neq in E. rewrite Hrange in *.
    set (lo := MinMaxScaler.data_min_ s) in *.
    set (hi := MinMaxScaler.data_max_ s) in *.
    assert (Hpos : 0 < hi - lo).
    { destruct (Qlt_le_dec 0 (hi - lo)) as [H|H]; [exact H|].
      exfalso. apply E. lra. }
    assert (Hz : x * (1 / (hi - lo)) + (0 - lo * (1 / (hi - lo)))
                 == (x - lo) / (hi - lo)) by (field; lra).
    rewrite Hz. split.
    + apply Qle_shift_div_l; [exact Hpos | lra].
    + apply Qle_shift_div_r; [exact Hpos | lra].
Qed.

(** De-normalising a normalised value gives the value back. *)
Lemma inverse_transform_transform (column : list Q) (s : MinMaxScaler.t)
    (x : Q) :
  MinMaxScaler.fit column = Ok s ->
  MinMaxScaler.inverse_transform s (MinMaxScaler.transform s x) == x.
Proof.
  intro Hfit. destruct (fit_bounds column s Hfit) as (_ & _ & Hs & Hm).
  unfold MinMaxScaler.inverse_transform, MinMaxScaler.transform.
  rewrite Hm, Hs. field. apply handle_zeros_nonzero.
Qed.

(** The run of [build_and_predict_model], with the training set and the
    first input sequence named once for all models. *)
Lemma forecast_data_flow (df : DataFrame) :
  (SEQ_LENGTH + 1 <= length df)%nat ->
  exists (scaler : MinMaxScaler.t) (X : list (list Q)) (y : list Q)
         (a b c : Q),
    MinMaxScaler.fit (map moisture df) = Ok scaler /\
    create_sequences
      (map (MinMaxScaler.transform scaler) (map moisture df)) SEQ_LENGTH
      = Ok (X, y) /\
    last_n SEQ_LENGTH (map (MinMaxScaler.transform scaler) (map moisture df))
      = [a; b; c] /\
    forall fit_model,
      build_and_predict_model fit_model df
      = Ok {| day1 := MinMaxScaler.inverse_transform scaler
                        (fit_model X y [a; b; c]);
              day2 := MinMaxScaler.inverse_transform scaler
                        (fit_model X y [b; c; fit_model X y [a; b; c]]);
              day3 := MinMaxScaler.inverse_transform scaler
                        (fit_model X y
                           [c; fit_model X y [a; b; c];
                            fit_model X y
                              [b; c; fit_model X y [a; b; c]]]) |}.
Proof.
  intro Hlen.
  destruct (build_and_predict_model_runs (fun _ _ _ => 0) df Hlen)
    as (scaler & X & y & a & b & c & Hfit & Hcs & Hlast & _).
  exists scaler, X, y, a, b, c. repeat split; try assumption.
  intro fit_model.
  destruct (build_and_predict_model_runs fit_model df Hlen)
    as (scaler' & X' & y' & a' & b' & c' & Hfit' & Hcs' & Hlast' & Hrun).
  rewrite Hfit in Hfit'. injection Hfit' as <-.
  rewrite Hcs in Hcs'. injection Hcs' as <- <-.
  rewrite Hlast in Hlast'. injection Hlast' as <- <- <-.
  exact Hrun.
Qed.

End ForecastData.

Section ForecastProperties.
Import Py Predict.
Local Open Scope Q_scope.

(** X1.  When the forecast can be made.  [build_and_predict_model] returns a
    forecast exactly when the history has at least [SEQ_LENGTH + 1] rows.
    An empty history stops in the scaler with a [ValueError]; one to
    [SEQ_LENGTH] rows give no training window and stop with an
    [IndexError] before any model is built. *)
Theorem forecast_needs_four_rows
    (fit_model : list (list Q) -> list Q -> list Q -> Q) (df : DataFrame) :
  (df = [] -> build_and_predict_model fit_model df = Raise ValueError) /\
  (df <> [] -> (length df <= SEQ_LENGTH)%nat ->
   build_and_predict_model fit_model df = Raise IndexError) /\
  ((exists p, build_and_predict_model fit_model df = Ok p)
   <-> (SEQ_LENGTH + 1 <= length df)%nat).
Proof.
  split; [|split].
  - intros ->. reflexivity.
  - apply build_and_predict_model_short.
  - split.
    + intros [p Hp].
      destruct (Nat.le_gt_cases (SEQ_LENGTH + 1) (length df)) as [H|H];
        [exact H|].
      destruct df as [|r df'].
      * discriminate Hp.
      * rewrite (build_and_predict_model_short fit_model (r :: df')) in Hp;
          [discriminate Hp | discriminate | unfold SEQ_LENGTH in *; lia].
    + intro Hlen.
      destruct (build_and_predict_model_runs fit_model df Hlen)
        as (scaler & X & y & a & b & c & _ & _ & _ & Hrun).
      eexists. exact Hrun.
Qed.

Lemma last_n_map {B C} (f : B -> C) (n : nat) (l : list B) :
  last_n n (map f l) = map f (last_n n l).
Proof. unfold last_n. now rewrite length_map, skipn_map. Qed.

(** X2.  The rolling window.  The first input of the model is the last three
    moisture values of the history, scaled; the second drops the oldest of
    them and takes the first output at its end; the third does the same
    with the second output.  Each forecast value is the de-normalised
    output of its step. *)
Theorem forecast_rolls_its_window (df : DataFrame) :
  (SEQ_LENGTH + 1 <= length df)%nat ->
  exists (scaler : MinMaxScaler.t) (X : list (list Q)) (y : list Q)
         (m1 m2 m3 : Q),
    MinMaxScaler.fit (map moisture df) = Ok scaler /\
    last_n 3 (map moisture df) = [m1; m2; m3] /\
    forall fit_model,
      let model := fit_model X y in
      let a := MinMaxScaler.transform scaler m1 in
      let b := MinMaxScaler.transform scaler m2 in
      let c := MinMaxScaler.transform scaler m3 in
      let p1 := model [a; b; c] in
      let p2 := model [b; c; p1] in
      let p3 := model [c; p1; p2] in
      build_and_predict_model fit_model df
      = Ok {| day1 := MinMaxScaler.inverse_transform scaler p1;
              day2 := MinMaxScaler.inverse_transform scaler p2;
              day3 := MinMaxScaler.inverse_transform scaler p3 |}.
Proof.
  intro Hlen.
  destruct (forecast_data_flow df Hlen)
    as (scaler & X & y & a & b & c & Hfit & _ & Hlast & Hrun).
  unfold SEQ_LENGTH in Hlast. rewrite last_n_map in Hlast.
  destruct (last_n 3 (map moisture df)) as [|m1 [|m2 [|m3 [|m4 r]]]];
    try discriminate Hlast.
  cbn [map] in Hlast. injection Hlast as <- <- <-.
  exists scaler, X, y, m1, m2, m3. repeat split; try assumption.
Qed.

(** X3.  The training set.  The model is fitted on [len - SEQ_LENGTH]
    windows of [SEQ_LENGTH] values each and as many targets, and every
    value it is fitted on lies in the unit interval. *)
Theorem training_set_is_normalised (df : DataFrame) :
  (SEQ_LENGTH + 1 <= length df)%nat ->
  exists (X : list (list Q)) (y : list Q),
    (forall fit_model, exists scaler s1 s2 s3,
        build_and_predict_model fit_model df
        = Ok {| day1 := MinMaxScaler.inverse_transform scaler
                          (fit_model X y s1);
                day2 := MinMaxScaler.inverse_transform scaler
                          (fit_model X y s2);
                day3 := MinMaxScaler.inverse_transform scaler
                          (fit_model X y s3) |}) /\
    length X = (length df - SEQ_LENGTH)%nat /\
    length y = (length df - SEQ_LENGTH)%nat /\
    Forall (fun x => length x = SEQ_LENGTH /\ Forall (fun v => 0 <= v <= 1) x)
      X /\
    Forall (fun v => 0 <= v <= 1) y.
Proof.
  intro Hlen.
  destruct (forecast_data_flow df Hlen)
    as (scaler & X & y & a & b & c & Hfit & Hcs & _ & Hrun).
  exists X, y. split.
  { intro fit_model. do 4 eexists. apply Hrun. }
  set (scaled := map (MinMaxScaler.transform scaler) (map moisture df)) in *.
  assert (Hscaled : Forall (fun v => 0 <= v <= 1) scaled).
  { apply Forall_forall. intros v Hv. unfold scaled in Hv.
    apply in_map_iff in Hv. destruct Hv as (x & <- & Hx).
    now apply (transform_in_unit (map moisture df)). }
  assert (Hsl : length scaled = length df)
    by (unfold scaled; now rewrite !length_map).
  rewrite (create_sequences_value scaled SEQ_LENGTH 0) in Hcs.
  injection Hcs as <- <-. rewrite !length_map, !length_seq, Hsl.
  split; [reflexivity|]. split; [reflexivity|]. split.
  - apply Forall_forall. intros x Hx. apply in_map_iff in Hx.
    destruct Hx as (i & <- & Hi). apply in_seq in Hi. split.
    + apply slice_length. lia.
    + now apply Forall_slice.
  - apply Forall_forall. intros v Hv. apply in_map_iff in Hv.
    destruct Hv as (i & <- & Hi). apply in_seq in Hi.
    apply (proj1 (Forall_forall _ scaled) Hscaled).
    apply nth_In. lia.
Qed.

(** X4.  A flat history.  When all moisture values of the history are equal
    the range of the scaler is zero and counts as 1: every value the model
    sees is 0, and each forecast value is the history value plus the raw
    output of the model. *)
Theorem flat_history_adds_raw_output
    (fit_model : list (list Q) -> list Q -> list Q -> Q)
    (df : DataFrame) (h : Q) :
  (SEQ_LENGTH + 1 <= length df)%nat ->
  (forall r, In r df -> moisture r == h) ->
  exists (X : list (list Q)) (y : list Q) (s1 s2 s3 : list Q) (p : prediction),
    build_and_predict_model fit_model df = Ok p /\
    day1 p == h + fit_model X y s1 /\
    day2 p == h + fit_model X y s2 /\
    day3 p == h + fit_model X y s3 /\
    Forall (fun v => v == 0) s1.
Proof.
  intros Hlen Hflat.
  destruct (forecast_data_flow df Hlen)
    as (scaler & X & y & a & b & c & Hfit & _ & Hlast & Hrun).
  exists X, y. do 3 eexists. eexists. split; [apply Hrun|].
  cbn [day1 day2 day3].
  destruct (fit_bounded_column h h _ _ Hfit) as [Hlo Hhi].
  { intros v Hv. apply in_map_iff in Hv. destruct Hv as (r & <- & Hr).
    rewrite (Hflat r Hr). split; apply Qle_refl. }
  destruct (fit_bounds _ _ Hfit) as (Hb & Hrange & Hs & Hm).
  assert (Hmm : MinMaxScaler.data_min_ scaler <= MinMaxScaler.data_max_ scaler).
  { destruct df as [|r df']; [simpl in Hlen; lia|].
    destruct (Hb (moisture r) (or_introl eq_refl)) as [H1 H2].
    eapply Qle_trans; eauto. }
  assert (Hmin : MinMaxScaler.data_min_ scaler == h) by lra.
  assert (Hzero : MinMaxScaler.data_range_ scaler == 0) by (rewrite Hrange; lra).
  assert (Hhz : MinMaxScaler.handle_zeros_in_scale
                  (MinMaxScaler.data_range_ scaler) = 1).
  { unfold MinMaxScaler.handle_zeros_in_scale.
    apply Qeq_bool_iff in Hzero. now rewrite Hzero. }
  assert (Hinv : forall q, MinMaxScaler.inverse_transform scaler q == h + q).
  { intro q. rewrite (inverse_transform_affine _ _ q Hfit), Hhz, Hmin. ring. }
  repeat split; try apply Hinv.
  unfold SEQ_LENGTH in Hlast. rewrite <- Hlast.
  apply Forall_forall. intros v Hv.
  unfold last_n in Hv.
  assert (Hv' : In v (map (MinMaxScaler.transform scaler) (map moisture df))).
  { rewrite <- (firstn_skipn
                  (length (map (MinMaxScaler.transform scaler)
                             (map moisture df)) - 3) _).
    apply in_or_app. now right. }
  apply in_map_iff in Hv'. destruct Hv' as (x & <- & Hx).
  apply in_map_iff in Hx. destruct Hx as (r & <- & Hr).
  unfold MinMaxScaler.transform. rewrite Hm, Hs, Hhz, Hmin, (Hflat r Hr).
  field.
Qed.

(** X5.  Normalising and de-normalising cancel, in exact arithmetic.  With a
    model that answers the newest value of its input, the forecast for all
    three days is, as a rational number, the newest moisture value of the
    history.  The script computes in binary floating point, where the two
    steps cancel only up to rounding: there the values returned are the
    nearest the arithmetic gives, not always the value itself. *)
Theorem persistence_forecasts_newest_value (df : DataFrame) (r0 : Row) :
  (SEQ_LENGTH + 1 <= length df)%nat ->
  exists p : prediction,
    build_and_predict_model MoreSamples.model_persistence df = Ok p /\
    day1 p == moisture (last df r0) /\
    day2 p == moisture (last df r0) /\
    day3 p == moisture (last df r0).
Proof.
  intro Hlen.
  destruct (forecast_data_flow df Hlen)
    as (scaler & X & y & a & b & c & Hfit & _ & Hlast & Hrun).
  eexists. split; [apply Hrun|]. cbn [day1 day2 day3].
  unfold MoreSamples.model_persistence. cbn [last].
  assert (Hc : c = MinMaxScaler.transform scaler (moisture (last df r0))).
  { set (scaled := map (MinMaxScaler.transform scaler) (map moisture df)) in *.
    assert (Hsl : length scaled = length df)
      by (unfold scaled; now rewrite !length_map).
    assert (H1 : last scaled 0 = c).
    { rewrite <- (last_skipn scaled (length scaled - 3) 0)
        by (unfold SEQ_LENGTH in Hlen; lia).
      unfold last_n, SEQ_LENGTH in Hlast. now rewrite Hlast. }
    rewrite <- H1. unfold scaled. rewrite map_map.
    apply (last_map_nonempty
             (fun r => MinMaxScaler.transform scaler (moisture r)) df r0 0).
    intros ->. simpl in Hlen. lia. }
  rewrite Hc.
  repeat split; apply (inverse_transform_transform (map moisture df)); exact Hfit.
Qed.

End ForecastProperties.

(** ** SoilSensor_Prediction_Email.py: the history and the session *)

Section CallbackHistory.
Import Py Predict.

Lemma last_n_one {B} (l : list B) (d : B) :
  l <> [] -> last_n 1 l = [last l d].
Proof.
  intro Hne. unfold last_n.
  assert (Hl : length (skipn (length l - 1) l) = 1).
  { rewrite length_skipn. destruct l; [contradiction | cbn [length]; lia]. }
  pose proof (last_skipn l (length l - 1) d) as Hlast.
  destruct (skipn (length l - 1) l) as [|x [|x' r]]; simpl in Hl; try lia.
  cbn [last] in Hlast. rewrite Hlast; [reflexivity|].
  destruct l; [contradiction | cbn [length]; lia].
Qed.

(** A row with its date as [to_csv] writes it after the conversion. *)
Let redated (env : callback_env) (r : Row) : Row :=
  {| date := date_written env (date r);
     moisture := moisture r;
     temperature := temperature r;
     rainfall := rainfall r;
     light := light r;
     irrigation := irrigation r |}.

(** The row appended after a table whose last row is [r]. *)
Let appended (env : callback_env) (m : Q) (r : Row) : Row :=
  {| date := now_stamp env;
     moisture := m;
     temperature := temperature r;
     rainfall := rainfall r;
     light := light r;
     irrigation := 0 |}.

Lemma to_datetime_cases (env : callback_env) (df : DataFrame) :
  to_datetime env df
  = match df with
    | [] => Ok []
    | _ :: _ => if dates_parse env (map date df)
                then Ok (map (redated env) df)
                else Raise ValueError
    end.
Proof. destruct df; reflexivity. Qed.

Lemma last_redated (env : callback_env) (df : DataFrame) (r0 : Row) :
  df <> [] ->
  appended env 0 (last (map (redated env) df) r0)
  = appended env 0 (last df r0).
Proof.
  intro Hne.
  rewrite (last_map_nonempty (redated env) df r0 r0 Hne). reflexivity.
Qed.

(** The three ways [load_and_update_data] can go. *)
Lemma load_and_update_data_cases (env : callback_env) (m : Q) (w : world)
    (r0 : Row) :
  load_and_update_data env m w
  = match csv_file w with
    | [] => (Raise IndexError, w)
    | _ :: _ =>
        if dates_parse env (map date (csv_file w)) then
          (Ok (map (redated env) (csv_file w)
               ++ [appended env m (last (csv_file w) r0)]),
           {| csv_file := map (redated env) (csv_file w)
                          ++ [appended env m (last (csv_file w) r0)];
              wire := wire w;
              stdout := stdout w |})
        else (Raise ValueError, w)
    end.
Proof.
  unfold load_and_update_data, read_csv, to_csv, lift, bind, ret.
  cbn [fst snd]. rewrite to_datetime_cases.
  destruct (csv_file w) as [|r rows] eqn:Hcsv; [reflexivity|].
  destruct (dates_parse env (map date (r :: rows))); [|reflexivity].
  rewrite (last_n_one (map (redated env) (r :: rows)) r0) by discriminate.
  rewrite (last_map_nonempty (redated env) (r :: rows) r0 r0) by discriminate.
  reflexivity.
Qed.

(** X6.  The row appended.  On a file with at least one row whose date
    column [pd.to_datetime] accepts, [load_and_update_data] writes the file
    anew and returns the same table: the rows that were there, in place,
    with their dates as the conversion writes them, and after them exactly
    one row with the time of the call, the moisture given, temperature,
    rainfall and light of the row that was last, and irrigation 0.  When
    the date column is not accepted it stops with a [ValueError], and on a
    file without rows with an [IndexError]; in both cases nothing is
    written. *)
Theorem load_and_update_data_appends (env : callback_env) (m : Q) (w : world) :
  (csv_file w = [] ->
   load_and_update_data env m w = (Raise IndexError, w)) /\
  (csv_file w <> [] ->
   dates_parse env (map date (csv_file w)) = false ->
   load_and_update_data env m w = (Raise ValueError, w)) /\
  (forall r0, csv_file w <> [] ->
     dates_parse env (map date (csv_file w)) = true ->
     let old := map (fun r => {| date := date_written env (date r);
                                 moisture := moisture r;
                                 temperature := temperature r;
                                 rainfall := rainfall r;
                                 light := light r;
                                 irrigation := irrigation r |})
                  (csv_file w) in
     let row := {| date := now_stamp env;
                   moisture := m;
                   temperature := temperature (last (csv_file w) r0);
                   rainfall := rainfall (last (csv_file w) r0);
                   light := light (last (csv_file w) r0);
                   irrigation := 0 |} in
     load_and_update_data env m w
     = (Ok (old ++ [row]),
        {| csv_file := old ++ [row];
           wire := wire w;
           stdout := stdout w |})).
Proof.
  split; [|split].
  - intro H. rewrite (load_and_update_data_cases env m w (appended env m
                        (appended env m {| date := now_stamp env;
                           moisture := m; temperature := m; rainfall := m;
                           light := m; irrigation := m |}))).
    now rewrite H.
  - intros Hne Hp.
    rewrite (load_and_update_data_cases env m w (appended env m
               {| date := now_stamp env; moisture := m; temperature := m;
                  rainfall := m; light := m; irrigation := m |})).
    rewrite Hp. destruct (csv_file w); [contradiction | reflexivity].
  - intros r0 Hne Hp. cbv zeta.
    rewrite (load_and_update_data_cases env m w r0), Hp.
    destruct (csv_file w); [contradiction | reflexivity].
Qed.

Lemma alert_block_csv (env : callback_env) (m : Q) (p : prediction) (w : world) :
  csv_file (snd (alert_block env m p w)) = csv_file w.
Proof.
  unfold alert_block.
  destruct (predict_send_email_effect env m p w) as (Hcsv & _ & _).
  destruct (gpio_on_decision env); [exact Hcsv|].
  destruct (contains (now_hour env) [8; 20]%Z); [exact Hcsv | reflexivity].
Qed.

(** The callback up to the forecast, on a file whose dates are accepted. *)
Lemma moisture_callback_loaded
    (fit_model : list (list Q) -> list Q -> list Q -> Q)
    (env : callback_env) (w : world) (r0 : Row) :
  csv_file w <> [] ->
  dates_parse env (map date (csv_file w)) = true ->
  let m := if gpio_on_entry env then uniform env 30 35
           else uniform env 38 45 in
  let df := map (redated env) (csv_file w)
            ++ [appended env m (last (csv_file w) r0)] in
  let w1 := {| csv_file := df; wire := wire w;
               stdout := stdout w ++ [PrintDetected m] |} in
  moisture_callback fit_model env w
  = match build_and_predict_model fit_model df with
    | Ok p =>
        alert_block env m p
          {| csv_file := df; wire := wire w;
             stdout := (stdout w ++ [PrintDetected m])
                       ++ [PrintPrediction p] |}
    | Raise e => (Raise e, w1)
    end.
Proof.
  intros Hne Hp. cbv zeta. unfold moisture_callback.
  set (m := if gpio_on_entry env then uniform env 30 35
            else uniform env 38 45).
  unfold bind at 1. unfold print at 1. cbn [fst snd].
  unfold bind at 1.
  rewrite (load_and_update_data_cases env m _ r0).
  cbn [csv_file wire stdout]. rewrite Hp.
  destruct (csv_file w) as [|r rows] eqn:Hcsv; [contradiction|].
  unfold bind, lift, print. cbn [fst snd csv_file wire stdout].
  destruct (build_and_predict_model fit_model _); reflexivity.
Qed.

(** The callback on a file that stops [load_and_update_data]. *)
Lemma moisture_callback_not_loaded
    (fit_model : list (list Q) -> list Q -> list Q -> Q)
    (env : callback_env) (w : world) :
  csv_file w = [] \/
  dates_parse env (map date (csv_file w)) = false ->
  let m := if gpio_on_entry env then uniform env 30 35
           else uniform env 38 45 in
  moisture_callback fit_model env w
  = (Raise (match csv_file w with [] => IndexError | _ :: _ => ValueError end),
     {| csv_file := csv_file w; wire := wire w;
        stdout := stdout w ++ [PrintDetected m] |}).
Proof.
  intros H. cbv zeta. unfold moisture_callback.
  set (m := if gpio_on_entry env then uniform env 30 35
            else uniform env 38 45).
  unfold bind at 1. unfold print at 1. cbn [fst snd].
  unfold bind at 1.
  rewrite (load_and_update_data_cases env m _
             {| date := now_stamp env; moisture := m; temperature := m;
                rainfall := m; light := m; irrigation := m |}).
  cbn [csv_file wire stdout].
  destruct (csv_file w) as [|r rows] eqn:Hcsv; [reflexivity|].
  destruct H as [H|H]; [discriminate H|]. now rewrite H.
Qed.

(** X7.  The reading is recorded whatever happens next.  On a file with at
    least one row whose date column [pd.to_datetime] accepts, the callback
    leaves the file with the rows that were there, their dates as the
    conversion writes them, and exactly one more row, holding the moisture
    drawn for the state of the pin (between the bounds 30 and 35 when dry,
    38 and 45 when wet), whatever the model, whether the forecast can be
    made or not, and however the mail goes.  When the date column is not
    accepted the callback stops with a [ValueError] and the file is as it
    was: the reading is lost. *)
Theorem callback_records_reading
    (fit_model : list (list Q) -> list Q -> list Q -> Q)
    (env : callback_env) (w : world) (r0 : Row) :
  csv_file w <> [] ->
  (dates_parse env (map date (csv_file w)) = true ->
   csv_file (snd (moisture_callback fit_model env w))
   = map (fun r => {| date := date_written env (date r);
                      moisture := moisture r;
                      temperature := temperature r;
                      rainfall := rainfall r;
                      light := light r;
                      irrigation := irrigation r |}) (csv_file w)
     ++ [{| date := now_stamp env;
            moisture := if gpio_on_entry env then uniform env 30 35
                        else uniform env 38 45;
            temperature := temperature (last (csv_file w) r0);
            rainfall := rainfall (last (csv_file w) r0);
            light := light (last (csv_file w) r0);
            irrigation := 0 |}]) /\
  (dates_parse env (map date (csv_file w)) = false ->
   fst (moisture_callback fit_model env w) = Raise ValueError /\
   csv_file (snd (moisture_callback fit_model env w)) = csv_file w).
Proof.
  intro Hne. split; intro Hp.
  - rewrite (moisture_callback_loaded fit_model env w r0 Hne Hp).
    destruct (build_and_predict_model fit_model _) as [p|e];
      [|reflexivity].
    now rewrite alert_block_csv.
  - rewrite (moisture_callback_not_loaded fit_model env w (or_intror Hp)).
    cbn [fst snd csv_file].
    destruct (csv_file w); [contradiction | split; reflexivity].
Qed.

End CallbackHistory.

Section CallbackEdges.
Import Py Predict.

(** X8.  Too short a history.  With fewer than [SEQ_LENGTH] rows in the file
    the callback stops with an exception, a [ValueError] when the file has
    rows whose date column [pd.to_datetime] does not accept and an
    [IndexError] otherwise: nothing is predicted or printed beyond the
    reading, and no SMTP call is made, even when the pin reads dry. *)
Theorem callback_insufficient_history
    (fit_model : list (list Q) -> list Q -> list Q -> Q)
    (env : callback_env) (w : world) :
  length (csv_file w) < SEQ_LENGTH ->
  fst (moisture_callback fit_model env w)
  = Raise (match csv_file w with
           | [] => IndexError
           | _ :: _ => if dates_parse env (map date (csv_file w))
                       then IndexError else ValueError
           end) /\
  wire (snd (moisture_callback fit_model env w)) = wire w /\
  stdout (snd (moisture_callback fit_model env w))
  = stdout w ++ [PrintDetected (if gpio_on_entry env then uniform env 30 35
                                else uniform env 38 45)].
Proof.
  unfold SEQ_LENGTH. intro Hlen.
  destruct (csv_file w) as [|r rows] eqn:Hcsv.
  - rewrite (moisture_callback_not_loaded fit_model env w)
      by (now left).
    rewrite Hcsv. repeat split; reflexivity.
  - destruct (dates_parse env (map date (r :: rows))) eqn:Hp.
    + assert (Hne : csv_file w <> []) by (rewrite Hcsv; discriminate).
      assert (Hp' : dates_parse env (map date (csv_file w)) = true)
        by (now rewrite Hcsv).
      rewrite (moisture_callback_loaded fit_model env w r Hne Hp').
      rewrite build_and_predict_model_short.
      * repeat split; reflexivity.
      * intro H. apply app_eq_nil in H. destruct H as [_ H]. discriminate H.
      * rewrite length_app, length_map, Hcsv. unfold SEQ_LENGTH.
        cbn [length] in *. lia.
    + rewrite (moisture_callback_not_loaded fit_model env w)
        by (right; now rewrite Hcsv).
      rewrite Hcsv. repeat split; reflexivity.
Qed.

(** X9.  With at least [SEQ_LENGTH] rows already in the CSV file and a date
    column that [pd.to_datetime] accepts, the callback appends its row, the
    forecast goes through and the last block is reached: a session is
    opened when the pin reads dry, or at 8 and 20.  When the date column is
    not accepted the callback stops with a [ValueError] before that and no
    session is opened, whatever the pin reads. *)
Theorem moisture_callback_decision
    (fit_model : list (list Q) -> list Q -> list Q -> Q)
    (env : callback_env) (w : world) :
  SEQ_LENGTH <= length (csv_file w) ->
  (dates_parse env (map date (csv_file w)) = true ->
   should_send (moisture_callback fit_model env) w
   = gpio_on_decision env || contains (now_hour env) [8; 20]%Z) /\
  (dates_parse env (map date (csv_file w)) = false ->
   fst (moisture_callback fit_model env w) = Raise ValueError /\
   should_send (moisture_callback fit_model env) w = false).
Proof.
  unfold SEQ_LENGTH. intro Hlen.
  assert (Hne : csv_file w <> [])
    by (intro H; rewrite H in Hlen; simpl in Hlen; lia).
  split; intro Hp.
  - unfold should_send.
    rewrite (moisture_callback_loaded fit_model env w
               {| date := now_stamp env; moisture := 0; temperature := 0;
                  rainfall := 0; light := 0; irrigation := 0 |} Hne Hp).
    match goal with
    | |- context [build_and_predict_model fit_model ?d] => set (df := d)
    end.
    destruct (build_and_predict_model_runs fit_model df)
      as (scaler & X & y & a & b & c & _ & _ & _ & Hrun).
    { unfold df, SEQ_LENGTH. rewrite length_app, length_map. simpl. lia. }
    cbv zeta in Hrun. rewrite Hrun.
    match goal with
    | |- context [alert_block env ?m ?p ?w0] =>
        set (pr := p); set (w2 := w0);
        change (sessions w) with (sessions w2);
        change (sessions w2 <? sessions (snd (alert_block env m pr w2)))
          with (should_send (alert_block env m pr) w2)
    end.
    unfold alert_block.
    destruct (gpio_on_decision env); cbn [orb].
    + apply should_send_send_email.
    + destruct (contains (now_hour env) [8; 20]%Z).
      * apply should_send_send_email.
      * apply should_send_ret.
  - unfold should_send.
    rewrite (moisture_callback_not_loaded fit_model env w (or_intror Hp)).
    cbn [fst snd]. split.
    + destruct (csv_file w); [contradiction | reflexivity].
    + apply Nat.ltb_irrefl.
Qed.

(** X10.  What the session of the callback script reports.  The login is
    tried only after the connection and STARTTLS went through; the one
    message handed over carries the pin state read inside [send_email], the
    moisture and the forecast given; "Email sent successfully" is printed
    exactly when the message was accepted, before [quit]: a [quit] that
    then fails makes the script print the failure as well. *)
Theorem predict_session_report (env : callback_env) (m : Q) (p : prediction)
    (w : world) :
  exists calls out,
    wire (snd (send_email env m p w)) = wire w ++ calls /\
    stdout (snd (send_email env m p w)) = stdout w ++ out /\
    (In PrintEmailSent out <->
     connect (smtp env) = Ok tt /\ starttls (smtp env) = Ok tt /\
     login (smtp env) = Ok tt /\ send (smtp env) = Ok tt) /\
    (In SmtpLogin calls ->
     connect (smtp env) = Ok tt /\ starttls (smtp env) = Ok tt) /\
    (forall msg, In (SmtpSendMessage msg) calls ->
       login (smtp env) = Ok tt /\
       msg = {| status_dry := gpio_on_render env;
                body_moisture := m;
                body_prediction := p |}) /\
    (forall e,
        connect (smtp env) = Ok tt -> starttls (smtp env) = Ok tt ->
        login (smtp env) = Ok tt -> send (smtp env) = Ok tt ->
        quit (smtp env) = Raise e -> is_Exception e = true ->
        out = [PrintEmailSent; PrintEmailFailed e]).
Proof.
  destruct env as [g1 u dp dw st g2 h g3 [c s l sd q]].
  unfold send_email, try_except, bind, smtp_call, print. cbn.
  outcome_cases; repeat rewrite <- app_assoc; cbn;
    (do 2 eexists; split; [reflexivity|]; split;
     [try reflexivity; symmetry; apply app_nil_r|]);
    cbn; repeat split; intros; list_cases.
Qed.

End CallbackEdges.

Lemma forecast_needs_four_rows_witness :
  Predict.build_and_predict_model Samples.model_half [] = Py.Raise Py.ValueError /\
  Predict.build_and_predict_model Samples.model_half MoreSamples.history_two
  = Py.Raise Py.IndexError /\
  (exists p,
      Predict.build_and_predict_model Samples.model_half Samples.history_spread
      = Py.Ok p).
Proof.
  split; [|split].
  - apply (proj1 (forecast_needs_four_rows Samples.model_half [])).
    reflexivity.
  - apply (proj1 (proj2 (forecast_needs_four_rows Samples.model_half
                           MoreSamples.history_two))).
    + discriminate.
    + unfold Predict.SEQ_LENGTH. simpl. lia.
  - apply (proj2 (proj2 (forecast_needs_four_rows Samples.model_half
                           Samples.history_spread))).
    simpl. lia.
Defined.

Lemma forecast_rolls_its_window_witness :
  exists (scaler : Predict.MinMaxScaler.t) (X : list (list Q)) (y : list Q)
         (m1 m2 m3 : Q),
    Predict.MinMaxScaler.fit (map Predict.moisture Samples.history_spread)
    = Py.Ok scaler /\
    Py.last_n 3 (map Predict.moisture Samples.history_spread) = [m1; m2; m3] /\
    exists p,
      Predict.build_and_predict_model Samples.model_half Samples.history_spread
      = Py.Ok p.
Proof.
  destruct (forecast_rolls_its_window Samples.history_spread)
    as (scaler & X & y & m1 & m2 & m3 & Hfit & Hlast & Hrun).
  - simpl. lia.
  - exists scaler, X, y, m1, m2, m3. split; [exact Hfit|].
    split; [exact Hlast|]. eexists. apply (Hrun Samples.model_half).
Defined.

Lemma training_set_is_normalised_witness :
  exists (X : list (list Q)) (y : list Q),
    (exists scaler s1 s2 s3,
        Predict.build_and_predict_model Samples.model_half
          Samples.history_spread
        = Py.Ok {| Predict.day1 :=
                     Predict.MinMaxScaler.inverse_transform scaler
                       (Samples.model_half X y s1);
                   Predict.day2 :=
                     Predict.MinMaxScaler.inverse_transform scaler
                       (Samples.model_half X y s2);
                   Predict.day3 :=
                     Predict.MinMaxScaler.inverse_transform scaler
                       (Samples.model_half X y s3) |}) /\
    length X = 1 /\ length y = 1 /\
    Forall (fun x => length x = 3 /\ Forall (fun v => 0 <= v <= 1)%Q x) X /\
    Forall (fun v => 0 <= v <= 1)%Q y.
Proof.
  destruct (training_set_is_normalised Samples.history_spread)
    as (X & y & Hrun & HX & Hy & HXr & Hyr).
  - simpl. lia.
  - exists X, y. split; [apply (Hrun Samples.model_half)|]. auto.
Defined.

Lemma flat_history_adds_raw_output_witness :
  exists (p : Predict.prediction),
    Predict.build_and_predict_model Samples.model_two MoreSamples.history_flat
    = Py.Ok p /\
    (Predict.day1 p == 41 + 2)%Q.
Proof.
  destruct (flat_history_adds_raw_output Samples.model_two
              MoreSamples.history_flat 41%Q)
    as (X & y & s1 & s2 & s3 & p & Hp & H1 & _).
  - simpl. lia.
  - intros r Hr. simpl in Hr.
    destruct Hr as [<-|[<-|[<-|[<-|[]]]]]; reflexivity.
  - exists p. split; [exact Hp | exact H1].
Defined.

Lemma persistence_forecasts_newest_value_witness :
  exists p : Predict.prediction,
    Predict.build_and_predict_model MoreSamples.model_persistence
      Samples.history_spread = Py.Ok p /\
    (Predict.day1 p == 100)%Q /\
    (Predict.day2 p == 100)%Q /\
    (Predict.day3 p == 100)%Q.
Proof.
  apply (persistence_forecasts_newest_value Samples.history_spread
           (Samples.row_of 0)).
  simpl. lia.
Defined.

Lemma load_and_update_data_appends_witness :
  Predict.load_and_update_data (Samples.callback_at true 9 Samples.smtp_ok) 33
    (MoreSamples.world_of [])
  = (Py.Raise Py.IndexError, MoreSamples.world_of []) /\
  Predict.load_and_update_data (Samples.callback_at true 9 Samples.smtp_ok) 33
    MoreSamples.world_after_event
  = (Py.Raise Py.ValueError, MoreSamples.world_after_event) /\
  fst (Predict.load_and_update_data
         (Samples.callback_at true 9 Samples.smtp_ok) 33
         (MoreSamples.world_of MoreSamples.history_two))
  = Py.Ok [{| Predict.date := "2025-01-01 08:00:00";
              Predict.moisture := 40;
              Predict.temperature := 20;
              Predict.rainfall := 0;
              Predict.light := 300;
              Predict.irrigation := 0 |};
           {| Predict.date := "2025-01-01 08:00:00";
              Predict.moisture := 42;
              Predict.temperature := 20;
              Predict.rainfall := 0;
              Predict.light := 300;
              Predict.irrigation := 0 |};
           {| Predict.date := "2025-01-08 08:00";
              Predict.moisture := 33;
              Predict.temperature := 20;
              Predict.rainfall := 0;
              Predict.light := 300;
              Predict.irrigation := 0 |}].
Proof.
  split; [|split].
  - apply (proj1 (load_and_update_data_appends
                    (Samples.callback_at true 9 Samples.smtp_ok) 33
                    (MoreSamples.world_of []))).
    reflexivity.
  - apply (proj1 (proj2 (load_and_update_data_appends
                           (Samples.callback_at true 9 Samples.smtp_ok) 33
                           MoreSamples.world_after_event))).
    + vm_compute. discriminate.
    + vm_compute. reflexivity.
  - rewrite (proj2 (proj2 (load_and_update_data_appends
                             (Samples.callback_at true 9 Samples.smtp_ok) 33
                             (MoreSamples.world_of MoreSamples.history_two)))
               (Samples.row_of 0)).
    + reflexivity.
    + discriminate.
    + reflexivity.
Defined.

Lemma callback_records_reading_witness :
  length
    (Predict.csv_file
       (snd (Predict.moisture_callback Samples.model_half
               (Samples.callback_at true 9 Samples.smtp_unreachable)
               (MoreSamples.world_of MoreSamples.history_two))))
  = 3 /\
  fst (Predict.moisture_callback Samples.model_half
         (Samples.callback_at true 9 Samples.smtp_ok)
         MoreSamples.world_after_event)
  = Py.Raise Py.ValueError /\
  Predict.csv_file
    (snd (Predict.moisture_callback Samples.model_half
            (Samples.callback_at true 9 Samples.smtp_ok)
            MoreSamples.world_after_event))
  = Predict.csv_file MoreSamples.world_after_event.
Proof.
  split.
  - rewrite (proj1 (callback_records_reading Samples.model_half
                      (Samples.callback_at true 9 Samples.smtp_unreachable)
                      (MoreSamples.world_of MoreSamples.history_two)
                      (Samples.row_of 0) ltac:(discriminate))).
    + reflexivity.
    + reflexivity.
  - apply (proj2 (callback_records_reading Samples.model_half
                    (Samples.callback_at true 9 Samples.smtp_ok)
                    MoreSamples.world_after_event
                    (Samples.row_of 0) ltac:(vm_compute; discriminate))).
    vm_compute. reflexivity.
Defined.

Lemma callback_insufficient_history_witness :
  fst (Predict.moisture_callback Samples.model_half
         (Samples.callback_at true 9 Samples.smtp_ok)
         (MoreSamples.world_of MoreSamples.history_two))
  = Py.Raise Py.IndexError /\
  Predict.wire
    (snd (Predict.moisture_callback Samples.model_half
            (Samples.callback_at true 9 Samples.smtp_ok)
            (MoreSamples.world_of MoreSamples.history_two)))
  = [] /\
  fst (Predict.moisture_callback Samples.model_half
         (Samples.callback_at true 9 Samples.smtp_ok)
         MoreSamples.world_after_short_event)
  = Py.Raise Py.ValueError.
Proof.
  destruct (callback_insufficient_history Samples.model_half
              (Samples.callback_at true 9 Samples.smtp_ok)
              (MoreSamples.world_of MoreSamples.history_two))
    as (Hret & Hwire & _).
  - simpl. unfold Predict.SEQ_LENGTH. lia.
  - destruct (callback_insufficient_history Samples.model_half
                (Samples.callback_at true 9 Samples.smtp_ok)
                MoreSamples.world_after_short_event)
      as (Hret' & _ & _).
    + vm_compute. lia.
    + split; [exact Hret|]. split; [exact Hwire | exact Hret'].
Defined.

Lemma predict_session_report_witness :
  exists calls out,
    Predict.stdout
      (snd (Predict.send_email
              (Samples.callback_at true 9 MoreSamples.smtp_quit_fails) 33
              Samples.forecast_flat (MoreSamples.world_of [])))
    = [] ++ out /\
    Predict.wire
      (snd (Predict.send_email
              (Samples.callback_at true 9 MoreSamples.smtp_quit_fails) 33
              Samples.forecast_flat (MoreSamples.world_of [])))
    = [] ++ calls /\
    out = [Predict.PrintEmailSent; Predict.PrintEmailFailed Py.SMTPException].
Proof.
  destruct (predict_session_report
              (Samples.callback_at true 9 MoreSamples.smtp_quit_fails) 33
              Samples.forecast_flat (MoreSamples.world_of []))
    as (calls & out & Hwire & Hout & _ & _ & _ & Hquit).
  exists calls, out. split; [exact Hout|]. split; [exact Hwire|].
  apply (Hquit Py.SMTPException); reflexivity.
Defined.

Lemma moisture_callback_decision_witness :
  Predict.should_send
    (Predict.moisture_callback Samples.model_half
       (Samples.callback_at false 20 Samples.smtp_ok))
    Samples.world_spread
  = true /\
  Predict.should_send
    (Predict.moisture_callback Samples.model_half
       (Samples.callback_at false 9 Samples.smtp_ok))
    Samples.world_spread
  = false /\
  fst (Predict.moisture_callback Samples.model_half
         (Samples.callback_at true 9 Samples.smtp_ok)
         MoreSamples.world_after_event)
  = Py.Raise Py.ValueError /\
  Predict.should_send
    (Predict.moisture_callback Samples.model_half
       (Samples.callback_at true 9 Samples.smtp_ok))
    MoreSamples.world_after_event
  = false.
Proof.
  split; [|split].
  - rewrite (proj1 (moisture_callback_decision Samples.model_half
                      (Samples.callback_at false 20 Samples.smtp_ok)
                      Samples.world_spread
                      ltac:(simpl; unfold Predict.SEQ_LENGTH; lia))).
    + reflexivity.
    + reflexivity.
  - rewrite (proj1 (moisture_callback_decision Samples.model_half
                      (Samples.callback_at false 9 Samples.smtp_ok)
                      Samples.world_spread
                      ltac:(simpl; unfold Predict.SEQ_LENGTH; lia))).
    + reflexivity.
    + reflexivity.
  - apply (proj2 (moisture_callback_decision Samples.model_half
                    (Samples.callback_at true 9 Samples.smtp_ok)
                    MoreSamples.world_after_event
                    ltac:(vm_compute; lia))).
    vm_compute. reflexivity.
Defined.
